(** * FinWise-AI: chunking, retrieval orchestration and rule-based analytics

    A shallow embedding of the algorithmic core of the repository:

    - [src/services/document_processor.py]  ([DocumentProcessor._chunk_text])
    - [src/services/vector_store.py]        ([VectorStoreService])
    - [src/services/rag_service.py]         ([RAGService.query])
    - [src/services/ml_service.py]          ([MLService])

    Python [int] is [Z]; [str] is [string], read as a sequence of code
    points below 256; a [float] is a value of a type with the [Float]
    operations, of which [binary64] is the arithmetic of the program on
    integers of fewer than 64 bits; a [dict] with string keys is a [gmap string _], or a record
    when its keys are fixed; a raised exception is the [Raised] outcome; a
    [while] loop is iterated with explicit fuel and [Diverged] is the outcome
    of a run that no amount of fuel completes.  Logging is left out. *)

From Stdlib Require Import ZArith List String Ascii Bool Lia Reals Lra DecimalString
  DecimalPos DecimalZ.
From Stdlib Require Floats.PrimFloat Numbers.Cyclic.Int63.Uint63.
From stdpp Require Import base option gmap strings.

Import ListNotations.
Local Open Scope string_scope.
Local Open Scope Z_scope.

(** ** Python values and outcomes *)

(** An exception, identified by the name of its class. *)
Inductive exn : Type :=
| Exn (class_name : string).

(** What a call does: return a value, raise, or never come back. *)
Inductive outcome (A : Type) : Type :=
| Returned (a : A)
| Raised (e : exn)
| Diverged.

Arguments Returned {A} a.
Arguments Raised {A} e.
Arguments Diverged {A}.

#[global] Instance outcome_ret : MRet outcome := fun A a => Returned a.

#[global] Instance outcome_bind : MBind outcome := fun A B k m =>
  match m with
  | Returned a => k a
  | Raised e => Raised e
  | Diverged => Diverged
  end.

(** ** Python string primitives *)

Module PyStr.

Definition len (s : string) : Z := Z.of_nat (String.length s).

(** Normalisation of one bound of [s[i:j]] against the length [n]. *)
Definition clamp (n i : Z) : Z :=
  if i <? 0 then Z.max 0 (i + n) else Z.min i n.

(** [s[start:stop]] *)
Definition slice (s : string) (start stop : Z) : string :=
  let lo := clamp (len s) start in
  let hi := clamp (len s) stop in
  if lo <? hi then substring (Z.to_nat lo) (Z.to_nat (hi - lo)) s else "".

(** [s.rfind(c)] for a one-character needle: the highest index holding
    [c], or [-1].  [i] is the index of the head of [s]. *)
Fixpoint rfind_from (c : ascii) (s : string) (i : Z) : Z :=
  match s with
  | EmptyString => -1
  | String a rest =>
      let r := rfind_from c rest (i + 1) in
      if 0 <=? r then r else if Ascii.eqb a c then i else -1
  end.

Definition rfind (s : string) (c : ascii) : Z := rfind_from c s 0.

(** [c.isspace()] for a code point below 256: the ASCII controls 9-13 and
    28-31, the space, NEL (133) and the no-break space (160). *)
Definition isspace (c : ascii) : bool :=
  let n := N_of_ascii c in
  ((9 <=? n) && (n <=? 13) || (28 <=? n) && (n <=? 32)
   || (n =? 133) || (n =? 160))%N.

Fixpoint lstrip (s : string) : string :=
  match s with
  | EmptyString => EmptyString
  | String c rest => if isspace c then lstrip rest else s
  end.

Fixpoint rstrip (s : string) : string :=
  match s with
  | EmptyString => EmptyString
  | String c rest =>
      match rstrip rest with
      | EmptyString => if isspace c then EmptyString else String c EmptyString
      | kept => String c kept
      end
  end.

(** [s.strip()] *)
Definition strip (s : string) : string := rstrip (lstrip s).

(** [c.lower()] for a code point below 256: the letters A-Z, and the
    Latin-1 capitals 192-222 but for the multiplication sign (215). *)
Definition lower_char (c : ascii) : ascii :=
  let n := N_of_ascii c in
  if ((65 <=? n) && (n <=? 90)
      || (192 <=? n) && (n <=? 222) && negb (n =? 215))%N
  then ascii_of_N (n + 32) else c.

(** [s.lower()] *)
Fixpoint lower (s : string) : string :=
  match s with
  | EmptyString => EmptyString
  | String c rest => String (lower_char c) (lower rest)
  end.

(** [needle in s] *)
Fixpoint contains (s needle : string) : bool :=
  if String.prefix needle s then true
  else match s with
       | EmptyString => false
       | String _ rest => contains rest needle
       end.

End PyStr.

(** ** DocumentProcessor *)

Module Chunk.
(** The dictionary appended to [chunks] by [_chunk_text]; its five keys
    are fixed, so it is a record. *)
Record t : Type := mk {
  chunk_id : Z;
  text : string;
  start_char : Z;
  end_char : Z;
  length : Z
}.
End Chunk.

Module DocumentProcessor.

Record t : Type := mk {
  supported_formats : list string;
  chunk_size : Z;
  chunk_overlap : Z
}.

(** [DocumentProcessor.__init__] *)
Definition __init__ : t :=
  {| supported_formats := [".pdf"; ".png"; ".jpg"; ".jpeg"; ".docx"];
     chunk_size := 1000;
     chunk_overlap := 200 |}.

(** [x or default] for an optional integer argument: [None] and [0] are
    both falsy. *)
Definition or_default (x : option Z) (default : Z) : Z :=
  match x with
  | Some v => if v =? 0 then default else v
  | None => default
  end.

(** [break_point > chunk_size * 0.5].  The product is exact in binary
    floating point for [|chunk_size| <= 2^53] and Python compares an
    [int] with a [float] exactly, so in that range the test is
    [chunk_size < 2 * b].  A wider [chunk_size] is rounded when it is
    converted, and the conversion raises [OverflowError] from about [2^1024]
    on: the test is reached with such a value only on a text that is longer
    still, or with a cursor that has moved before offset 0. *)
Definition past_halfway (break_point chunk_size : Z) : bool :=
  chunk_size <? 2 * break_point.

(** The variables the [while] loop updates. *)
Record loop_state : Type := mk_state {
  start : Z;
  next_id : Z;
  chunks : list Chunk.t
}.

Definition initial_state : loop_state :=
  {| start := 0; next_id := 0; chunks := [] |}.

(** [start < len(text)] *)
Definition loop_guard (text : string) (st : loop_state) : bool :=
  start st <? PyStr.len text.

(** The end offset and the slice chosen by one iteration. *)
Definition choose_end (text : string) (chunk_size start : Z) : Z * string :=
  let end_ := start + chunk_size in
  let chunk_text := PyStr.slice text start end_ in
  if end_ <? PyStr.len text then
    let last_period := PyStr.rfind chunk_text "."%char in
    let last_newline := PyStr.rfind chunk_text "010"%char in
    let break_point := Z.max last_period last_newline in
    if past_halfway break_point chunk_size then
      let end_ := start + break_point + 1 in
      (end_, PyStr.slice text start end_)
    else (end_, chunk_text)
  else (end_, chunk_text).

(** One iteration of the loop body. *)
Definition loop_body (text : string) (chunk_size overlap : Z)
    (st : loop_state) : loop_state :=
  let '(end_, chunk_text) := choose_end text chunk_size (start st) in
  {| start := end_ - overlap;
     next_id := next_id st + 1;
     chunks := chunks st ++
       [ {| Chunk.chunk_id := next_id st;
            Chunk.text := PyStr.strip chunk_text;
            Chunk.start_char := start st;
            Chunk.end_char := end_;
            Chunk.length := PyStr.len chunk_text |} ] |}.

(** [while start < len(text): ...; return chunks] *)
Fixpoint while_loop (fuel : nat) (text : string) (chunk_size overlap : Z)
    (st : loop_state) : outcome (list Chunk.t) :=
  if loop_guard text st then
    match fuel with
    | O => Diverged
    | S fuel' =>
        while_loop fuel' text chunk_size overlap
          (loop_body text chunk_size overlap st)
    end
  else Returned (chunks st).

(** [DocumentProcessor._chunk_text] *)
Definition _chunk_text (fuel : nat) (self : t) (text : string)
    (chunk_size overlap : option Z) : outcome (list Chunk.t) :=
  let chunk_size := or_default chunk_size (DocumentProcessor.chunk_size self) in
  let overlap := or_default overlap (chunk_overlap self) in
  while_loop fuel text chunk_size overlap initial_state.

End DocumentProcessor.

(** ** Floating-point numbers *)

(** The arithmetic the services perform on Python [float]s and on numpy
    and pandas values.  The code is embedded over any implementation.
    [float_of_int] is the conversion of an [int] that numpy holds as an
    [int64]; a statement about amounts carries that range.  Of the two
    implementations below, [ideal] reads the operations in the real numbers
    (it rounds nothing, so it is not the arithmetic of the program and serves
    only to exhibit inputs), and [binary64] is IEEE 754 double precision. *)
Class Float (F : Type) : Type := {
  float_of_int : Z -> F;           (* float(z) *)
  decimal : Z -> nat -> F;         (* the literal m / 10^e *)
  fadd : F -> F -> F;
  fsub : F -> F -> F;
  fmul : F -> F -> F;
  fabs : F -> F;
  fgt : F -> F -> bool;            (* x > y *)
  feq : F -> F -> bool;            (* x == y *)
  np_mean : list F -> F;           (* numpy.mean *)
  np_std : list F -> F;            (* numpy.std, population (ddof = 0) *)
  series_mean : list F -> F;       (* pandas.Series.mean *)
  series_std : list F -> F         (* pandas.Series.std, sample (ddof = 1) *)
}.

Module Ideal.
Local Open Scope R_scope.

Definition sum (l : list R) : R := fold_right Rplus 0 l.

Definition mean (l : list R) : R := sum l / INR (length l).

(** Sum of the squared deviations from the mean. *)
Definition sum_sq_dev (l : list R) : R :=
  sum (map (fun x => (x - mean l) * (x - mean l)) l).

Definition population_std (l : list R) : R :=
  sqrt (sum_sq_dev l / INR (length l)).

Definition sample_std (l : list R) : R :=
  sqrt (sum_sq_dev l / (INR (length l) - 1)).
End Ideal.

#[global] Instance ideal : Float R := {|
  float_of_int := IZR;
  decimal := fun m e => (IZR m / IZR (10 ^ Z.of_nat e))%R;
  fadd := Rplus;
  fsub := Rminus;
  fmul := Rmult;
  fabs := Rabs;
  fgt := fun x y => if Rgt_dec x y then true else false;
  feq := fun x y => if Req_dec_T x y then true else false;
  np_mean := Ideal.mean;
  np_std := Ideal.population_std;
  series_mean := Ideal.mean;
  series_std := Ideal.sample_std
|}.

(** Double precision, the [float] of Python and the [float64] of numpy,
    as the primitive floats of the kernel.  [of_int] is [float(z)] for an
    integer of fewer than 64 bits, rounded to nearest; a wider integer is
    outside the range of the statements and is given [nan].  Sums are taken in
    the order of the list, which is the order of numpy for fewer than eight
    values. *)
Module Binary64.

Definition of_int (z : Z) : PrimFloat.float :=
  if Z.abs z <? 2 ^ 63 then
    let magnitude := PrimFloat.of_uint63 (Uint63.of_Z (Z.abs z)) in
    if z <? 0 then PrimFloat.opp magnitude else magnitude
  else PrimFloat.nan.

Definition sum (l : list PrimFloat.float) : PrimFloat.float :=
  fold_left PrimFloat.add l PrimFloat.zero.

Definition mean (l : list PrimFloat.float) : PrimFloat.float :=
  PrimFloat.div (sum l) (of_int (Z.of_nat (length l))).

(** Sum of the squared deviations from the mean. *)
Definition sum_sq_dev (l : list PrimFloat.float) : PrimFloat.float :=
  sum (map (fun x => PrimFloat.mul (PrimFloat.sub x (mean l))
                                   (PrimFloat.sub x (mean l))) l).

Definition population_std (l : list PrimFloat.float) : PrimFloat.float :=
  PrimFloat.sqrt (PrimFloat.div (sum_sq_dev l) (of_int (Z.of_nat (length l)))).

Definition sample_std (l : list PrimFloat.float) : PrimFloat.float :=
  PrimFloat.sqrt
    (PrimFloat.div (sum_sq_dev l) (of_int (Z.of_nat (length l) - 1))).

End Binary64.

Definition binary64 : Float PrimFloat.float := {|
  float_of_int := Binary64.of_int;
  decimal := fun m e =>
    PrimFloat.div (Binary64.of_int m) (Binary64.of_int (10 ^ Z.of_nat e));
  fadd := PrimFloat.add;
  fsub := PrimFloat.sub;
  fmul := PrimFloat.mul;
  fabs := PrimFloat.abs;
  fgt := fun x y => PrimFloat.ltb y x;
  feq := PrimFloat.eqb;
  np_mean := Binary64.mean;
  np_std := Binary64.population_std;
  series_mean := Binary64.mean;
  series_std := Binary64.sample_std
|}.

(** ** Python values held by transaction dictionaries *)

Inductive pyval (F : Type) : Type :=
| VNone
| VBool (b : bool)
| VInt (z : Z)
| VFloat (x : F)
| VStr (s : string).

Arguments VNone {F}.
Arguments VBool {F} b.
Arguments VInt {F} z.
Arguments VFloat {F} x.
Arguments VStr {F} s.

(** A Python number, the result of [abs]. *)
Inductive number (F : Type) : Type :=
| NInt (z : Z)
| NFloat (x : F).

Arguments NInt {F} z.
Arguments NFloat {F} x.

(** [for x in l: f x] collecting the results; the first exception ends it. *)
Fixpoint traverse {A B : Type} (f : A -> outcome B) (l : list A) : outcome (list B) :=
  match l with
  | [] => Returned []
  | a :: rest => b ← f a; bs ← traverse f rest; mret (b :: bs)
  end.

(** [d.get(key, default)] *)
Definition dict_get {V : Type} (d : gmap string V) (key : string) (default : V) : V :=
  match d !! key with
  | Some v => v
  | None => default
  end.

(** ** MLService *)

Module MLService.
Section WithFloat.
Context {F : Type} `{Float F}.

(** A transaction is a [Dict[str, Any]]. *)
Definition transaction : Type := gmap string (pyval F).

Record t : Type := mk {
  (* a dict literal: iteration follows the order of insertion *)
  category_keywords : list (string * list string)
}.

(** [MLService._init_category_keywords] *)
Definition _init_category_keywords : list (string * list string) :=
  [ ("Food & Dining", ["grocery"; "food"; "restaurant"; "cafe"; "dining"; "pizza"; "burger"]);
    ("Transportation", ["gas"; "fuel"; "transport"; "uber"; "lyft"; "taxi"; "parking"]);
    ("Housing", ["rent"; "mortgage"; "property"; "lease"]);
    ("Utilities", ["utility"; "electric"; "water"; "gas bill"; "internet"; "phone"]);
    ("Healthcare", ["medical"; "doctor"; "pharmacy"; "hospital"; "health"]);
    ("Entertainment", ["movie"; "theater"; "concert"; "game"; "netflix"; "spotify"]);
    ("Shopping", ["amazon"; "store"; "mall"; "shop"; "retail"]);
    ("Insurance", ["insurance"; "policy"; "premium"]);
    ("Education", ["school"; "tuition"; "course"; "book"]) ].

(** [MLService.__init__] *)
Definition __init__ : t := {| category_keywords := _init_category_keywords |}.

(** [any(keyword in description_lower for keyword in keywords)] *)
Definition any_keyword_in (keywords : list string) (description_lower : string) : bool :=
  existsb (fun keyword => PyStr.contains description_lower keyword) keywords.

(** [MLService._categorize_single] *)
Definition _categorize_single (self : t) (description : string) : string :=
  let description_lower := PyStr.lower description in
  match find (fun entry => any_keyword_in (snd entry) description_lower)
             (category_keywords self) with
  | Some (category, _) => category
  | None => "Other"
  end.

(** [v.lower()]: only a [str] has the method. *)
Definition py_lower (v : pyval F) : outcome string :=
  match v with
  | VStr s => Returned (PyStr.lower s)
  | _ => Raised (Exn "AttributeError")
  end.

(** [MLService.categorize_expenses] *)
Definition categorize_expenses (self : t) (transactions : list transaction)
    : outcome (list string) :=
  traverse (fun transaction =>
    description ← py_lower (dict_get transaction "description" (VStr ""));
    mret (_categorize_single self description)) transactions.

(** [abs(v)] *)
Definition py_abs (v : pyval F) : outcome (number F) :=
  match v with
  | VInt z => Returned (NInt (Z.abs z))
  | VBool b => Returned (NInt (if b then 1 else 0))
  | VFloat x => Returned (NFloat (fabs x))
  | VNone | VStr _ => Raised (Exn "TypeError")
  end.

(** The value of a number as a numpy [float64]: an [int] of fewer than
    64 bits is held by numpy as an [int64] and converted; a wider one is
    kept as a Python object, or fails to convert, and is outside the
    embedding. *)
Definition to_float (n : number F) : F :=
  match n with
  | NInt z => float_of_int z
  | NFloat x => x
  end.

(** [[abs(t.get("amount", 0)) for t in transactions]] *)
Definition absolute_amounts (transactions : list transaction)
    : outcome (list (number F)) :=
  traverse (fun t => py_abs (dict_get t "amount" (VInt 0))) transactions.

(** [MLService.detect_anomalies] *)
Definition detect_anomalies (self : t) (transactions : list transaction)
    (threshold : F) : outcome (list bool) :=
  amounts ← absolute_amounts transactions;
  if (length amounts <? 2)%nat then Returned (repeat false (length amounts))
  else
    let mean := np_mean (map to_float amounts) in
    let std := np_std (map to_float amounts) in
    if feq std (float_of_int 0) then Returned (repeat false (length amounts))
    else Returned (map (fun amount =>
           fgt (fabs (fsub (to_float amount) mean)) (fmul threshold std)) amounts).

(** A [pandas.DataFrame] of numeric columns: the length of its index and
    its columns in order, each with its label (labels are distinct). *)
Record DataFrame : Type := mk_frame {
  nrows : nat;
  columns : list (string * list F)
}.

(** [label in df.columns] *)
Definition has_column (df : DataFrame) (label : string) : bool :=
  existsb (fun col => String.eqb (fst col) label) (columns df).

(** [df[label]], for a label known to be among the columns. *)
Definition column (df : DataFrame) (label : string) : outcome (list F) :=
  match find (fun col => String.eqb (fst col) label) (columns df) with
  | Some (_, values) => Returned values
  | None => Raised (Exn "KeyError")
  end.

(** [df.iloc[:, 0]] *)
Definition iloc_first (df : DataFrame) : outcome (list F) :=
  match columns df with
  | (_, values) :: _ => Returned values
  | [] => Raised (Exn "IndexError")
  end.

(** [series.tail(n)] *)
Definition tail (n : nat) (series : list F) : list F :=
  skipn (length series - n) series.

(** The values a forecast dictionary holds. *)
Inductive forecast_value : Type :=
| Floats (l : list F)
| Intervals (l : list (F * F))
| Str (s : string)
| Num (x : F).

(** The series [forecast_expenses] reads: the column ['amount'] if there
    is one, the first column otherwise. *)
Definition amount_series (df : DataFrame) : outcome (list F) :=
  if has_column df "amount" then column df "amount" else iloc_first df.

(** [MLService.forecast_expenses] *)
Definition forecast_expenses (self : t) (historical_data : DataFrame)
    (periods : Z) : outcome (gmap string forecast_value) :=
  if (nrows historical_data <? 3)%nat then
    Returned (<["forecast" := Floats []]>
             (<["confidence_interval" := Intervals []]>
             (<["method" := Str "insufficient_data"]> ∅)))
  else
    series ← amount_series historical_data;
    let recent_avg := series_mean (tail 3 series) in
    let recent_std := series_std (tail 3 series) in
    let forecast := repeat recent_avg (Z.to_nat periods) in
    let confidence_interval :=
      map (fun f => (fsub f (fmul (decimal 196 2) recent_std),
                     fadd f (fmul (decimal 196 2) recent_std))) forecast in
    Returned (<["forecast" := Floats forecast]>
             (<["confidence_interval" := Intervals confidence_interval]>
             (<["method" := Str "moving_average"]>
             (<["baseline" := Num recent_avg]> ∅)))).

End WithFloat.
End MLService.

(** ** Stateful calls *)

(** A call that reads and updates a state [S] and returns or raises; the
    state reached when the exception was raised is kept. *)
Definition prog (S A : Type) : Type := S -> outcome A * S.

#[global] Instance prog_ret {S : Type} : MRet (prog S) :=
  fun A a s => (Returned a, s).

#[global] Instance prog_bind {S : Type} : MBind (prog S) := fun A B k m s =>
  match m s with
  | (Returned a, s') => k a s'
  | (Raised e, s') => (Raised e, s')
  | (Diverged, s') => (Diverged, s')
  end.

Definition raise {S A : Type} (e : exn) : prog S A := fun s => (Raised e, s).

Definition get_state {S : Type} : prog S S := fun s => (Returned s, s).

Definition modify {S : Type} (f : S -> S) : prog S unit := fun s => (Returned tt, f s).

(** [try: m  except Exception as e: h e] *)
Definition try_with {S A : Type} (m : prog S A) (h : exn -> prog S A) : prog S A :=
  fun s => match m s with
           | (Raised e, s') => h e s'
           | other => other
           end.

(** A pure outcome as a call. *)
Definition of_outcome {S A : Type} (o : outcome A) : prog S A := fun s => (o, s).

(** [seq[i]] *)
Definition py_index {A : Type} (l : list A) (i : nat) : outcome A :=
  match l !! i with
  | Some a => Returned a
  | None => Raised (Exn "IndexError")
  end.

(** ** VectorStoreService *)

(** Metadata of an index entry; a value stands for its [str()] rendering. *)
Abbreviation metadata := (gmap string string).

(** What [collection.query] answers: one list per query embedding. *)
Record QueryResult (F : Type) : Type := mk_query_result {
  ids : list (list string);
  documents : list (list string);
  metadatas : list (list metadata);
  distances : option (list (list F))     (* the key may be absent *)
}.

Arguments mk_query_result {F}.
Arguments ids {F}.
Arguments documents {F}.
Arguments metadatas {F}.
Arguments distances {F}.

(** The ChromaDB client and the sentence-transformer model, over the state
    [DB] of the persistent store.  A collection is known by its name. *)
Class Backend (F DB : Type) : Type := {
  path_mkdir : string -> prog DB unit;
  persistent_client : string -> prog DB unit;
  get_or_create_collection : string -> prog DB unit;
  create_collection : string -> prog DB unit;
  delete_collection : string -> prog DB unit;
  sentence_transformer : string -> prog DB unit;
  encode : list string -> prog DB (list (list F));
  collection_count : string -> prog DB Z;
  collection_add : string -> list (list F) -> list string -> list metadata ->
                   list string -> prog DB unit;
  collection_query : string -> list F -> Z -> option metadata -> prog DB (QueryResult F);
  collection_delete : string -> list string -> prog DB unit
}.

(** One formatted search result. *)
Record SearchResult (F : Type) : Type := mk_search_result {
  id : string;
  document : string;
  result_metadata : metadata;
  distance : option F
}.

Arguments mk_search_result {F}.
Arguments id {F}.
Arguments document {F}.
Arguments result_metadata {F}.
Arguments distance {F}.

(** The values a statistics dictionary holds. *)
Inductive stats_value : Type :=
| StatInt (z : Z)
| StatStr (s : string).

Module VectorStoreService.

Record t : Type := mk {
  persist_directory : string;
  client : bool;                 (* [self.client is not None] *)
  collection : option string;    (* the collection handle, or [None] *)
  embedding_model : bool;        (* [self.embedding_model is not None] *)
  embedding_dimension : Z
}.

(** [VectorStoreService.__init__] *)
Definition __init__ (persist_directory : string) : t :=
  {| persist_directory := persist_directory;
     client := false;
     collection := None;
     embedding_model := false;
     embedding_dimension := 384 |}.

Section WithBackend.
Context {F DB : Type} `{Backend F DB}.

(** The service instance together with the store it talks to. *)
Definition state : Type := t * DB.

(** A call of the backend. *)
Definition backend {A : Type} (m : prog DB A) : prog state A :=
  fun s => let '(r, db) := m (snd s) in (r, (fst s, db)).

Definition self : prog state t := fun s => (Returned (fst s), s).

Definition set_self (f : t -> t) : prog state unit :=
  fun s => (Returned tt, (f (fst s), snd s)).

(** [self.collection.<method>]: [None] has no attribute. *)
Definition the_collection : prog state string :=
  me ← self;
  match collection me with
  | Some name => mret name
  | None => raise (Exn "AttributeError")
  end.

(** [self.embedding_model.encode] *)
Definition the_model : prog state unit :=
  me ← self;
  if embedding_model me then mret tt else raise (Exn "AttributeError").

(** [self.client.<method>] *)
Definition the_client : prog state unit :=
  me ← self;
  if client me then mret tt else raise (Exn "AttributeError").

(** [VectorStoreService.initialize] *)
Definition initialize : prog state unit :=
  try_with
    (me ← self;
     backend (path_mkdir (persist_directory me));;
     backend (persistent_client (persist_directory me));;
     set_self (fun me => {| persist_directory := persist_directory me;
                            client := true;
                            collection := collection me;
                            embedding_model := embedding_model me;
                            embedding_dimension := embedding_dimension me |});;
     backend (get_or_create_collection "financial_documents");;
     set_self (fun me => {| persist_directory := persist_directory me;
                            client := client me;
                            collection := Some "financial_documents";
                            embedding_model := embedding_model me;
                            embedding_dimension := embedding_dimension me |});;
     backend (sentence_transformer "all-MiniLM-L6-v2");;
     set_self (fun me => {| persist_directory := persist_directory me;
                            client := client me;
                            collection := collection me;
                            embedding_model := true;
                            embedding_dimension := embedding_dimension me |});;
     name ← the_collection;
     backend (collection_count name);;
     mret tt)
    (fun e => raise e).

(** [VectorStoreService.add_documents] *)
Definition add_documents (texts : list string) (metadatas : list metadata)
    (ids : list string) : prog state unit :=
  try_with
    (the_model;;
     embeddings ← backend (encode texts);
     name ← the_collection;
     backend (collection_add name embeddings texts metadatas ids))
    (fun e => raise e).

(** The body of the [for i in range(len(results['ids'][0]))] loop. *)
Definition format_result (results : QueryResult F) (i : nat) : outcome (SearchResult F) :=
  ids0 ← py_index (ids results) 0;
  id_i ← py_index ids0 i;
  documents0 ← py_index (documents results) 0;
  document_i ← py_index documents0 i;
  metadatas0 ← py_index (metadatas results) 0;
  metadata_i ← py_index metadatas0 i;
  distance_i ← match distances results with
               | Some d => d0 ← py_index d 0; x ← py_index d0 i; mret (Some x)
               | None => mret None
               end;
  mret (mk_search_result id_i document_i metadata_i distance_i).

(** [VectorStoreService.search] *)
Definition search (query : string) (n_results : Z) (filter_dict : option metadata)
    : prog state (list (SearchResult F)) :=
  try_with
    (the_model;;
     encoded ← backend (encode [query]);
     query_embedding ← of_outcome (py_index encoded 0);
     name ← the_collection;
     results ← backend (collection_query name query_embedding n_results filter_dict);
     match ids results with
     | ids0 :: _ =>
         if (0 <? length ids0)%nat
         then of_outcome (traverse (format_result results) (seq 0 (length ids0)))
         else mret []
     | [] => mret []
     end)
    (fun e => raise e).

(** [VectorStoreService.delete_documents] *)
Definition delete_documents (ids : list string) : prog state unit :=
  try_with
    (name ← the_collection;
     backend (collection_delete name ids))
    (fun e => raise e).

(** [VectorStoreService.get_collection_stats] *)
Definition get_collection_stats : prog state (gmap string stats_value) :=
  try_with
    (name ← the_collection;
     count ← backend (collection_count name);
     me ← self;
     mret (<["total_documents" := StatInt count]>
          (<["collection_name" := StatStr name]>
          (<["embedding_dimension" := StatInt (embedding_dimension me)]> ∅))))
    (fun e => mret ∅).

(** [VectorStoreService.clear_collection] *)
Definition clear_collection : prog state unit :=
  try_with
    (the_client;;
     backend (delete_collection "financial_documents");;
     backend (create_collection "financial_documents");;
     set_self (fun me => {| persist_directory := persist_directory me;
                            client := client me;
                            collection := Some "financial_documents";
                            embedding_model := embedding_model me;
                            embedding_dimension := embedding_dimension me |}))
    (fun e => raise e).

End WithBackend.
End VectorStoreService.

(** ** RAGService *)

(** The wall clock and the language-model service. *)
Class Host (F : Type) : Type := {
  (* the [n]-th reading of [time.time()] *)
  time_time : nat -> F;
  (* [LLMService.generate_response(prompt, model, system_message, max_tokens, temperature)] *)
  generate_response : string -> string -> string -> Z -> F -> outcome string
}.

(** The values a query result dictionary holds. *)
Inductive query_value (F : Type) : Type :=
| QStr (s : string)
| QSources (l : list (SearchResult F))
| QFloat (x : F)
| QInt (z : Z).

Arguments QStr {F} s.
Arguments QSources {F} l.
Arguments QFloat {F} x.
Arguments QInt {F} z.

Module RAGService.

(** The line feed. *)
Definition nl : string := String "010" EmptyString.

(** [str(n)] for a natural number. *)
Definition str_of_nat (n : nat) : string := NilZero.string_of_uint (Nat.to_uint n).

(** [RAGService._build_prompt] *)
Definition _build_prompt (query context : string) : string :=
  "Based on the following context from financial documents, please answer the question accurately and concisely."
  ++ nl ++ nl ++ "Context:" ++ nl ++ context ++ nl ++ nl
  ++ "Question: " ++ query ++ nl ++ nl ++ "Answer:".

(** [RAGService._get_system_message] *)
Definition _get_system_message : string :=
  "You are a financial document analysis assistant. Your role is to:" ++ nl
  ++ "1. Provide accurate answers based ONLY on the provided context" ++ nl
  ++ "2. If the context doesn't contain enough information, say so clearly" ++ nl
  ++ "3. Cite specific details from the context when possible" ++ nl
  ++ "4. Use clear, professional language" ++ nl
  ++ "5. Format numbers and financial data appropriately" ++ nl
  ++ "6. Never make up information not present in the context".

(** The answer of the short circuit. *)
Definition no_information : string :=
  "I couldn't find any relevant information in the documents to answer your question.".

Section WithHost.
Context {F DB : Type} `{Float F} `{Backend F DB} `{Host F}.

(** The service ([vector_store], [initialized]), the store behind it and
    the number of clock readings taken so far. *)
Record world : Type := mk_world {
  vector_store : VectorStoreService.t;
  initialized : bool;
  db : DB;
  ticks : nat
}.

(** [RAGService.__init__] *)
Definition __init__ (store : DB) : world :=
  {| vector_store := VectorStoreService.__init__ "./data/chroma";
     initialized := false;
     db := store;
     ticks := 0 |}.

(** A call of a method of [self.vector_store]. *)
Definition on_vector_store {A : Type} (m : prog VectorStoreService.state A)
    : prog world A :=
  fun w => let '(r, (vs, store)) := m (vector_store w, db w) in
           (r, {| vector_store := vs; initialized := initialized w;
                  db := store; ticks := ticks w |}).

(** [time.time()] *)
Definition time : prog world F :=
  fun w => (Returned (time_time (ticks w)),
            {| vector_store := vector_store w; initialized := initialized w;
               db := db w; ticks := S (ticks w) |}).

(** [RAGService.initialize] *)
Definition initialize : prog world unit :=
  w ← get_state;
  if initialized w then mret tt
  else
    on_vector_store VectorStoreService.initialize;;
    modify (fun w => {| vector_store := vector_store w; initialized := true;
                        db := db w; ticks := ticks w |}).

(** The label of the [i]-th source. *)
Definition source_info (i : nat) (meta : metadata) : string :=
  let info := "Source " ++ str_of_nat i in
  let info := match meta !! "filename" with
              | Some filename => info ++ " (" ++ filename ++ ")"
              | None => info
              end in
  match meta !! "page" with
  | Some page => info ++ " - Page " ++ page
  | None => info
  end.

(** The loop of [_build_context], with [i] the number of the first result. *)
Fixpoint context_parts (i : nat) (search_results : list (SearchResult F)) : list string :=
  match search_results with
  | [] => []
  | result :: rest =>
      (source_info i (result_metadata result) ++ ":" ++ nl
         ++ document result ++ nl) :: context_parts (S i) rest
  end.

(** [RAGService._build_context] *)
Definition _build_context (search_results : list (SearchResult F)) : string :=
  String.concat nl (context_parts 1 search_results).

(** [RAGService.query] *)
Definition query (query : string) (n_results : Z) (model : string)
    (filter_dict : option metadata) : prog world (gmap string (query_value F)) :=
  start_time ← time;
  w ← get_state;
  (if initialized w then mret tt else initialize);;
  try_with
    (search_results ← on_vector_store
         (VectorStoreService.search query n_results filter_dict);
     match search_results with
     | [] =>
         now ← time;
         mret (<["answer" := QStr no_information]>
              (<["sources" := QSources []]>
              (<["context_used" := QStr ""]>
              (<["processing_time" := QFloat (fsub now start_time)]>
              (<["model_used" := QStr model]> ∅)))))
     | _ :: _ =>
         let context := _build_context search_results in
         let prompt := _build_prompt query context in
         let system_message := _get_system_message in
         answer ← of_outcome
           (generate_response prompt model system_message 1000 (decimal 7 1));
         now ← time;
         let processing_time := fsub now start_time in
         mret (<["answer" := QStr answer]>
              (<["sources" := QSources search_results]>
              (<["context_used" := QStr context]>
              (<["processing_time" := QFloat processing_time]>
              (<["model_used" := QStr model]>
              (<["num_sources" := QInt (Z.of_nat (length search_results))]> ∅))))))
     end)
    (fun e => raise e).

End WithHost.
End RAGService.

(** ** Stand-ins for the store, the clock and the language model *)

Module Stub.

(** A store without state: [collection.count()] does [count] and
    [collection.query(...)] does [answer]; every other call succeeds. *)
Definition store (count : outcome Z) (answer : outcome (QueryResult R))
    : Backend R unit := {|
  path_mkdir := fun _ db => (Returned tt, db);
  persistent_client := fun _ db => (Returned tt, db);
  get_or_create_collection := fun _ db => (Returned tt, db);
  create_collection := fun _ db => (Returned tt, db);
  delete_collection := fun _ db => (Returned tt, db);
  sentence_transformer := fun _ db => (Returned tt, db);
  encode := fun texts db => (Returned (map (fun _ => [0%R]) texts), db);
  collection_count := fun _ db => (count, db);
  collection_add := fun _ _ _ _ _ db => (Returned tt, db);
  collection_query := fun _ _ _ _ db => (answer, db);
  collection_delete := fun _ _ db => (Returned tt, db)
|}.

(** The answer of an index that holds nothing relevant. *)
Definition no_hits : QueryResult R :=
  mk_query_result [[]] [[]] [[]] (Some [[]]).

(** The answer of an index with one relevant entry. *)
Definition one_hit : QueryResult R :=
  mk_query_result [["doc_1_chunk_0"]] [["Balance: 100"]]
    [[ {[ "filename" := "statement.pdf" ]} ]] (Some [[0%R]]).

(** A clock that advances by one second per reading, and a model that
    always answers. *)
Definition host : Host R := {|
  time_time := fun n => INR n;
  generate_response := fun _ _ _ _ _ => Returned "The balance is 100."
|}.

(** A service after a successful [initialize]. *)
Definition ready : VectorStoreService.t :=
  VectorStoreService.mk "./data/chroma" true (Some "financial_documents") true 384.

End Stub.

(** ** Vocabulary for statements about chunk lists *)

Module ChunkSpec.

(** The ordinals of a chunk list, in order. *)
Definition ordinals (l : list Chunk.t) : list Z := map Chunk.chunk_id l.

(** [R] holds between every chunk and its successor. *)
Fixpoint adjacent (R : Chunk.t -> Chunk.t -> Prop) (l : list Chunk.t) : Prop :=
  match l with
  | c :: (c' :: _) as rest => R c c' /\ adjacent R rest
  | _ => True
  end.

(** The trail of the loop cursor: the first chunk starts at [cursor],
    each later one at its predecessor's [end_char - overlap], and the
    cursor is left at [final]. *)
Fixpoint chained (overlap cursor : Z) (l : list Chunk.t) (final : Z) : Prop :=
  match l with
  | [] => cursor = final
  | c :: rest =>
      Chunk.start_char c = cursor /\
      chained overlap (Chunk.end_char c - overlap) rest final
  end.

(** What holds of every chunk emitted over [text] with span [chunk_size]:
    it starts inside the text, it is not empty, and it ends a full span
    after its start or right after a sentence break past the halfway
    mark. *)
Definition well_spanned (text : string) (chunk_size : Z) (c : Chunk.t) : Prop :=
  Chunk.start_char c < PyStr.len text /\
  Chunk.start_char c < Chunk.end_char c <= Chunk.start_char c + chunk_size /\
  (Chunk.end_char c = Chunk.start_char c + chunk_size \/
   chunk_size < 2 * (Chunk.end_char c - Chunk.start_char c - 1)).

(** The invariant of the [while] loop of [_chunk_text]. *)
Record loop_inv (text : string) (cs ov : Z) (st : DocumentProcessor.loop_state) : Prop := {
  inv_next : DocumentProcessor.next_id st = Z.of_nat (length (DocumentProcessor.chunks st));
  inv_ids : ordinals (DocumentProcessor.chunks st) = seqZ 0 (Z.of_nat (length (DocumentProcessor.chunks st)));
  inv_each : Forall (well_spanned text cs) (DocumentProcessor.chunks st);
  inv_chain : chained ov 0 (DocumentProcessor.chunks st) (DocumentProcessor.start st)
}.


(** The text on which the sentence break undoes the progress of a chunk:
    a period at offset 8, then more than [chunk_size] characters. *)
Definition stalling_text : string := "aaaaaaaa.aaaaaaaaaaa".

(** The text whose first chunk, cut at the period at offset 6, is shorter
    than an overlap of 8. *)
Definition regressing_text : string := "aaaaaa.aaaaaaaaaaaaa".

End ChunkSpec.

(** ** Vocabulary for statements about keyword matching *)

Module TextSpec.

(** [needle] occurs in [s]. *)
Definition substring_of (needle s : string) : Prop :=
  exists before after : string, s = before ++ needle ++ after.

(** [keyword] occurs in [description] when case is ignored. *)
Definition matches_ignoring_case (keyword description : string) : Prop :=
  substring_of (PyStr.lower keyword) (PyStr.lower description).

(** Some keyword of the list occurs in [description]. *)
Definition category_matches (keywords : list string) (description : string) : Prop :=
  Exists (fun keyword => matches_ignoring_case keyword description) keywords.

(** [category] is the first entry of [table], in order, one of whose
    keywords occurs in [description]. *)
Definition first_matching (table : list (string * list string))
    (description category : string) : Prop :=
  exists before keywords after,
    table = (before ++ (category, keywords) :: after)%list /\
    category_matches keywords description /\
    Forall (fun entry => ~ category_matches (snd entry) description) before.

(** No entry of [table] has a keyword that occurs in [description]. *)
Definition none_matching (table : list (string * list string))
    (description : string) : Prop :=
  Forall (fun entry => ~ category_matches (snd entry) description) table.

End TextSpec.

(** ** Vocabulary for statements about transactions *)

Module TransactionSpec.
Section WithFloat.
Context {F : Type}.

(** The description is a string, or there is none. *)
Definition description_well_typed (t : gmap string (pyval F)) : Prop :=
  match t !! "description" with
  | None | Some (VStr _) => True
  | Some _ => False
  end.

(** The description [categorize_expenses] reads from [t]. *)
Definition description_of (t : gmap string (pyval F)) : string :=
  match t !! "description" with
  | Some (VStr s) => s
  | _ => ""
  end.

End WithFloat.
End TransactionSpec.

(** ** Vocabulary for statements about anomaly flags *)

Module AnomalySpec.
Section WithFloat.
Context {F : Type} `{Float F}.

(** The amount is absent, a [bool], a [float], or an [int] of fewer than
    64 bits, which numpy holds as an [int64]. *)
Definition amount_in_range (t : gmap string (pyval F)) : Prop :=
  match t !! "amount" with
  | None | Some (VBool _) | Some (VFloat _) => True
  | Some (VInt z) => - 2 ^ 63 < z < 2 ^ 63
  | Some _ => False
  end.

(** The absolute value of the amount of [t], as a float; a transaction
    without amount counts for 0. *)
Definition magnitude (t : gmap string (pyval F)) : F :=
  match t !! "amount" with
  | Some (VInt z) => float_of_int (if z <? 0 then - z else z)
  | Some (VFloat x) => fabs x
  | Some (VBool true) => float_of_int 1
  | _ => float_of_int 0
  end.

(** [x] is further from the mean of [xs] than [threshold] population
    standard deviations of [xs]. *)
Definition deviates (xs : list F) (threshold x : F) : bool :=
  fgt (fabs (fsub x (np_mean xs))) (fmul threshold (np_std xs)).

(** The flags of the values [xs]: none with fewer than two values or a
    standard deviation equal to 0, else those of the values that deviate. *)
Definition flags_of (xs : list F) (threshold : F) : list bool :=
  if (length xs <? 2)%nat || feq (np_std xs) (float_of_int 0)
  then repeat false (length xs)
  else map (deviates xs threshold) xs.

End WithFloat.
End AnomalySpec.

(** ** RAGService: indexing a document *)

Module Indexing.

(** [str(z)] for an integer. *)
Definition str_of_int (z : Z) : string := NilZero.string_of_int (Z.to_int z).

(** [f"{document_id}_chunk_{chunk['chunk_id']}"] *)
Definition entry_id (document_id : string) (chunk : Chunk.t) : string :=
  document_id ++ "_chunk_" ++ str_of_int (Chunk.chunk_id chunk).

(** [{**metadata, "chunk_id": chunk['chunk_id'], "document_id": document_id}] *)
Definition entry_metadata (metadata : gmap string string) (document_id : string)
    (chunk : Chunk.t) : gmap string string :=
  <["document_id" := document_id]>
    (<["chunk_id" := str_of_int (Chunk.chunk_id chunk)]> metadata).

Section WithHost.
Context {F DB : Type} `{Backend F DB}.

(** [RAGService.add_document_to_index] *)
Definition add_document_to_index (document_id : string) (chunks : list Chunk.t)
    (metadata : gmap string string) : prog RAGService.world unit :=
  w ← get_state;
  (if RAGService.initialized w then mret tt else RAGService.initialize);;
  try_with
    (let texts := map Chunk.text chunks in
     let chunk_metadatas := map (entry_metadata metadata document_id) chunks in
     let ids := map (entry_id document_id) chunks in
     RAGService.on_vector_store
       (VectorStoreService.add_documents texts chunk_metadatas ids))
    (fun e => raise e).

End WithHost.
End Indexing.

(** ** LLMService *)

(** The two providers.  A call answers the contents of
    [response.choices] (OpenAI) or the texts of [response.content]
    (Anthropic); a message is a pair of a role and a content. *)
Class Providers (F : Type) : Type := {
  (* [client.chat.completions.create(model, messages, max_tokens, temperature)] *)
  openai_create : string -> list (string * string) -> Z -> F -> outcome (list string);
  (* [client.messages.create(model, max_tokens, temperature, system, messages)] *)
  anthropic_create : string -> Z -> F -> string -> list (string * string) ->
                     outcome (list string)
}.

Module LLMService.

Record t : Type := mk {
  openai_client : bool;       (* [self.openai_client is not None] *)
  anthropic_client : bool     (* [self.anthropic_client is not None] *)
}.

(** [s.startswith(prefix)] *)
Definition startswith (s prefix : string) : bool := String.prefix prefix s.

(** The truth value of an optional string: [None] and [""] are falsy. *)
Definition truthy (s : option string) : bool :=
  match s with
  | Some (String _ _) => true
  | _ => false
  end.

Section WithProviders.
Context {F : Type} `{Providers F}.

(** [LLMService._openai_generate] *)
Definition _openai_generate (self : t) (prompt model : string) (max_tokens : Z)
    (temperature : F) (system_message : option string) : outcome string :=
  if negb (openai_client self) then Raised (Exn "ValueError")
  else
    let messages : list (string * string) :=
      ((if truthy system_message
        then [("system", default "" system_message)] else [])
       ++ [("user", prompt)])%list in
    choices ← openai_create model messages max_tokens temperature;
    py_index choices 0.

(** [LLMService._anthropic_generate] *)
Definition _anthropic_generate (self : t) (prompt model : string) (max_tokens : Z)
    (temperature : F) (system_message : option string) : outcome string :=
  if negb (anthropic_client self) then Raised (Exn "ValueError")
  else
    let system := if truthy system_message then default "" system_message else "" in
    content ← anthropic_create model max_tokens temperature system [("user", prompt)];
    py_index content 0.

(** [LLMService.generate_response] *)
Definition generate_response (self : t) (prompt model : string) (max_tokens : Z)
    (temperature : F) (system_message : option string) : outcome string :=
  if startswith model "gpt" then
    _openai_generate self prompt model max_tokens temperature system_message
  else if startswith model "claude" then
    _anthropic_generate self prompt model max_tokens temperature system_message
  else Raised (Exn "ValueError").

(** [LLMService.is_available] *)
Definition is_available (self : t) (model : string) : bool :=
  if startswith model "gpt" then openai_client self
  else if startswith model "claude" then anthropic_client self
  else false.

(** The language model as [RAGService] calls it, with the clock [now]:
    [self.llm_service.generate_response(prompt=..., model=...,
    system_message=..., max_tokens=..., temperature=...)]. *)
Definition as_host (self : t) (now : nat -> F) : Host F :=
  Build_Host F now
    (fun prompt model system_message max_tokens temperature =>
       generate_response self prompt model max_tokens temperature
         (Some system_message)).

End WithProviders.
End LLMService.

(** ** DocumentProcessor: extraction *)

(** A [pathlib.Path]: the directory part and the final component. *)
Module Path.

Record t : Type := mk {
  parent : string;
  name : string
}.

(** [path.suffix]: the final component from its last dot on, unless that
    dot comes first or last ([i = name.rfind('.')], [0 < i < len(name) - 1]). *)
Definition suffix (path : t) : string :=
  let i := PyStr.rfind (name path) "."%char in
  if (0 <? i) && (i <? PyStr.len (name path) - 1)
  then PyStr.slice (name path) i (PyStr.len (name path))
  else "".

End Path.

(** What is handed to a reader: [io.BytesIO(file_content)], or the path. *)
Inductive source : Type :=
| FromBytes (file_content : string)
| FromPath (file_path : Path.t).

(** A page of [pdfplumber]: what [extract_text()] and [extract_tables()]
    do on it ([None] or a text; the number of tables found). *)
Record plumber_page : Type := mk_plumber_page {
  plumber_text : outcome (option string);
  plumber_tables : outcome nat
}.

(** A page of [PyPDF2]: what [extract_text()] does on it. *)
Record pypdf_page : Type := mk_pypdf_page {
  pypdf_text : outcome (option string)
}.

(** An opened [PIL] image. *)
Record image : Type := mk_image {
  format : option string;
  size : Z * Z;
  mode : string
}.

(** The values a metadata dictionary holds. *)
Inductive meta_value : Type :=
| MStr (s : string)
| MInt (z : Z)
| MSize (width_height : Z * Z)
| MNone.

(** The readers: [pdfplumber.open], [PyPDF2.PdfReader] (with the [open]
    of the file), [Image.open], [pytesseract.image_to_string], and whether
    [pytesseract] could be imported. *)
Class Extractors : Type := {
  pdfplumber_open : source -> outcome (list plumber_page);
  pypdf_reader : source -> outcome (list pypdf_page);
  image_open : source -> outcome image;
  image_to_string : image -> outcome string;
  TESSERACT_AVAILABLE : bool
}.

Module DocumentProcessing.

(** The dictionary a processing returns; its four keys are fixed. *)
Record processed : Type := mk_processed {
  text : string;
  metadata : gmap string meta_value;
  chunks : list Chunk.t;
  word_count : nat
}.

(** [len(text.split())], reading [text] from a position that is inside a
    word or not. *)
Fixpoint count_words (inside : bool) (text : string) : nat :=
  match text with
  | EmptyString => 0
  | String c rest =>
      if PyStr.isspace c then count_words false rest
      else ((if inside then 0 else 1) + count_words true rest)%nat
  end.

(** [f"[Page {page_num}]\n{text}"] *)
Definition page_block (page_num : nat) (text : string) : string :=
  "[Page " ++ RAGService.str_of_nat page_num ++ "]" ++ RAGService.nl ++ text.

(** [io.BytesIO(file_content) if file_content else <the path>] *)
Definition source_of (file_path : Path.t) (file_content : option string) : source :=
  match file_content with
  | Some (String c rest) => FromBytes (String c rest)
  | _ => FromPath file_path
  end.

(** The local variables [text_content] and [metadata] of [_process_pdf]. *)
Definition pdf_state : Type := list string * gmap string meta_value.

Definition append_text (block : string) : prog pdf_state unit :=
  modify (fun st => ((fst st ++ [block])%list, snd st)).

Definition set_metadata (key : string) (value : meta_value) : prog pdf_state unit :=
  modify (fun st => (fst st, <[key := value]> (snd st))).

Section WithExtractors.
Context `{Extractors}.

(** [for page_num, page in enumerate(pdf.pages, page_num)] with pdfplumber. *)
Fixpoint plumber_loop (page_num : nat) (pages : list plumber_page)
    : prog pdf_state unit :=
  match pages with
  | [] => mret tt
  | page :: rest =>
      text ← of_outcome (plumber_text page);
      (if LLMService.truthy text
       then append_text (page_block page_num (default "" text)) else mret tt);;
      tables ← of_outcome (plumber_tables page);
      (if (0 <? tables)%nat
       then set_metadata ("tables_page_" ++ RAGService.str_of_nat page_num)
              (MInt (Z.of_nat tables))
       else mret tt);;
      plumber_loop (S page_num) rest
  end.

(** The [try] block of [_process_pdf]. *)
Definition plumber_attempt (pdf_file : source) : prog pdf_state unit :=
  pages ← of_outcome (pdfplumber_open pdf_file);
  set_metadata "pages" (MInt (Z.of_nat (length pages)));;
  plumber_loop 1 pages.

(** [for page_num, page in enumerate(pdf_reader.pages, page_num)] with PyPDF2. *)
Fixpoint pypdf_loop (page_num : nat) (pages : list pypdf_page)
    : prog pdf_state unit :=
  match pages with
  | [] => mret tt
  | page :: rest =>
      text ← of_outcome (pypdf_text page);
      (if LLMService.truthy text
       then append_text (page_block page_num (default "" text)) else mret tt);;
      pypdf_loop (S page_num) rest
  end.

(** The fallback of [_process_pdf]; its handler logs and re-raises. *)
Definition pypdf_attempt (pdf_file : source) : prog pdf_state unit :=
  try_with
    (pages ← of_outcome (pypdf_reader pdf_file);
     set_metadata "pages" (MInt (Z.of_nat (length pages)));;
     pypdf_loop 1 pages)
    (fun e2 => raise e2).

(** [DocumentProcessor._process_pdf] *)
Definition _process_pdf (fuel : nat) (self : DocumentProcessor.t)
    (file_path : Path.t) (file_content : option string) : outcome processed :=
  let pdf_file := source_of file_path file_content in
  let '(attempt, (text_content, metadata)) :=
    try_with (plumber_attempt pdf_file) (fun e => pypdf_attempt pdf_file)
      ([], {[ "file_type" := MStr "pdf" ]}) in
  attempt;;
  let full_text := String.concat (RAGService.nl ++ RAGService.nl) text_content in
  chunks ← DocumentProcessor._chunk_text fuel self full_text None None;
  mret (mk_processed full_text metadata chunks (count_words false full_text)).

(** [DocumentProcessor._process_image] *)
Definition _process_image (fuel : nat) (self : DocumentProcessor.t)
    (file_path : Path.t) (file_content : option string) : outcome processed :=
  if negb TESSERACT_AVAILABLE then Raised (Exn "RuntimeError")
  else
    image ← image_open (source_of file_path file_content);
    text ← image_to_string image;
    let metadata : gmap string meta_value :=
      <["file_type" := MStr "image"]>
      (<["format" := match format image with Some f => MStr f | None => MNone end]>
      (<["size" := MSize (size image)]>
      (<["mode" := MStr (mode image)]> ∅))) in
    chunks ← DocumentProcessor._chunk_text fuel self text None None;
    mret (mk_processed text metadata chunks (count_words false text)).

(** [DocumentProcessor.process_document] *)
Definition process_document (fuel : nat) (self : DocumentProcessor.t)
    (file_path : Path.t) (file_content : option string) : outcome processed :=
  let file_extension := PyStr.lower (Path.suffix file_path) in
  if String.eqb file_extension ".pdf" then
    _process_pdf fuel self file_path file_content
  else if existsb (String.eqb file_extension) [".png"; ".jpg"; ".jpeg"] then
    _process_image fuel self file_path file_content
  else Raised (Exn "ValueError").

End WithExtractors.
End DocumentProcessing.

(** ** Vocabulary for statements about index entries *)

Module EntrySpec.

(** [s] holds an underscore. *)
Fixpoint has_underscore (s : string) : bool :=
  match s with
  | EmptyString => false
  | String a rest => Ascii.eqb a "_" || has_underscore rest
  end.

(** What follows the last underscore of [s] ([s] itself if it has none). *)
Fixpoint after_last_underscore (s : string) : string :=
  match s with
  | EmptyString => EmptyString
  | String a rest =>
      if has_underscore rest then after_last_underscore rest
      else if Ascii.eqb a "_" then rest else s
  end.

End EntrySpec.

(** ** More stand-ins *)

Module Doubles.

(** Providers that answer with one choice. *)
Definition providers : Providers R := {|
  openai_create := fun _ _ _ _ => Returned ["The balance is 100."];
  anthropic_create := fun _ _ _ _ _ => Returned ["The balance is 100."]
|}.

(** A service with an OpenAI key and no Anthropic key. *)
Definition openai_only : LLMService.t := LLMService.mk true false.

End Doubles.

(** ** Vocabulary for statements about extraction *)

Module ExtractionSpec.

(** The blocks of the pages that gave a text, the first page numbered
    [page_num]. *)
Fixpoint page_blocks (page_num : nat) (texts : list (option string)) : list string :=
  match texts with
  | [] => []
  | text :: rest =>
      ((if LLMService.truthy text
        then [DocumentProcessing.page_block page_num (default "" text)]
        else []) ++ page_blocks (S page_num) rest)%list
  end.

(** The table counts of the pages that have tables, entered under the
    key of their page. *)
Fixpoint table_entries (page_num : nat) (tables : list nat)
    (metadata : gmap string meta_value) : gmap string meta_value :=
  match tables with
  | [] => metadata
  | n :: rest =>
      table_entries (S page_num) rest
        (if (0 <? n)%nat
         then <["tables_page_" ++ RAGService.str_of_nat page_num := MInt (Z.of_nat n)]>
                metadata
         else metadata)
  end.

(** The words of the pages' own texts. *)
Fixpoint page_words (texts : list (option string)) : nat :=
  match texts with
  | [] => 0
  | text :: rest =>
      ((if LLMService.truthy text
        then DocumentProcessing.count_words false (default "" text) else 0)
       + page_words rest)%nat
  end.

(** The number of pages that gave a text. *)
Definition pages_with_text (texts : list (option string)) : nat :=
  length (filter (fun text => LLMService.truthy text = true) texts).

(** The joined text of a list of blocks. *)
Definition joined (blocks : list string) : string :=
  String.concat (RAGService.nl ++ RAGService.nl) blocks.

(** What [_process_pdf] returns once its readers have left [blocks] and
    [metadata]. *)
Definition assembled (fuel : nat) (self : DocumentProcessor.t)
    (blocks : list string) (metadata : gmap string meta_value)
    : outcome DocumentProcessing.processed :=
  chunks ← DocumentProcessor._chunk_text fuel self (joined blocks) None None;
  mret (DocumentProcessing.mk_processed (joined blocks) metadata chunks
          (DocumentProcessing.count_words false (joined blocks))).

End ExtractionSpec.

(** Readers for examples. *)
Module Readers.

Definition good_page (text : string) (tables : nat) : plumber_page :=
  mk_plumber_page (Returned (Some text)) (Returned tables).

Definition torn_page : plumber_page :=
  mk_plumber_page (Raised (Exn "PDFSyntaxError")) (Returned 0%nat).

Definition scan : image := mk_image (Some "PNG") (640, 480) "RGB".

Definition readers (plumber : outcome (list plumber_page))
    (pypdf : outcome (list pypdf_page)) (tesseract : bool) : Extractors := {|
  pdfplumber_open := fun _ => plumber;
  pypdf_reader := fun _ => pypdf;
  image_open := fun _ => Returned scan;
  image_to_string := fun _ => Returned "Total due: 100";
  TESSERACT_AVAILABLE := tesseract
|}.

End Readers.

(** * Properties *)

(** ** Traversals *)

Lemma traverse_Forall2 {A B : Type} (f : A -> outcome B) (l : list A) (bs : list B) :
  traverse f l = Returned bs <-> Forall2 (fun a b => f a = Returned b) l bs.
Proof.
  revert bs. induction l as [|a l IH]; intros bs; simpl.
  - split.
    + intros [= <-]. constructor.
    + intros Hall. inversion Hall. reflexivity.
  - split.
    + destruct (f a) as [b| |] eqn:Hb; simpl; try discriminate.
      destruct (traverse f l) as [bs'| |] eqn:Hbs; simpl; try discriminate.
      intros [= <-]. constructor; [exact Hb | now apply IH].
    + intros Hall. inversion Hall as [|? b ? bs' Hb Hrest]; subst.
      rewrite Hb. simpl. apply IH in Hrest. rewrite Hrest. reflexivity.
Qed.

Lemma traverse_total {A B : Type} (f : A -> outcome B) (l : list A) :
  Forall (fun a => exists b, f a = Returned b) l ->
  exists bs : list B, traverse f l = Returned bs.
Proof.
  induction 1 as [|a l [b Hb] _ [bs Hbs]]; simpl; [eauto|].
  rewrite Hb. simpl. rewrite Hbs. simpl. eauto.
Qed.

(** ** Strings *)

Lemma len_nonneg (s : string) : 0 <= PyStr.len s.
Proof. unfold PyStr.len. lia. Qed.

Lemma substring_length_le_count (n m : nat) (s : string) :
  (String.length (substring n m s) <= m)%nat.
Proof.
  revert n m. induction s as [|a s IH]; intros [|n] [|m]; simpl; try lia.
  - specialize (IH 0%nat m). lia.
  - apply IH.
  - apply IH.
Qed.

Lemma substring_length_le_source (n m : nat) (s : string) :
  (String.length (substring n m s) <= String.length s - n)%nat.
Proof.
  revert n m. induction s as [|a s IH]; intros [|n] [|m]; simpl; try lia.
  - specialize (IH 0%nat m). lia.
  - apply IH.
  - apply IH.
Qed.

Lemma clamp_span (n a b : Z) :
  0 <= n -> a <= b -> PyStr.clamp n b - PyStr.clamp n a <= b - a.
Proof. unfold PyStr.clamp. destruct (Z.ltb_spec a 0), (Z.ltb_spec b 0); lia. Qed.

(** A slice taken between ordered bounds is no longer than their distance
    (with [start >= 0 > stop] Python counts [stop] from the end, and the
    slice can be longer than [stop - start]). *)
Lemma slice_len_le_span (s : string) (a b : Z) :
  a <= b -> PyStr.len (PyStr.slice s a b) <= b - a.
Proof.
  intros Hab. unfold PyStr.slice.
  pose proof (clamp_span (PyStr.len s) a b (len_nonneg s) Hab) as Hspan.
  destruct (Z.ltb_spec (PyStr.clamp (PyStr.len s) a) (PyStr.clamp (PyStr.len s) b)) as [Hlt|Hge].
  - pose proof (substring_length_le_count
      (Z.to_nat (PyStr.clamp (PyStr.len s) a))
      (Z.to_nat (PyStr.clamp (PyStr.len s) b - PyStr.clamp (PyStr.len s) a)) s) as Hc.
    unfold PyStr.len at 1. lia.
  - unfold PyStr.len at 1; simpl. lia.
Qed.

Lemma slice_len_le_len (s : string) (a b : Z) :
  PyStr.len (PyStr.slice s a b) <= PyStr.len s.
Proof.
  unfold PyStr.slice.
  destruct (Z.ltb_spec (PyStr.clamp (PyStr.len s) a) (PyStr.clamp (PyStr.len s) b)).
  - pose proof (substring_length_le_source
      (Z.to_nat (PyStr.clamp (PyStr.len s) a))
      (Z.to_nat (PyStr.clamp (PyStr.len s) b - PyStr.clamp (PyStr.len s) a)) s).
    unfold PyStr.len in *. lia.
  - pose proof (len_nonneg s). unfold PyStr.len in *; simpl. lia.
Qed.

Lemma rfind_from_range (c : ascii) (s : string) (i : Z) :
  0 <= i ->
  PyStr.rfind_from c s i = -1 \/ i <= PyStr.rfind_from c s i < i + PyStr.len s.
Proof.
  revert i. induction s as [|a s IH]; intros i Hi; simpl.
  - now left.
  - destruct (IH (i + 1) ltac:(lia)) as [E|R].
    + rewrite E. simpl. destruct (Ascii.eqb a c); [right | now left].
      unfold PyStr.len; simpl String.length. lia.
    + destruct (Z.leb_spec 0 (PyStr.rfind_from c s (i + 1))); [|lia].
      right. unfold PyStr.len in *; simpl String.length. lia.
Qed.

Lemma rfind_range (s : string) (c : ascii) : -1 <= PyStr.rfind s c < PyStr.len s.
Proof.
  unfold PyStr.rfind. pose proof (len_nonneg s).
  destruct (rfind_from_range c s 0 ltac:(lia)) as [E|R]; [rewrite E|]; lia.
Qed.

(** ** The chunking loop *)

Import DocumentProcessor ChunkSpec.

Lemma choose_end_bounds (text : string) (cs s e : Z) (ct : string) :
  0 < cs ->
  choose_end text cs s = (e, ct) ->
  s < e <= s + cs /\ (e = s + cs \/ cs < 2 * (e - s - 1)).
Proof.
  intros Hcs. unfold choose_end.
  destruct (Z.ltb_spec (s + cs) (PyStr.len text)) as [Hin|Hout].
  - set (ct0 := PyStr.slice text s (s + cs)).
    pose proof (rfind_range ct0 "."%char) as Hp.
    pose proof (rfind_range ct0 "010"%char) as Hn.
    pose proof (slice_len_le_span text s (s + cs) ltac:(lia)) as Hl. fold ct0 in Hl.
    unfold past_halfway.
    destruct (Z.ltb_spec cs
      (2 * Z.max (PyStr.rfind ct0 "."%char) (PyStr.rfind ct0 "010"%char)));
      intros [= <- <-]; lia.
  - intros [= <- <-]. lia.
Qed.

Lemma chained_snoc (ov s : Z) (l : list Chunk.t) (f : Z) (c : Chunk.t) :
  chained ov s l f -> Chunk.start_char c = f ->
  chained ov s (l ++ [c]) (Chunk.end_char c - ov).
Proof.
  revert s. induction l as [|a l IH]; simpl; intros s.
  - intros -> ->. auto.
  - intros [Ha Hl] Hc. split; [exact Ha | now apply IH].
Qed.

Lemma chained_adjacent (ov s : Z) (l : list Chunk.t) (f : Z) :
  chained ov s l f ->
  adjacent (fun c c' => Chunk.start_char c' = Chunk.end_char c - ov) l.
Proof.
  revert s. induction l as [|a [|b l] IH]; simpl; intros s; auto.
  intros [Ha [Hb Hl]]. split; [exact Hb|].
  apply (IH (Chunk.end_char a - ov)). simpl. auto.
Qed.

Lemma adjacent_impl (R R' : Chunk.t -> Chunk.t -> Prop) (l : list Chunk.t) :
  Forall (fun c => forall c', R c c' -> R' c c') l -> adjacent R l -> adjacent R' l.
Proof.
  induction l as [|a [|b l] IH]; simpl; auto.
  intros Hall [Hab Hrest]. inversion Hall as [|? ? Ha Hall']; subst.
  split; [now apply Ha | now apply IH].
Qed.

Lemma loop_inv_initial (text : string) (cs ov : Z) : loop_inv text cs ov initial_state.
Proof. split; simpl; auto. Qed.

Lemma loop_body_inv (text : string) (cs ov : Z) (st : loop_state) :
  0 < cs ->
  loop_guard text st = true ->
  loop_inv text cs ov st ->
  loop_inv text cs ov (loop_body text cs ov st).
Proof.
  intros Hcs Hg [Hnext Hids Heach Hchain].
  unfold loop_body. destruct (choose_end text cs (start st)) as [e ct] eqn:Hce.
  apply choose_end_bounds in Hce as [Hspan Hbreak]; [|exact Hcs].
  unfold loop_guard in Hg. apply Z.ltb_lt in Hg.
  split; simpl.
  - rewrite length_app. simpl. lia.
  - unfold ordinals in *. rewrite map_app, Hids, length_app. simpl.
    rewrite Nat2Z.inj_add. rewrite seqZ_app by lia. simpl.
    rewrite Hnext. reflexivity.
  - apply Forall_app. split; [exact Heach|].
    constructor; [|constructor]. unfold well_spanned; simpl.
    split; [exact Hg|]. split; [exact Hspan | exact Hbreak].
  - apply (chained_snoc ov 0 (chunks st) (start st)
             {| Chunk.chunk_id := next_id st; Chunk.text := PyStr.strip ct;
                Chunk.start_char := start st; Chunk.end_char := e;
                Chunk.length := PyStr.len ct |}); auto.
Qed.

Lemma while_loop_inv (text : string) (cs ov : Z) (fuel : nat) :
  0 < cs ->
  forall (st : loop_state) (l : list Chunk.t),
  loop_inv text cs ov st ->
  while_loop fuel text cs ov st = Returned l ->
  exists final : loop_state, chunks final = l /\ loop_inv text cs ov final.
Proof.
  intros Hcs. induction fuel as [|fuel IH]; intros st l Hinv; simpl;
    destruct (loop_guard text st) eqn:Hg; try discriminate.
  - intros [= <-]. eauto.
  - intros Hrun. apply (IH _ _ (loop_body_inv _ _ _ _ Hcs Hg Hinv) Hrun).
  - intros [= <-]. eauto.
Qed.

(** More fuel never changes the chunks a run returned. *)
Lemma while_loop_fuel_mono (text : string) (cs ov : Z) (fuel fuel' : nat) :
  (fuel <= fuel')%nat ->
  forall (st : loop_state) (l : list Chunk.t),
  while_loop fuel text cs ov st = Returned l ->
  while_loop fuel' text cs ov st = Returned l.
Proof.
  revert fuel'. induction fuel as [|fuel IH]; intros fuel' Hle st l; simpl.
  - destruct fuel'; simpl; destruct (loop_guard text st); auto; discriminate.
  - destruct fuel' as [|fuel']; [lia|]. simpl.
    destruct (loop_guard text st); auto. apply IH. lia.
Qed.

(** Every run of [_chunk_text] that returns, returns chunks that satisfy
    the loop invariant. *)
Lemma chunk_text_returned_inv (fuel : nat) (self : t) (text : string)
    (chunk_size overlap : option Z) (l : list Chunk.t) :
  0 < or_default chunk_size (DocumentProcessor.chunk_size self) ->
  _chunk_text fuel self text chunk_size overlap = Returned l ->
  exists final : loop_state,
    chunks final = l /\
    loop_inv text (or_default chunk_size (DocumentProcessor.chunk_size self))
      (or_default overlap (chunk_overlap self)) final.
Proof.
  intros Hcs Hrun. unfold _chunk_text in Hrun.
  eapply while_loop_inv; eauto using loop_inv_initial.
Qed.

(** When every span exceeds the overlap the cursor advances at each
    iteration, and the loop is over after at most [len(text)] of them. *)
Lemma while_loop_terminates (text : string) (cs ov : Z) :
  0 < cs -> ov < cs -> 2 * ov <= cs + 1 ->
  forall (fuel : nat) (st : loop_state),
  (Z.to_nat (PyStr.len text - start st) <= fuel)%nat ->
  exists l : list Chunk.t, while_loop fuel text cs ov st = Returned l.
Proof.
  intros Hcs Hov Hhalf. induction fuel as [|fuel IH]; intros st Hfuel; simpl;
    destruct (loop_guard text st) eqn:Hg; eauto.
  - unfold loop_guard in Hg. apply Z.ltb_lt in Hg. lia.
  - apply IH. unfold loop_guard in Hg. apply Z.ltb_lt in Hg.
    unfold loop_body. destruct (choose_end text cs (start st)) as [e ct] eqn:Hce.
    apply choose_end_bounds in Hce; [|exact Hcs]. simpl. lia.
Qed.

(** With [0 < chunk_size <= overlap] the cursor never moves forward, so on
    a non-empty text the loop guard stays true. *)
Lemma while_loop_no_progress (text : string) (cs ov : Z) :
  0 < cs <= ov -> 0 < PyStr.len text ->
  forall (fuel : nat) (st : loop_state),
  start st <= 0 -> while_loop fuel text cs ov st = Diverged.
Proof.
  intros Hcs Hlen. induction fuel as [|fuel IH]; intros st Hst; simpl;
    (destruct (loop_guard text st) eqn:Hg;
     [|unfold loop_guard in Hg; apply Z.ltb_ge in Hg; lia]); auto.
  apply IH. unfold loop_body.
  destruct (choose_end text cs (start st)) as [e ct] eqn:Hce.
  apply choose_end_bounds in Hce; [|lia]. simpl. lia.
Qed.

Lemma stalling_cycle (fuel : nat) (id : Z) (done : list Chunk.t) :
  while_loop fuel stalling_text 10 9
    {| start := 0; next_id := id; chunks := done |} = Diverged.
Proof.
  revert id done. induction fuel as [|fuel IH]; intros id done; [reflexivity|].
  change (while_loop (S fuel) stalling_text 10 9
            {| start := 0; next_id := id; chunks := done |})
    with (while_loop fuel stalling_text 10 9
            (loop_body stalling_text 10 9
               {| start := 0; next_id := id; chunks := done |})).
  unfold loop_body. simpl start.
  replace (choose_end stalling_text 10 0) with (9, "aaaaaaaa.") by reflexivity.
  apply IH.
Qed.

(** C1 (the code loops): with [chunk_size = 10] and [overlap = 9], which
    satisfy [0 <= overlap < chunk_size], and the non-empty text
    ["aaaaaaaa.aaaaaaaaaaa"], the first chunk is cut after the period at
    offset 8, the cursor goes back to [9 - 9 = 0], and the loop repeats the
    same iteration for ever: no amount of fuel makes [_chunk_text] return. *)
Theorem chunk_text_stalls_with_valid_overlap :
  0 <= 9 < 10 /\ 0 < PyStr.len stalling_text /\
  choose_end stalling_text 10 0 = (9, "aaaaaaaa.") /\
  forall fuel : nat,
    _chunk_text fuel __init__ stalling_text (Some 10) (Some 9) = Diverged.
Proof.
  split; [lia|]. split; [reflexivity|]. split; [reflexivity|].
  intros fuel. apply stalling_cycle.
Qed.

(** An [overlap] of [0] is falsy and is replaced by the instance default
    [200]; with a [chunk_size] of at most [200] the loop then never ends on
    a non-empty text. *)
Theorem chunk_text_zero_overlap_diverges (fuel : nat) (text : string)
    (chunk_size : Z) :
  0 < chunk_size <= 200 -> text <> "" ->
  _chunk_text fuel __init__ text (Some chunk_size) (Some 0) = Diverged.
Proof.
  intros Hcs Htext. unfold _chunk_text. simpl.
  destruct (Z.eqb_spec chunk_size 0); [lia|].
  apply while_loop_no_progress; try lia; [|reflexivity].
  destruct text; [congruence|]. unfold PyStr.len. simpl String.length. lia.
Qed.

Lemma chunk_text_zero_overlap_diverges_witness :
  0 < 100 <= 200 /\ "abc" <> "" /\
  _chunk_text 7 __init__ "abc" (Some 100) (Some 0) = Diverged.
Proof.
  split; [lia|]. split; [discriminate|].
  apply (chunk_text_zero_overlap_diverges 7 "abc" 100); [lia|discriminate].
Defined.

(** Chunking terminates whenever the overlap is below the span and at most
    half of it (rounded up): every chunk, cut at a sentence break or not, is
    then longer than the overlap.  [len(text)] iterations are enough, and
    the [start_char] of the chunks strictly increases. *)
Theorem chunk_text_terminates (self : t) (text : string)
    (chunk_size overlap : option Z) :
  let cs := or_default chunk_size (DocumentProcessor.chunk_size self) in
  let ov := or_default overlap (chunk_overlap self) in
  0 < cs -> ov < cs -> 2 * ov <= cs + 1 ->
  exists l : list Chunk.t,
    (forall fuel : nat, (String.length text <= fuel)%nat ->
       _chunk_text fuel self text chunk_size overlap = Returned l) /\
    ordinals l = seqZ 0 (Z.of_nat (length l)) /\
    adjacent (fun c c' => Chunk.start_char c < Chunk.start_char c') l.
Proof.
  intros cs ov Hcs Hov Hhalf.
  destruct (while_loop_terminates text cs ov Hcs Hov Hhalf
              (String.length text) initial_state) as [l Hl].
  { unfold PyStr.len. simpl. lia. }
  exists l. split; [|].
  - intros fuel Hfuel. unfold _chunk_text. fold cs ov.
    eapply while_loop_fuel_mono; eauto.
  - destruct (while_loop_inv text cs ov _ Hcs _ _ (loop_inv_initial text cs ov) Hl)
      as [final [<- [Hnext Hids Heach Hchain]]].
    split; [exact Hids|].
    apply chained_adjacent in Hchain.
    eapply adjacent_impl; [|exact Hchain].
    eapply Forall_impl; [exact Heach|].
    intros c [_ [Hspan Hbreak]] c' ->. lia.
Qed.

(** With the defaults of [__init__] (1000 and 200) chunking terminates
    on every text. *)
Lemma chunk_text_terminates_witness (text : string) :
  exists l : list Chunk.t,
    (forall fuel : nat, (String.length text <= fuel)%nat ->
       _chunk_text fuel __init__ text None None = Returned l) /\
    ordinals l = seqZ 0 (Z.of_nat (length l)) /\
    adjacent (fun c c' => Chunk.start_char c < Chunk.start_char c') l.
Proof.
  apply (chunk_text_terminates __init__ text None None); simpl; lia.
Defined.

(** C9: for every [chunk_size] and [overlap] (given or left to the
    defaults), chunking the empty string returns the empty sequence of
    chunks; it neither raises nor needs a single loop iteration. *)
Theorem chunk_text_empty (fuel : nat) (self : t) (chunk_size overlap : option Z) :
  _chunk_text fuel self "" chunk_size overlap = Returned [].
Proof. destruct fuel; reflexivity. Qed.







(** C3 (as stated, refuted): with [chunk_size = 10] and [overlap = 8]
    ([0 <= 8 < 10]) on a text of 20 characters the call returns twelve
    chunks; the second one starts at [-1], before the first, and the last
    six end beyond offset 20, the length of the text. *)
Lemma chunk_text_start_regresses_end_unclamped :
  0 <= 8 < 10 /\ PyStr.len regressing_text = 20 /\
  exists l : list Chunk.t,
    _chunk_text 12 __init__ regressing_text (Some 10) (Some 8) = Returned l /\
    map Chunk.start_char l = [0; -1; 1; 3; 5; 7; 9; 11; 13; 15; 17; 19] /\
    map Chunk.end_char l = [7; 9; 11; 13; 15; 17; 19; 21; 23; 25; 27; 29].
Proof.
  split; [lia|]. split; [vm_compute; reflexivity|].
  eexists. split; [vm_compute; reflexivity|]. split; vm_compute; reflexivity.
Qed.

(** C3 (amended): for every text and every parameters whose chunk size,
    after the defaults are filled in, is positive, the chunks returned by
    [_chunk_text] satisfy: [end_char > start_char]; [start_char] lies inside
    the text; [end_char] is at most [start_char + chunk_size], hence below
    [len(text) + chunk_size] (it is not clamped to the text length); the
    ordinals are [0..k-1]; the first chunk starts at 0 and every other one at
    its predecessor's [end_char - overlap], so that [start_char] is
    non-decreasing as soon as [overlap <= chunk_size] and
    [2 * overlap <= chunk_size + 3]. *)
Theorem chunk_text_invariants (fuel : nat) (self : t) (text : string)
    (chunk_size overlap : option Z) (l : list Chunk.t) :
  let cs := or_default chunk_size (DocumentProcessor.chunk_size self) in
  let ov := or_default overlap (chunk_overlap self) in
  0 < cs ->
  _chunk_text fuel self text chunk_size overlap = Returned l ->
  Forall (fun c =>
    Chunk.start_char c < Chunk.end_char c /\
    Chunk.start_char c < PyStr.len text /\
    Chunk.end_char c <= Chunk.start_char c + cs /\
    Chunk.end_char c < PyStr.len text + cs) l /\
  ordinals l = seqZ 0 (Z.of_nat (length l)) /\
  (exists final : Z, chained ov 0 l final) /\
  adjacent (fun c c' => Chunk.start_char c' = Chunk.end_char c - ov) l /\
  (ov <= cs -> 2 * ov <= cs + 3 ->
   adjacent (fun c c' => Chunk.start_char c <= Chunk.start_char c') l).
Proof.
  intros cs ov Hcs Hrun.
  destruct (chunk_text_returned_inv _ _ _ _ _ _ Hcs Hrun)
    as [final [<- [Hnext Hids Heach Hchain]]].
  fold cs ov in Heach, Hchain.
  split; [|split; [exact Hids|split; [eauto|split]]].
  - eapply Forall_impl; [exact Heach|].
    intros c [Hin [Hspan _]]. lia.
  - eapply chained_adjacent; eauto.
  - intros Hov Hhalf. apply chained_adjacent in Hchain.
    eapply adjacent_impl; [|exact Hchain].
    eapply Forall_impl; [exact Heach|].
    intros c [_ [Hspan Hbreak]] c' ->. lia.
Qed.

Lemma chunk_text_invariants_witness :
  exists l : list Chunk.t,
    _chunk_text 5 __init__ "Rent. Paid in full on Monday." (Some 10) (Some 2)
      = Returned l /\
    map Chunk.end_char l = [10; 18; 26; 34] /\
    Forall (fun c =>
      Chunk.start_char c < Chunk.end_char c /\
      Chunk.start_char c < 29 /\
      Chunk.end_char c <= Chunk.start_char c + 10 /\
      Chunk.end_char c < 29 + 10) l /\
    ordinals l = seqZ 0 (Z.of_nat (length l)) /\
    adjacent (fun c c' => Chunk.start_char c' = Chunk.end_char c - 2) l.
Proof.
  assert (exists l : list Chunk.t,
    _chunk_text 5 __init__ "Rent. Paid in full on Monday." (Some 10) (Some 2)
      = Returned l /\ map Chunk.end_char l = [10; 18; 26; 34]) as [l [Hrun Hends]].
  { eexists. split; vm_compute; reflexivity. }
  exists l. split; [exact Hrun|]. split; [exact Hends|].
  assert (0 < or_default (Some 10) (DocumentProcessor.chunk_size __init__)) as Hcs
    by (vm_compute; reflexivity).
  destruct (chunk_text_invariants 5 __init__ "Rent. Paid in full on Monday."
              (Some 10) (Some 2) l Hcs Hrun) as [Heach [Hids [_ [Hadj _]]]].
  split; [exact Heach|]. split; [exact Hids | exact Hadj].
Defined.

(** ** Keyword categorisation *)

Import TextSpec.

Lemma append_cons (a : ascii) (s t : string) : String a s ++ t = String a (s ++ t).
Proof. reflexivity. Qed.

Lemma append_empty (t : string) : "" ++ t = t.
Proof. reflexivity. Qed.

Lemma prefix_spec (k s : string) :
  String.prefix k s = true <-> exists after : string, s = k ++ after.
Proof.
  revert s. induction k as [|a k IH]; intros s; simpl.
  - destruct s; split; eauto.
  - destruct s as [|b s]; simpl.
    + split; [discriminate | intros [after [=]]].
    + destruct (ascii_dec a b) as [->|Hne].
      * rewrite IH. split; intros [after E]; exists after;
          rewrite append_cons in *; congruence.
      * split; [discriminate|]. intros [after E].
        rewrite append_cons in E. congruence.
Qed.

Lemma contains_equation (s k : string) :
  PyStr.contains s k =
  if String.prefix k s then true
  else match s with
       | EmptyString => false
       | String _ rest => PyStr.contains rest k
       end.
Proof. destruct s; reflexivity. Qed.

Lemma contains_spec (s k : string) :
  PyStr.contains s k = true <-> substring_of k s.
Proof.
  unfold substring_of. induction s as [|a s IH]; rewrite contains_equation.
  - destruct (String.prefix k "") eqn:Hp.
    + apply prefix_spec in Hp as [after E]. split; [|reflexivity].
      intros _. exists "", after. exact E.
    + split; [discriminate|]. intros [[|b before] [after E]].
      * rewrite append_empty in E.
        assert (String.prefix k "" = true) by (apply prefix_spec; eauto). congruence.
      * rewrite append_cons in E. discriminate.
  - destruct (String.prefix k (String a s)) eqn:Hp.
    + apply prefix_spec in Hp as [after E]. split; [|reflexivity].
      intros _. exists "", after. exact E.
    + rewrite IH. split.
      * intros [before [after E]]. exists (String a before), after.
        rewrite append_cons. now rewrite E.
      * intros [[|b before] [after E]].
        -- rewrite append_empty in E.
           assert (String.prefix k (String a s) = true) by (apply prefix_spec; eauto).
           congruence.
        -- rewrite append_cons in E. injection E as _ E. eauto.
Qed.

Lemma lower_char_idempotent (c : ascii) :
  PyStr.lower_char (PyStr.lower_char c) = PyStr.lower_char c.
Proof. destruct c as [[] [] [] [] [] [] [] []]; reflexivity. Qed.

Lemma lower_idempotent (s : string) : PyStr.lower (PyStr.lower s) = PyStr.lower s.
Proof.
  induction s as [|c s IH]; simpl; [reflexivity|].
  now rewrite lower_char_idempotent, IH.
Qed.

(** Every keyword of the table is written in lower case. *)
Lemma keywords_lower_case :
  Forall (fun entry => Forall (fun keyword => PyStr.lower keyword = keyword) (snd entry))
    MLService._init_category_keywords.
Proof. repeat constructor. Qed.

Lemma any_keyword_in_spec (keywords : list string) (description : string) :
  Forall (fun keyword => PyStr.lower keyword = keyword) keywords ->
  MLService.any_keyword_in keywords (PyStr.lower (PyStr.lower description)) = true
  <-> category_matches keywords description.
Proof.
  intros Hlow. unfold MLService.any_keyword_in, category_matches, matches_ignoring_case.
  rewrite lower_idempotent.
  induction Hlow as [|k keywords Hk Hlow IH]; simpl.
  - split; [discriminate | intros Hex; inversion Hex].
  - rewrite orb_true_iff, IH, contains_spec, Exists_cons, Hk. reflexivity.
Qed.

Lemma find_first {A : Type} (f : A -> bool) (l : list A) :
  match find f l with
  | Some x => exists before after,
      l = (before ++ x :: after)%list /\ f x = true /\ Forall (fun y => f y = false) before
  | None => Forall (fun y => f y = false) l
  end.
Proof.
  induction l as [|a l IH]; simpl; [constructor|].
  destruct (f a) eqn:Ha.
  - exists [], l. auto.
  - destruct (find f l) as [x|].
    + destruct IH as [before [after [-> [Hx Hb]]]].
      exists (a :: before), after. auto.
    + constructor; auto.
Qed.

(** [_categorize_single], applied to a description that [categorize_expenses]
    has already lower-cased, answers the first category of the table that
    matches, and ["Other"] when there is none. *)
Lemma categorize_single_spec (description : string) :
  let category :=
    MLService._categorize_single MLService.__init__ (PyStr.lower description) in
  first_matching MLService._init_category_keywords description category \/
  (category = "Other" /\ none_matching MLService._init_category_keywords description).
Proof.
  unfold MLService._categorize_single. simpl MLService.category_keywords.
  pose proof keywords_lower_case as Hlow.
  pose proof (find_first
    (fun entry => MLService.any_keyword_in (snd entry)
                    (PyStr.lower (PyStr.lower description)))
    MLService._init_category_keywords) as Hfind.
  destruct (find _ MLService._init_category_keywords) as [[category keywords]|].
  - left. destruct Hfind as [before [after [E [Hx Hb]]]].
    exists before, keywords, after. split; [exact E|].
    rewrite E in Hlow. apply Forall_app in Hlow as [Hlb Hlx].
    inversion Hlx as [|? ? Hk _]; subst. split.
    + apply any_keyword_in_spec; assumption.
    + clear -Hb Hlb. induction Hb as [|y before Hy Hb IH]; constructor.
      * inversion Hlb; subst. intros Hm. apply any_keyword_in_spec in Hm; [congruence|assumption].
      * apply IH. now inversion Hlb.
  - right. split; [reflexivity|]. unfold none_matching.
    clear -Hfind Hlow. induction Hfind as [|y l Hy Hl IH]; constructor.
    + inversion Hlow; subst. intros Hm. apply any_keyword_in_spec in Hm; [congruence|assumption].
    + apply IH. now inversion Hlow.
Qed.

Import TransactionSpec.

Lemma py_lower_description {F : Type} (t : gmap string (pyval F)) :
  description_well_typed t ->
  MLService.py_lower (dict_get t "description" (VStr "")) =
  Returned (PyStr.lower (description_of t)).
Proof.
  unfold description_well_typed, description_of, dict_get.
  destruct (t !! "description") as [[]|]; simpl; tauto.
Qed.

Lemma categorize_expenses_total {F : Type}
    (transactions : list (gmap string (pyval F))) :
  Forall description_well_typed transactions ->
  exists categories : list string,
    MLService.categorize_expenses MLService.__init__ transactions
      = Returned categories.
Proof.
  intros Hwf. apply traverse_total.
  eapply Forall_impl; [exact Hwf|]. intros t Ht.
  rewrite (py_lower_description t Ht). simpl. eauto.
Qed.

(** C8: for every list of transactions (whose descriptions, when present,
    are strings) [categorize_expenses] returns one category per transaction,
    in order; the category of a transaction is the first one of the keyword
    table, in the order the table is written, that has a keyword occurring
    in the description when case is ignored, and ["Other"] when no category
    has one. *)
Theorem categorize_expenses_first_match {F : Type}
    (transactions : list (gmap string (pyval F))) :
  Forall description_well_typed transactions ->
  exists categories : list string,
    MLService.categorize_expenses MLService.__init__ transactions
      = Returned categories /\
    length categories = length transactions /\
    Forall2 (fun t category =>
      first_matching MLService._init_category_keywords (description_of t) category \/
      (category = "Other" /\
       none_matching MLService._init_category_keywords (description_of t)))
      transactions categories.
Proof.
  unfold MLService.categorize_expenses.
  induction 1 as [|t transactions Ht _ [categories [Hrun [Hlen Hall]]]].
  - exists []. repeat split. constructor.
  - exists (MLService._categorize_single MLService.__init__
              (PyStr.lower (description_of t)) :: categories).
    split; [|split].
    + simpl. rewrite (py_lower_description t Ht). simpl.
      unfold MLService.transaction in *. rewrite Hrun. reflexivity.
    + simpl. now rewrite Hlen.
    + constructor; [apply categorize_single_spec | exact Hall].
Qed.

Lemma categorize_expenses_first_match_witness :
  let grocery : gmap string (pyval R) :=
    {[ "description" := VStr "Grocery run at Walmart" ]} in
  let unknown : gmap string (pyval R) := {[ "description" := VStr "xyz123" ]} in
  Forall description_well_typed [grocery; unknown] /\
  MLService.categorize_expenses MLService.__init__ [grocery]
    = Returned ["Food & Dining"] /\
  MLService.categorize_expenses MLService.__init__ [unknown] = Returned ["Other"] /\
  exists categories : list string,
    MLService.categorize_expenses MLService.__init__ [grocery; unknown]
      = Returned categories /\
    length categories = 2%nat.
Proof.
  intros grocery unknown.
  assert (Forall description_well_typed [grocery; unknown]) as Hwf.
  { repeat constructor. }
  split; [exact Hwf|]. split; [vm_compute; reflexivity|].
  split; [vm_compute; reflexivity|].
  destruct (categorize_expenses_first_match [grocery; unknown] Hwf)
    as [categories [Hrun [Hlen _]]].
  exists categories. split; [exact Hrun | exact Hlen].
Defined.

(** ** Anomaly flags *)

Import AnomalySpec.

(** [detect_anomalies] once the list of absolute amounts is known. *)
Lemma detect_anomalies_of_amounts {F : Type} `{Float F} (self : MLService.t)
    (transactions : list (gmap string (pyval F))) (threshold : F)
    (amounts : list (number F)) :
  MLService.absolute_amounts transactions = Returned amounts ->
  MLService.detect_anomalies self transactions threshold =
  let xs := map MLService.to_float amounts in
  if (length amounts <? 2)%nat then Returned (repeat false (length amounts))
  else if feq (np_std xs) (float_of_int 0)
       then Returned (repeat false (length amounts))
       else Returned (map (fun x => fgt (fabs (fsub x (np_mean xs)))
                                        (fmul threshold (np_std xs))) xs).
Proof.
  intros Ham. unfold MLService.detect_anomalies. rewrite Ham. simpl.
  now rewrite map_map.
Qed.

(** The absolute value that the code takes of an amount in range is the
    magnitude of the transaction. *)
Lemma py_abs_magnitude {F : Type} `{Float F} (t : gmap string (pyval F)) :
  amount_in_range t ->
  exists a : number F,
    MLService.py_abs (dict_get t "amount" (VInt 0)) = Returned a /\
    MLService.to_float a = magnitude t.
Proof.
  unfold amount_in_range, magnitude, dict_get.
  destruct (t !! "amount") as [[| b | z | x | s]|]; simpl; try tauto; intros Hrange.
  - destruct b; eauto.
  - eexists. split; [reflexivity|]. simpl.
    destruct (Z.ltb_spec z 0); [now rewrite Z.abs_neq by lia
                               | now rewrite Z.abs_eq by lia].
  - eauto.
  - eauto.
Qed.

Lemma absolute_amounts_magnitudes {F : Type} `{Float F}
    (transactions : list (gmap string (pyval F))) :
  Forall amount_in_range transactions ->
  exists amounts : list (number F),
    MLService.absolute_amounts transactions = Returned amounts /\
    map MLService.to_float amounts = map magnitude transactions.
Proof.
  unfold MLService.absolute_amounts.
  induction 1 as [|t transactions Ht _ [amounts [Hrun Hmap]]]; simpl.
  - exists []. split; reflexivity.
  - destruct (py_abs_magnitude t Ht) as [a [Ha Hmag]].
    exists (a :: amounts). rewrite Ha. simpl. rewrite Hrun. simpl.
    split; [reflexivity|]. now rewrite Hmag, Hmap.
Qed.

(** [detect_anomalies] in terms of the magnitudes of the transactions. *)
Lemma detect_anomalies_of_magnitudes {F : Type} `{Float F} (self : MLService.t)
    (transactions : list (gmap string (pyval F))) (threshold : F) :
  Forall amount_in_range transactions ->
  MLService.detect_anomalies self transactions threshold
  = Returned (flags_of (map magnitude transactions) threshold).
Proof.
  intros Hrange.
  destruct (absolute_amounts_magnitudes transactions Hrange)
    as [amounts [Hrun Hmap]].
  rewrite (detect_anomalies_of_amounts self _ threshold amounts Hrun).
  cbv zeta. rewrite Hmap. unfold flags_of, deviates.
  assert (length amounts = length (map magnitude transactions)) as ->
    by (rewrite <- Hmap; now rewrite length_map).
  destruct (length (map magnitude transactions) <? 2)%nat; [reflexivity|].
  simpl. destruct (feq _ _); reflexivity.
Qed.

Lemma flags_of_length {F : Type} `{Float F} (xs : list F) (threshold : F) :
  length (flags_of xs threshold) = length xs.
Proof.
  unfold flags_of. destruct (_ || _); [apply repeat_length | apply length_map].
Qed.

(** C7: for every list of transactions whose amounts, when present, are
    numbers (an [int] of fewer than 64 bits, a [bool] or a [float]) and for
    every threshold, [detect_anomalies] returns one flag per transaction, in
    order.  The values it works on are the absolute amounts, a missing amount
    counting for 0; [mean] and [std] are their [numpy.mean] and [numpy.std]
    (population).  With fewer than two transactions, or [std == 0], every
    flag is [False]; otherwise the flag of a transaction is exactly
    [abs(amount - mean) > threshold * std]. *)
Theorem detect_anomalies_zscore {F : Type} `{Float F} (self : MLService.t)
    (transactions : list (gmap string (pyval F))) (threshold : F) :
  Forall amount_in_range transactions ->
  let xs := map magnitude transactions in
  let mean := np_mean xs in
  let std := np_std xs in
  exists flags : list bool,
    MLService.detect_anomalies self transactions threshold = Returned flags /\
    length flags = length transactions /\
    ((length transactions < 2)%nat \/ feq std (float_of_int 0) = true ->
       flags = repeat false (length transactions)) /\
    ((2 <= length transactions)%nat -> feq std (float_of_int 0) = false ->
       flags = map (fun x => fgt (fabs (fsub x mean)) (fmul threshold std)) xs).
Proof.
  intros Hrange xs mean std.
  exists (flags_of xs threshold).
  split; [apply detect_anomalies_of_magnitudes; exact Hrange|].
  assert (length xs = length transactions) as Hlen by apply length_map.
  split; [now rewrite flags_of_length|].
  unfold flags_of. rewrite Hlen. fold std. split.
  - intros [Hshort|Hzero].
    + apply Nat.ltb_lt in Hshort. now rewrite Hshort.
    + rewrite Hzero. now rewrite orb_true_r.
  - intros Hlong Hnonzero.
    apply Nat.ltb_ge in Hlong. rewrite Hlong, Hnonzero. reflexivity.
Qed.

(** In double precision: four payments of 1 (two of them refunds, one
    written as a float) and one of 100 have mean 20.8 and standard deviation
    39.6, and with a threshold of 1.5 only the last one is flagged; a single
    transaction is never flagged. *)
Lemma detect_anomalies_zscore_witness :
  let payments : list (gmap string (pyval PrimFloat.float)) :=
    [ {[ "amount" := VInt (-1) ]}; {[ "amount" := VFloat (Binary64.of_int 1) ]};
      {[ "amount" := VInt 1 ]}; {[ "amount" := VInt (-1) ]};
      {[ "amount" := VInt 100 ]} ] in
  let single : list (gmap string (pyval PrimFloat.float)) :=
    [ {[ "amount" := VInt 10 ]} ] in
  @MLService.detect_anomalies _ binary64 MLService.__init__ payments
    (@decimal _ binary64 15 1) = Returned [false; false; false; false; true] /\
  @MLService.detect_anomalies _ binary64 MLService.__init__ single
    (@decimal _ binary64 20 1) = Returned [false].
Proof.
  intros payments single.
  assert (Forall (@amount_in_range PrimFloat.float) payments) as Hpayments
    by (repeat constructor; vm_compute; split; reflexivity).
  assert (Forall (@amount_in_range PrimFloat.float) single) as Hsingle
    by (repeat constructor; vm_compute; split; reflexivity).
  split.
  - destruct (@detect_anomalies_zscore _ binary64 MLService.__init__ payments
                (@decimal _ binary64 15 1) Hpayments)
      as [flags [Hrun [_ [_ Hflags]]]].
    rewrite Hrun, Hflags; [vm_compute; reflexivity | simpl; lia |].
    vm_compute. reflexivity.
  - destruct (@detect_anomalies_zscore _ binary64 MLService.__init__ single
                (@decimal _ binary64 20 1) Hsingle)
      as [flags [Hrun [_ [Hnone _]]]].
    rewrite Hrun, Hnone; [reflexivity|]. left. simpl. lia.
Defined.

(** ** Transactions with missing fields *)

Lemma Forall2_middle {A B : Type} (P : A -> B -> Prop) (before after : list A)
    (a : A) (bs : list B) :
  Forall2 P (before ++ a :: after) bs ->
  exists b : B, bs !! length before = Some b /\ P a b.
Proof.
  revert bs. induction before as [|x before IH]; simpl; intros bs Hall;
    inversion Hall as [|? b ? bs' Hb Hrest]; subst; simpl; eauto.
Qed.

Lemma categorize_empty_description :
  MLService._categorize_single MLService.__init__ (PyStr.lower "") = "Other".
Proof. vm_compute. reflexivity. Qed.

(** C10: the analytics read a missing field as a fixed default, and do
    not fail on it.  A transaction without ["amount"] counts for the amount
    [0]: the call returns, and its flags are those of the z-score test over
    the absolute amounts of the other transactions with the value [0] at the
    place of that transaction, so the [0] enters the mean and the standard
    deviation.  A transaction without ["description"] is read as the empty
    description: the call returns and its category is ["Other"].  The other
    transactions have fields of the right type (amounts in the range of
    [amount_in_range], descriptions that are strings). *)
Theorem missing_fields_default {F : Type} `{Float F} (self : MLService.t)
    (before after : list (gmap string (pyval F))) (t : gmap string (pyval F))
    (threshold : F) :
  (t !! "amount" = None ->
   Forall amount_in_range before -> Forall amount_in_range after ->
   let xs := (map magnitude before ++ float_of_int 0 :: map magnitude after)%list in
   let mean := np_mean xs in
   let std := np_std xs in
   exists flags : list bool,
     MLService.detect_anomalies self (before ++ t :: after) threshold
       = Returned flags /\
     length flags = length (before ++ t :: after) /\
     flags = if (length xs <? 2)%nat || feq std (float_of_int 0)
             then repeat false (length xs)
             else map (fun x => fgt (fabs (fsub x mean)) (fmul threshold std)) xs) /\
  (t !! "description" = None ->
   Forall description_well_typed before -> Forall description_well_typed after ->
   exists categories : list string,
     MLService.categorize_expenses MLService.__init__ (before ++ t :: after)
       = Returned categories /\
     length categories = length (before ++ t :: after) /\
     categories !! length before = Some "Other").
Proof.
  split.
  - intros Hnone Hbefore Hafter xs mean std.
    assert (amount_in_range t) as Ht
      by (unfold amount_in_range; now rewrite Hnone).
    assert (magnitude t = float_of_int 0) as Hzero
      by (unfold magnitude; now rewrite Hnone).
    assert (map magnitude (before ++ t :: after) = xs) as Hxs
      by (rewrite map_app; simpl; now rewrite Hzero).
    exists (flags_of xs threshold). split; [|split].
    + rewrite <- Hxs. apply detect_anomalies_of_magnitudes.
      apply Forall_app. split; [exact Hbefore | now constructor].
    + rewrite flags_of_length, <- Hxs. apply length_map.
    + reflexivity.
  - intros Hnone Hbefore Hafter.
    assert (description_well_typed t) as Ht
      by (unfold description_well_typed; now rewrite Hnone).
    destruct (categorize_expenses_total (before ++ t :: after))
      as [categories Hrun];
      [apply Forall_app; split; [exact Hbefore | now constructor]|].
    exists categories. split; [exact Hrun|].
    apply traverse_Forall2 in Hrun.
    split; [symmetry; exact (Forall2_length _ _ _ Hrun)|].
    apply Forall2_middle in Hrun as [category [Hat Hcat]].
    rewrite Hat. unfold dict_get in Hcat. rewrite Hnone in Hcat.
    change (Returned (MLService._categorize_single MLService.__init__ (PyStr.lower ""))
            = Returned category) in Hcat.
    rewrite categorize_empty_description in Hcat. now injection Hcat as <-.
Qed.

(** In double precision: a rent of 5, a ride of 7.5, a transaction with
    neither amount nor description, and a cinema night of 40.  The missing
    amount counts for 0 (mean 13.125, standard deviation 15.75): with a
    threshold of 0.8 the transaction without amount is itself flagged. *)
Lemma missing_fields_default_witness :
  let rent : gmap string (pyval PrimFloat.float) :=
    <["amount" := VInt (-5)]> {[ "description" := VStr "Monthly RENT" ]} in
  let ride : gmap string (pyval PrimFloat.float) :=
    <["amount" := VFloat (@decimal _ binary64 75 1)]>
      {[ "description" := VStr "Uber ride" ]} in
  let bare : gmap string (pyval PrimFloat.float) :=
    {[ "merchant" := VStr "corner shop" ]} in
  let cinema : gmap string (pyval PrimFloat.float) :=
    <["amount" := VInt 40]> {[ "description" := VStr "Movie night" ]} in
  @MLService.detect_anomalies _ binary64 MLService.__init__
    [rent; ride; bare; cinema] (@decimal _ binary64 8 1)
    = Returned [false; false; true; true] /\
  MLService.categorize_expenses MLService.__init__ [rent; ride; bare; cinema]
    = Returned ["Housing"; "Transportation"; "Other"; "Entertainment"].
Proof.
  intros rent ride bare cinema.
  destruct (@missing_fields_default _ binary64 MLService.__init__
              [rent; ride] [cinema] bare (@decimal _ binary64 8 1))
    as [Hamount Hdescription].
  split.
  - destruct Hamount as [flags [Hrun [_ Hflags]]];
      [reflexivity
      |repeat constructor; vm_compute; split; reflexivity
      |repeat constructor; vm_compute; split; reflexivity|].
    change ([rent; ride] ++ bare :: [cinema])%list
      with [rent; ride; bare; cinema] in Hrun.
    rewrite Hrun, Hflags. vm_compute. reflexivity.
  - destruct Hdescription as [categories [Hrun _]];
      [reflexivity | repeat constructor | repeat constructor |].
    change ([rent; ride] ++ bare :: [cinema])%list
      with [rent; ride; bare; cinema] in Hrun.
    rewrite Hrun. vm_compute in Hrun. congruence.
Defined.



(** ** Forecast *)





(** ** The vector store *)

(** [except Exception as e: ...; raise] changes nothing. *)
Lemma try_with_reraise {S A : Type} (m : prog S A) (s : S) :
  try_with m (fun e => raise e) s = m s.
Proof. unfold try_with, raise. destruct (m s) as [[a|e|] s']; reflexivity. Qed.

(** Unfolds the calls of a service method down to the backend. *)
Ltac run_service :=
  unfold VectorStoreService.initialize, VectorStoreService.add_documents,
    VectorStoreService.search, VectorStoreService.delete_documents,
    VectorStoreService.get_collection_stats, VectorStoreService.clear_collection,
    VectorStoreService.the_model, VectorStoreService.the_collection,
    VectorStoreService.the_client, VectorStoreService.self,
    VectorStoreService.set_self, VectorStoreService.backend,
    try_with, of_outcome, raise, mbind, prog_bind, mret, prog_ret; simpl.

(** C5 (as stated, refuted): on an initialised service whose store fails
    to count ([collection.count()] raises), [get_collection_stats] raises
    nothing and returns the empty dictionary. *)
Lemma stats_swallow_storage_failure :
  @collection_count R unit (Stub.store (Raised (Exn "StorageError")) Diverged)
    "financial_documents" tt = (Raised (Exn "StorageError"), tt) /\
  @VectorStoreService.get_collection_stats R unit
    (Stub.store (Raised (Exn "StorageError")) Diverged) (Stub.ready, tt)
  = (Returned ∅, (Stub.ready, tt)).
Proof. split; reflexivity. Qed.

Section VectorStoreFailures.
Context {F DB : Type} `{Backend F DB}.

(** C5 (amended): a failure of the embedding model or of the store
    surfaces as the very exception the backend raised.  On every service,
    initialised or not, a failure of any step of [initialize] aborts
    [initialize] with it.  On an initialised service such a failure aborts
    [add_documents], [search], [delete_documents] and [clear_collection] with
    it, and the service is left as it was.  [get_collection_stats] is the
    exception: when [collection.count()] fails it raises nothing and returns
    the empty dictionary. *)
Theorem vector_store_failures (me : VectorStoreService.t) (name : string)
    (db db' : DB) (e : exn) :
  ((path_mkdir (VectorStoreService.persist_directory me) db = (Raised e, db') ->
      VectorStoreService.initialize (me, db) = (Raised e, (me, db'))) /\
   (forall db1,
      path_mkdir (VectorStoreService.persist_directory me) db = (Returned tt, db1) ->
      persistent_client (VectorStoreService.persist_directory me) db1
        = (Raised e, db') ->
      VectorStoreService.initialize (me, db) = (Raised e, (me, db'))) /\
   (forall db1 db2,
      path_mkdir (VectorStoreService.persist_directory me) db = (Returned tt, db1) ->
      persistent_client (VectorStoreService.persist_directory me) db1
        = (Returned tt, db2) ->
      get_or_create_collection "financial_documents" db2 = (Raised e, db') ->
      fst (VectorStoreService.initialize (me, db)) = Raised e) /\
   (forall db1 db2 db3,
      path_mkdir (VectorStoreService.persist_directory me) db = (Returned tt, db1) ->
      persistent_client (VectorStoreService.persist_directory me) db1
        = (Returned tt, db2) ->
      get_or_create_collection "financial_documents" db2 = (Returned tt, db3) ->
      sentence_transformer "all-MiniLM-L6-v2" db3 = (Raised e, db') ->
      fst (VectorStoreService.initialize (me, db)) = Raised e) /\
   (forall db1 db2 db3 db4,
      path_mkdir (VectorStoreService.persist_directory me) db = (Returned tt, db1) ->
      persistent_client (VectorStoreService.persist_directory me) db1
        = (Returned tt, db2) ->
      get_or_create_collection "financial_documents" db2 = (Returned tt, db3) ->
      sentence_transformer "all-MiniLM-L6-v2" db3 = (Returned tt, db4) ->
      collection_count "financial_documents" db4 = (Raised e, db') ->
      fst (VectorStoreService.initialize (me, db)) = Raised e)) /\
  (VectorStoreService.collection me = Some name ->
   VectorStoreService.embedding_model me = true ->
   VectorStoreService.client me = true ->
   (forall texts metadatas ids,
      encode texts db = (Raised e, db') ->
      VectorStoreService.add_documents texts metadatas ids (me, db)
        = (Raised e, (me, db'))) /\
   (forall texts metadatas ids embeddings db1,
      encode texts db = (Returned embeddings, db1) ->
      collection_add name embeddings texts metadatas ids db1 = (Raised e, db') ->
      VectorStoreService.add_documents texts metadatas ids (me, db)
        = (Raised e, (me, db'))) /\
   (forall query n_results filter_dict,
      encode [query] db = (Raised e, db') ->
      VectorStoreService.search query n_results filter_dict (me, db)
        = (Raised e, (me, db'))) /\
   (forall query n_results filter_dict query_embedding others db1,
      encode [query] db = (Returned (query_embedding :: others), db1) ->
      collection_query name query_embedding n_results filter_dict db1
        = (Raised e, db') ->
      VectorStoreService.search query n_results filter_dict (me, db)
        = (Raised e, (me, db'))) /\
   (forall ids,
      collection_delete name ids db = (Raised e, db') ->
      VectorStoreService.delete_documents ids (me, db) = (Raised e, (me, db'))) /\
   (delete_collection "financial_documents" db = (Raised e, db') ->
      VectorStoreService.clear_collection (me, db) = (Raised e, (me, db'))) /\
   (forall db1,
      delete_collection "financial_documents" db = (Returned tt, db1) ->
      create_collection "financial_documents" db1 = (Raised e, db') ->
      VectorStoreService.clear_collection (me, db) = (Raised e, (me, db'))) /\
   (collection_count name db = (Raised e, db') ->
      VectorStoreService.get_collection_stats (me, db) = (Returned ∅, (me, db')))).
Proof.
  split.
  - repeat split.
    + intros Hmkdir. run_service. now rewrite Hmkdir.
    + intros db1 Hmkdir Hopen. run_service. rewrite Hmkdir. simpl. now rewrite Hopen.
    + intros db1 db2 Hmkdir Hopen Hget. run_service.
      rewrite Hmkdir. simpl. rewrite Hopen. simpl. now rewrite Hget.
    + intros db1 db2 db3 Hmkdir Hopen Hget Hload. run_service.
      rewrite Hmkdir. simpl. rewrite Hopen. simpl. rewrite Hget. simpl.
      now rewrite Hload.
    + intros db1 db2 db3 db4 Hmkdir Hopen Hget Hload Hcount. run_service.
      rewrite Hmkdir. simpl. rewrite Hopen. simpl. rewrite Hget. simpl.
      rewrite Hload. simpl. now rewrite Hcount.
  - intros Hcollection Hmodel Hclient.
    repeat split.
    + intros texts metadatas ids Hencode. run_service.
      rewrite Hmodel. simpl. now rewrite Hencode.
    + intros texts metadatas ids embeddings db1 Hencode Hadd. run_service.
      rewrite Hmodel. simpl. rewrite Hencode. simpl.
      rewrite Hcollection. simpl. now rewrite Hadd.
    + intros query n_results filter_dict Hencode. run_service.
      rewrite Hmodel. simpl. now rewrite Hencode.
    + intros query n_results filter_dict q others db1 Hencode Hquery. run_service.
      rewrite Hmodel. simpl. rewrite Hencode. simpl.
      rewrite Hcollection. simpl. now rewrite Hquery.
    + intros ids Hdelete. run_service. rewrite Hcollection. simpl. now rewrite Hdelete.
    + intros Hdelete. run_service. rewrite Hclient. simpl. now rewrite Hdelete.
    + intros db1 Hdelete Hcreate. run_service. rewrite Hclient. simpl.
      rewrite Hdelete. simpl. now rewrite Hcreate.
    + intros Hcount. run_service. rewrite Hcollection. simpl. now rewrite Hcount.
Qed.

End VectorStoreFailures.

Lemma vector_store_failures_witness :
  let failing : Backend R unit :=
    Stub.store (Raised (Exn "StorageError")) (Raised (Exn "StorageError")) in
  fst (@VectorStoreService.initialize R unit failing
         (VectorStoreService.__init__ "./data/chroma", tt))
    = Raised (Exn "StorageError") /\
  @VectorStoreService.search R unit failing "balance" 5 None (Stub.ready, tt)
    = (Raised (Exn "StorageError"), (Stub.ready, tt)) /\
  @collection_count R unit failing "financial_documents" tt
    = (Raised (Exn "StorageError"), tt) /\
  @VectorStoreService.get_collection_stats R unit failing (Stub.ready, tt)
    = (Returned ∅, (Stub.ready, tt)).
Proof.
  intros failing.
  assert (@collection_count R unit failing "financial_documents" tt
          = (Raised (Exn "StorageError"), tt)) as Hcount by reflexivity.
  destruct (@vector_store_failures R unit failing
              (VectorStoreService.__init__ "./data/chroma") "financial_documents"
              tt tt (Exn "StorageError"))
    as [[_ [_ [_ [_ Hinitialize]]]] _].
  destruct (@vector_store_failures R unit failing Stub.ready "financial_documents"
              tt tt (Exn "StorageError"))
    as [_ Hready].
  destruct (Hready eq_refl eq_refl eq_refl)
    as [_ [_ [_ [Hsearch [_ [_ [_ Hstats]]]]]]].
  split; [exact (Hinitialize tt tt tt tt eq_refl eq_refl eq_refl eq_refl Hcount)|].
  split; [apply (Hsearch "balance" 5 None [0%R] [] tt); reflexivity|].
  split; [exact Hcount | exact (Hstats Hcount)].
Defined.

(** ** The query of the orchestrator *)

Section QueryPaths.
Context {F DB : Type} `{Float F} `{Backend F DB} `{Host F}.

(** Unfolds [query] down to the calls of the vector store. *)
Ltac run_query :=
  unfold RAGService.query, RAGService.time, RAGService.initialize,
    RAGService.on_vector_store, get_state, modify, try_with, of_outcome, raise,
    mbind, prog_bind, mret, prog_ret; simpl.

(** The short circuit: on an initialised service whose search finds
    nothing, [query] returns a dictionary of five keys. *)
Lemma query_no_results (w : RAGService.world) (query model : string)
    (n_results : Z) (filter_dict : option metadata)
    (vs' : VectorStoreService.t) (db' : DB) :
  RAGService.initialized w = true ->
  VectorStoreService.search query n_results filter_dict
    (RAGService.vector_store w, RAGService.db w) = (Returned [], (vs', db')) ->
  RAGService.query query n_results model filter_dict w =
  (Returned (<["answer" := QStr RAGService.no_information]>
            (<["sources" := QSources []]>
            (<["context_used" := QStr ""]>
            (<["processing_time" :=
                 QFloat (fsub (time_time (S (RAGService.ticks w)))
                              (time_time (RAGService.ticks w)))]>
            (<["model_used" := QStr model]> ∅))))),
   RAGService.mk_world vs' true db' (S (S (RAGService.ticks w)))).
Proof.
  intros Hready Hsearch. run_query. rewrite Hready. simpl.
  rewrite Hsearch. simpl. reflexivity.
Qed.

(** The other path: with at least one search result and an answer of the
    language model, the dictionary has the sixth key, ["num_sources"]. *)
Lemma query_with_results (w : RAGService.world) (query model answer : string)
    (n_results : Z) (filter_dict : option metadata)
    (first : SearchResult F) (others : list (SearchResult F))
    (vs' : VectorStoreService.t) (db' : DB) :
  RAGService.initialized w = true ->
  VectorStoreService.search query n_results filter_dict
    (RAGService.vector_store w, RAGService.db w)
    = (Returned (first :: others), (vs', db')) ->
  generate_response
    (RAGService._build_prompt query (RAGService._build_context (first :: others)))
    model RAGService._get_system_message 1000 (decimal 7 1) = Returned answer ->
  exists (result : gmap string (query_value F)) (w' : RAGService.world),
    RAGService.query query n_results model filter_dict w = (Returned result, w') /\
    result !! "answer" = Some (QStr answer) /\
    result !! "sources" = Some (QSources (first :: others)) /\
    result !! "num_sources" = Some (QInt (Z.of_nat (length (first :: others)))).
Proof.
  intros Hready Hsearch Hanswer. run_query. rewrite Hready. simpl.
  rewrite Hsearch. simpl. simpl in Hanswer. rewrite Hanswer. simpl.
  eexists. eexists. split; [reflexivity|]. repeat split.
Qed.

(** A first call initialises the vector store and goes on as a call on the
    initialised service does. *)
Lemma query_after_initialize (w : RAGService.world) (query model : string)
    (n_results : Z) (filter_dict : option metadata)
    (vs' : VectorStoreService.t) (db' : DB) :
  RAGService.initialized w = false ->
  VectorStoreService.initialize (RAGService.vector_store w, RAGService.db w)
    = (Returned tt, (vs', db')) ->
  RAGService.query query n_results model filter_dict w =
  RAGService.query query n_results model filter_dict
    (RAGService.mk_world vs' true db' (RAGService.ticks w)).
Proof.
  intros Hfresh Hinit. run_query. rewrite Hfresh. simpl.
  rewrite Hinit. simpl. reflexivity.
Qed.

End QueryPaths.

(** C4 (the code misses a key): a fresh service over an index that holds
    nothing relevant answers the query ["What is the balance?"] through the
    short circuit.  The result has the fixed answer, no sources, an empty
    context, the elapsed time (here one second) and the model, but no
    ["num_sources"]; over an index with one relevant entry the same call
    returns ["num_sources"] equal to 1. *)
Theorem query_short_circuit_lacks_num_sources :
  let empty_index : Backend R unit :=
    Stub.store (Returned 0) (Returned Stub.no_hits) in
  let indexed : Backend R unit :=
    Stub.store (Returned 1) (Returned Stub.one_hit) in
  (exists (result : gmap string (query_value R)) (w' : RAGService.world),
     @RAGService.query R unit ideal empty_index Stub.host
       "What is the balance?" 5 "gpt-4" None (RAGService.__init__ tt)
       = (Returned result, w') /\
     result !! "answer" = Some (QStr RAGService.no_information) /\
     result !! "sources" = Some (QSources []) /\
     result !! "context_used" = Some (QStr "") /\
     result !! "processing_time" = Some (QFloat (INR 1 - INR 0)%R) /\
     (0 <= INR 1 - INR 0)%R /\
     result !! "model_used" = Some (QStr "gpt-4") /\
     result !! "num_sources" = None) /\
  (exists (result : gmap string (query_value R)) (w' : RAGService.world),
     @RAGService.query R unit ideal indexed Stub.host
       "What is the balance?" 5 "gpt-4" None (RAGService.__init__ tt)
       = (Returned result, w') /\
     result !! "answer" = Some (QStr "The balance is 100.") /\
     result !! "num_sources" = Some (QInt 1)).
Proof.
  intros empty_index indexed. split.
  - eexists. eexists. split.
    + rewrite (@query_after_initialize R unit ideal empty_index Stub.host
        (RAGService.__init__ tt) "What is the balance?" "gpt-4" 5 None
        Stub.ready tt eq_refl eq_refl).
      exact (@query_no_results R unit ideal empty_index Stub.host
        (RAGService.mk_world Stub.ready true tt 0) "What is the balance?" "gpt-4"
        5 None Stub.ready tt eq_refl eq_refl).
    + repeat split. simpl. lra.
  - rewrite (@query_after_initialize R unit ideal indexed Stub.host
      (RAGService.__init__ tt) "What is the balance?" "gpt-4" 5 None
      Stub.ready tt eq_refl eq_refl).
    destruct (@query_with_results R unit ideal indexed Stub.host
      (RAGService.mk_world Stub.ready true tt 0) "What is the balance?" "gpt-4"
      "The balance is 100." 5 None
      (mk_search_result "doc_1_chunk_0" "Balance: 100"
         {[ "filename" := "statement.pdf" ]} (Some 0%R)) []
      Stub.ready tt eq_refl eq_refl eq_refl)
      as [result [w' [Hrun [Hanswer [_ Hcount]]]]].
    exists result, w'. split; [exact Hrun|]. split; [exact Hanswer | exact Hcount].
Qed.

(** * Further properties *)

(** ** Chunks and the text they are cut from *)

Lemma choose_end_slice (text : string) (cs s e : Z) (ct : string) :
  choose_end text cs s = (e, ct) -> ct = PyStr.slice text s e.
Proof.
  unfold choose_end.
  destruct (s + cs <? PyStr.len text); [|now intros [= <- <-]].
  destruct (past_halfway _ _); now intros [= <- <-].
Qed.

Lemma lstrip_len (s : string) : PyStr.len (PyStr.lstrip s) <= PyStr.len s.
Proof.
  unfold PyStr.len. induction s as [|c s IH]; simpl; [lia|].
  destruct (PyStr.isspace c); simpl; lia.
Qed.

Lemma rstrip_len (s : string) : PyStr.len (PyStr.rstrip s) <= PyStr.len s.
Proof.
  unfold PyStr.len. induction s as [|c s IH]; simpl; [lia|].
  destruct (PyStr.rstrip s); [destruct (PyStr.isspace c)|]; simpl in *; lia.
Qed.

Lemma strip_len (s : string) : PyStr.len (PyStr.strip s) <= PyStr.len s.
Proof.
  unfold PyStr.strip. pose proof (rstrip_len (PyStr.lstrip s)).
  pose proof (lstrip_len s). lia.
Qed.

(** A property of every chunk the loop body emits holds of every chunk a
    run returns. *)
Lemma while_loop_each (text : string) (cs ov : Z) (P : Chunk.t -> Prop) :
  (forall st : loop_state, loop_guard text st = true ->
     exists c : Chunk.t,
       chunks (loop_body text cs ov st) = (chunks st ++ [c])%list /\ P c) ->
  forall (fuel : nat) (st : loop_state) (l : list Chunk.t),
    Forall P (chunks st) ->
    while_loop fuel text cs ov st = Returned l -> Forall P l.
Proof.
  intros Hbody. induction fuel as [|fuel IH]; intros st l Hall; simpl;
    destruct (loop_guard text st) eqn:Hg; try discriminate;
    try (intros [= <-]; exact Hall).
  apply IH. destruct (Hbody st Hg) as [c [-> Hc]].
  apply Forall_app. split; [exact Hall | repeat constructor; exact Hc].
Qed.

(** Every chunk records the slice of the text between its own offsets:
    [text] is that slice stripped, [length] is its length before stripping,
    and neither is longer than [chunk_size]. *)
Theorem chunk_text_content (fuel : nat) (self : DocumentProcessor.t)
    (text : string) (chunk_size overlap : option Z) (l : list Chunk.t) :
  let cs := or_default chunk_size (DocumentProcessor.chunk_size self) in
  0 < cs ->
  _chunk_text fuel self text chunk_size overlap = Returned l ->
  Forall (fun c =>
    let piece := PyStr.slice text (Chunk.start_char c) (Chunk.end_char c) in
    Chunk.text c = PyStr.strip piece /\
    Chunk.length c = PyStr.len piece /\
    PyStr.len (Chunk.text c) <= Chunk.length c <= cs) l.
Proof.
  intros cs Hcs Hrun. unfold _chunk_text in Hrun. fold cs in Hrun.
  refine (while_loop_each text cs _ _ _ fuel initial_state l _ Hrun);
    [|constructor].
  intros st Hg. unfold loop_body.
  destruct (choose_end text cs (start st)) as [e ct] eqn:Hce.
  eexists. split; [reflexivity|]. simpl.
  pose proof (choose_end_slice _ _ _ _ _ Hce) as ->.
  apply choose_end_bounds in Hce as [Hspan _]; [|exact Hcs].
  split; [reflexivity|]. split; [reflexivity|].
  pose proof (strip_len (PyStr.slice text (start st) e)).
  pose proof (slice_len_le_span text (start st) e ltac:(lia)). lia.
Qed.

Lemma chunk_text_content_witness :
  exists l : list Chunk.t,
    _chunk_text 4 __init__ "  Paid.  Due soon. " (Some 8) (Some 1) = Returned l /\
    map Chunk.text l = ["Paid."; ".  Due s"; "soon."] /\
    map Chunk.length l = [7; 8; 6] /\
    Forall (fun c =>
      Chunk.text c = PyStr.strip
        (PyStr.slice "  Paid.  Due soon. " (Chunk.start_char c) (Chunk.end_char c)) /\
      Chunk.length c = PyStr.len
        (PyStr.slice "  Paid.  Due soon. " (Chunk.start_char c) (Chunk.end_char c)) /\
      PyStr.len (Chunk.text c) <= Chunk.length c <= 8) l.
Proof.
  assert (exists l : list Chunk.t,
    _chunk_text 4 __init__ "  Paid.  Due soon. " (Some 8) (Some 1) = Returned l /\
    map Chunk.text l = ["Paid."; ".  Due s"; "soon."] /\
    map Chunk.length l = [7; 8; 6]) as [l [Hrun [Htexts Hlens]]].
  { eexists. split; [vm_compute; reflexivity|]. split; vm_compute; reflexivity. }
  exists l. split; [exact Hrun|]. split; [exact Htexts|]. split; [exact Hlens|].
  apply (chunk_text_content 4 __init__ "  Paid.  Due soon. " (Some 8) (Some 1) l);
    [vm_compute; reflexivity | exact Hrun].
Defined.

(** ** Coverage of the text *)

(** A run returns the chunks of a state in which the loop guard is false. *)
Lemma while_loop_exit (text : string) (cs ov : Z) (fuel : nat) :
  0 < cs ->
  forall (st : loop_state) (l : list Chunk.t),
  loop_inv text cs ov st ->
  while_loop fuel text cs ov st = Returned l ->
  exists final : loop_state,
    chunks final = l /\ loop_inv text cs ov final /\
    PyStr.len text <= start final.
Proof.
  intros Hcs. induction fuel as [|fuel IH]; intros st l Hinv; simpl;
    destruct (loop_guard text st) eqn:Hg; try discriminate.
  - intros [= <-]. exists st. unfold loop_guard in Hg. apply Z.ltb_ge in Hg. auto.
  - intros Hrun. apply (IH _ _ (loop_body_inv _ _ _ _ Hcs Hg Hinv) Hrun).
  - intros [= <-]. exists st. unfold loop_guard in Hg. apply Z.ltb_ge in Hg. auto.
Qed.

(** Along the trail of the cursor, with an overlap that is not negative,
    every offset from the first cursor up to the last one lies in a chunk. *)
Lemma chained_covers (ov s : Z) (l : list Chunk.t) (f p : Z) :
  0 <= ov ->
  chained ov s l f ->
  s <= p < f ->
  Exists (fun c => Chunk.start_char c <= p < Chunk.end_char c) l.
Proof.
  intros Hov. revert s. induction l as [|c l IH]; simpl; intros s.
  - intros <-. lia.
  - intros [Hstart Hrest] Hp.
    destruct (Z.lt_ge_cases p (Chunk.end_char c)) as [Hin|Hout].
    + left. lia.
    + right. apply (IH (Chunk.end_char c - ov)); [exact Hrest | lia].
Qed.

(** Along the trail, when every chunk is longer than the overlap, no chunk
    starts before the first cursor. *)
Lemma chained_starts (ov s : Z) (l : list Chunk.t) (f : Z) :
  chained ov s l f ->
  Forall (fun c => ov < Chunk.end_char c - Chunk.start_char c) l ->
  Forall (fun c => s <= Chunk.start_char c) l.
Proof.
  revert s. induction l as [|c l IH]; simpl; intros s; [constructor|].
  intros [Hstart Hrest] Hall. inversion Hall as [|? ? Hc Hall']; subst.
  constructor; [lia|].
  eapply Forall_impl; [apply (IH _ Hrest Hall')|]. simpl. intros c'. lia.
Qed.

(** Under the condition that makes chunking terminate, and with an
    overlap that is not negative, the chunks cover the text: every chunk
    starts at an offset [>= 0], and every offset of the text lies between
    the [start_char] and the [end_char] of some chunk. *)
Theorem chunk_text_covers (self : DocumentProcessor.t) (text : string)
    (chunk_size overlap : option Z) :
  let cs := or_default chunk_size (DocumentProcessor.chunk_size self) in
  let ov := or_default overlap (chunk_overlap self) in
  0 <= ov < cs -> 2 * ov <= cs + 1 ->
  exists l : list Chunk.t,
    (forall fuel : nat, (String.length text <= fuel)%nat ->
       _chunk_text fuel self text chunk_size overlap = Returned l) /\
    Forall (fun c => 0 <= Chunk.start_char c) l /\
    (forall p : Z, 0 <= p < PyStr.len text ->
       Exists (fun c => Chunk.start_char c <= p < Chunk.end_char c) l).
Proof.
  intros cs ov Hov Hhalf.
  destruct (while_loop_terminates text cs ov ltac:(lia) ltac:(lia) Hhalf
              (String.length text) initial_state) as [l Hl].
  { unfold PyStr.len. simpl. lia. }
  exists l. split; [|].
  - intros fuel Hfuel. unfold _chunk_text. fold cs ov.
    eapply while_loop_fuel_mono; eauto.
  - destruct (while_loop_exit text cs ov _ ltac:(lia) _ _
                (loop_inv_initial text cs ov) Hl)
      as [final [<- [[Hnext Hids Heach Hchain] Hexit]]].
    split.
    + apply (chained_starts ov 0 _ _ Hchain).
      eapply Forall_impl; [exact Heach|].
      intros c [_ [Hspan Hbreak]]. lia.
    + intros p Hp. apply (chained_covers ov 0 _ (start final)); [lia|exact Hchain|lia].
Qed.

Lemma chunk_text_covers_witness :
  exists l : list Chunk.t,
    _chunk_text 16 __init__ "Paid.  Due soon." (Some 8) (Some 2) = Returned l /\
    Forall (fun c => 0 <= Chunk.start_char c) l /\
    (forall p : Z, 0 <= p < PyStr.len "Paid.  Due soon." ->
       Exists (fun c => Chunk.start_char c <= p < Chunk.end_char c) l).
Proof.
  destruct (chunk_text_covers __init__ "Paid.  Due soon." (Some 8) (Some 2))
    as [l [Hrun [Hstart Hcover]]]; [simpl; lia..|].
  exists l. split; [apply Hrun; simpl; lia|]. split; assumption.
Defined.

(** ** Parameters that make no progress *)

(** With [0 < chunk_size <= overlap] (after the defaults are filled in,
    and a [chunk_size] of at most [2^53], for which the halfway test is
    exact) chunking a non-empty text never returns: the cursor does not move
    forward and chunks are appended for ever. *)
Theorem chunk_text_overlap_too_large (fuel : nat) (self : DocumentProcessor.t)
    (text : string) (chunk_size overlap : option Z) :
  0 < or_default chunk_size (DocumentProcessor.chunk_size self)
    <= or_default overlap (chunk_overlap self) ->
  or_default chunk_size (DocumentProcessor.chunk_size self) <= 2 ^ 53 ->
  text <> "" ->
  _chunk_text fuel self text chunk_size overlap = Diverged.
Proof.
  intros Hcs Hexact Htext. unfold _chunk_text.
  apply while_loop_no_progress; [exact Hcs| |reflexivity].
  destruct text; [congruence|]. unfold PyStr.len. simpl String.length. lia.
Qed.

Lemma chunk_text_overlap_too_large_witness :
  0 < or_default (Some 50) (DocumentProcessor.chunk_size __init__)
    <= or_default None (chunk_overlap __init__) /\
  or_default (Some 50) (DocumentProcessor.chunk_size __init__) <= 2 ^ 53 /\
  "Invoice 42" <> "" /\
  _chunk_text 9 __init__ "Invoice 42" (Some 50) None = Diverged.
Proof.
  assert (0 < or_default (Some 50) (DocumentProcessor.chunk_size __init__)
            <= or_default None (chunk_overlap __init__)) as Hcs by (simpl; lia).
  assert (or_default (Some 50) (DocumentProcessor.chunk_size __init__) <= 2 ^ 53)
    as Hexact by (simpl; lia).
  split; [exact Hcs|]. split; [exact Hexact|]. split; [discriminate|].
  apply (chunk_text_overlap_too_large 9 __init__ "Invoice 42" (Some 50) None
           Hcs Hexact).
  discriminate.
Defined.

(** ** Keywords that can never decide *)

Lemma append_assoc (a b c : string) : (a ++ b) ++ c = a ++ (b ++ c).
Proof.
  induction a as [|x a IH]; [reflexivity|].
  rewrite !append_cons. now rewrite IH.
Qed.

Lemma substring_of_trans (a b c : string) :
  substring_of a b -> substring_of b c -> substring_of a c.
Proof.
  intros [p1 [q1 ->]] [p2 [q2 ->]]. exists (p2 ++ p1), (q1 ++ q2).
  now rewrite !append_assoc.
Qed.

(** The keyword ["gas bill"] of "Utilities" is shadowed by the keyword
    ["gas"] of "Transportation", which comes earlier in the table: a
    description that mentions a gas bill is never put in "Utilities" on that
    account, it is put in "Food & Dining" or in "Transportation". *)
Theorem gas_bill_is_transportation (description : string) :
  matches_ignoring_case "gas bill" description ->
  MLService._categorize_single MLService.__init__ (PyStr.lower description)
    = "Food & Dining" \/
  MLService._categorize_single MLService.__init__ (PyStr.lower description)
    = "Transportation".
Proof.
  intros Hbill.
  assert (PyStr.contains (PyStr.lower (PyStr.lower description)) "gas" = true) as Hgas.
  { rewrite lower_idempotent. apply contains_spec.
    apply (substring_of_trans "gas" "gas bill"); [|exact Hbill].
    exists "", " bill". reflexivity. }
  unfold MLService._categorize_single.
  set (d := PyStr.lower (PyStr.lower description)) in *.
  change (MLService.category_keywords MLService.__init__)
    with MLService._init_category_keywords.
  unfold MLService._init_category_keywords.
  set (f := fun entry : string * list string => MLService.any_keyword_in (snd entry) d).
  change (find f (?a :: ?l)) with (if f a then Some a else find f l).
  destruct (f _) eqn:Hfood; [now left|].
  change (find f (?a :: ?l)) with (if f a then Some a else find f l).
  assert (f ("Transportation",
             ["gas"; "fuel"; "transport"; "uber"; "lyft"; "taxi"; "parking"]) = true)
    as ->.
  { unfold f, MLService.any_keyword_in. simpl snd.
    change (existsb ?g (?k :: ?ks)) with (g k || existsb g ks).
    cbv beta. now rewrite Hgas. }
  now right.
Qed.

Lemma gas_bill_is_transportation_witness :
  matches_ignoring_case "gas bill" "City GAS BILL March" /\
  MLService._categorize_single MLService.__init__
    (PyStr.lower "City GAS BILL March") = "Transportation".
Proof.
  assert (matches_ignoring_case "gas bill" "City GAS BILL March") as Hbill.
  { exists "city ", " march". vm_compute. reflexivity. }
  split; [exact Hbill|].
  destruct (gas_bill_is_transportation "City GAS BILL March" Hbill) as [Hfood|Htransport];
    [|exact Htransport].
  vm_compute in Hfood. discriminate.
Defined.

(** ** Forecasts *)

Lemma tail_app_exact {F : Type} (n : nat) (earlier recent : list F) :
  length recent = n -> MLService.tail n (earlier ++ recent) = recent.
Proof.
  intros <-. unfold MLService.tail. rewrite length_app.
  replace (length earlier + length recent - length recent)%nat
    with (length earlier + 0)%nat by lia.
  rewrite skipn_app. rewrite Nat.add_0_r, skipn_all.
  replace (length earlier - length earlier)%nat with 0%nat by lia. reflexivity.
Qed.

(** Only the last three values count: two frames of at least three rows
    whose series end with the same three values get the same forecast. *)
Theorem forecast_uses_last_three {F : Type} `{Float F} (self : MLService.t)
    (df1 df2 : MLService.DataFrame) (periods : Z)
    (earlier1 earlier2 last3 : list F) :
  (3 <= MLService.nrows df1)%nat -> (3 <= MLService.nrows df2)%nat ->
  MLService.amount_series df1 = Returned (earlier1 ++ last3)%list ->
  MLService.amount_series df2 = Returned (earlier2 ++ last3)%list ->
  length last3 = 3%nat ->
  MLService.forecast_expenses self df1 periods
    = MLService.forecast_expenses self df2 periods.
Proof.
  intros H1 H2 Hs1 Hs2 Hlen. unfold MLService.forecast_expenses.
  apply Nat.ltb_ge in H1, H2. rewrite H1, H2, Hs1, Hs2. simpl.
  now rewrite !(tail_app_exact 3 _ last3 Hlen).
Qed.

Lemma forecast_uses_last_three_witness :
  let long : MLService.DataFrame :=
    MLService.mk_frame 5 [("amount", [900%R; 1%R; 10%R; 12%R; 11%R])] in
  let short : MLService.DataFrame :=
    MLService.mk_frame 3 [("total", [10%R; 12%R; 11%R])] in
  (3 <= MLService.nrows long)%nat /\ (3 <= MLService.nrows short)%nat /\
  MLService.forecast_expenses MLService.__init__ long 4
    = MLService.forecast_expenses MLService.__init__ short 4.
Proof.
  intros long short.
  assert (3 <= MLService.nrows long)%nat as Hlong by (simpl; lia).
  assert (3 <= MLService.nrows short)%nat as Hshort by (simpl; lia).
  split; [exact Hlong|]. split; [exact Hshort|].
  exact (forecast_uses_last_three MLService.__init__ long short 4
           [900%R; 1%R] [] [10%R; 12%R; 11%R] Hlong Hshort eq_refl eq_refl eq_refl).
Defined.



(** ** The vector store before and after [initialize] *)

Section VectorStoreLifeCycle.
Context {F DB : Type} `{Backend F DB}.

(** A service that was never initialised holds no handle: [add_documents],
    [search], [delete_documents] and [clear_collection] raise
    [AttributeError] without a call to the store, and
    [get_collection_stats] turns that very error into the empty
    dictionary. *)
Theorem uninitialised_service (directory : string) (db : DB)
    (texts ids : list string) (metadatas : list metadata) (query : string)
    (n_results : Z) (filter_dict : option metadata) :
  let fresh := VectorStoreService.__init__ directory in
  VectorStoreService.add_documents texts metadatas ids (fresh, db)
    = (Raised (Exn "AttributeError"), (fresh, db)) /\
  VectorStoreService.search query n_results filter_dict (fresh, db)
    = (Raised (Exn "AttributeError"), (fresh, db)) /\
  VectorStoreService.delete_documents ids (fresh, db)
    = (Raised (Exn "AttributeError"), (fresh, db)) /\
  VectorStoreService.clear_collection (fresh, db)
    = (Raised (Exn "AttributeError"), (fresh, db)) /\
  VectorStoreService.get_collection_stats (fresh, db) = (Returned ∅, (fresh, db)).
Proof. repeat split. Qed.

(** Splits on the result of the next backend call of the goal. *)
Ltac next_call :=
  match goal with
  | |- context [match ?call ?db with _ => _ end] =>
      match type of (call db) with
      | (outcome _ * _)%type =>
          let r := fresh "r" in let db' := fresh "db" in
          destruct (call db) as [r db']; destruct r as [[]| |]; simpl;
          try discriminate
      end
  end.

Lemma initialize_keeps_dimension (me me' : VectorStoreService.t) (db db' : DB) :
  VectorStoreService.initialize (me, db) = (Returned tt, (me', db')) ->
  VectorStoreService.collection me' = Some "financial_documents" /\
  VectorStoreService.embedding_dimension me'
    = VectorStoreService.embedding_dimension me.
Proof.
  run_service. repeat next_call; intros [= <- <-]; split; reflexivity.
Qed.

(** When [initialize] returns, the service holds its three handles, on
    the collection ["financial_documents"], and keeps its directory and its
    embedding dimension. *)
Theorem initialize_sets_handles (me me' : VectorStoreService.t) (db db' : DB) :
  VectorStoreService.initialize (me, db) = (Returned tt, (me', db')) ->
  VectorStoreService.client me' = true /\
  VectorStoreService.collection me' = Some "financial_documents" /\
  VectorStoreService.embedding_model me' = true /\
  VectorStoreService.persist_directory me' = VectorStoreService.persist_directory me /\
  VectorStoreService.embedding_dimension me'
    = VectorStoreService.embedding_dimension me.
Proof.
  run_service. repeat next_call; intros [= <- <-]; repeat split.
Qed.

(** After [initialize], [get_collection_stats] reports the count of the
    collection ["financial_documents"] and the embedding dimension 384 of a
    service made by [__init__]. *)
Theorem stats_after_initialize (directory : string) (me' : VectorStoreService.t)
    (db db' db'' : DB) (count : Z) :
  VectorStoreService.initialize (VectorStoreService.__init__ directory, db)
    = (Returned tt, (me', db')) ->
  collection_count "financial_documents" db' = (Returned count, db'') ->
  VectorStoreService.get_collection_stats (me', db') =
  (Returned (<["total_documents" := StatInt count]>
            (<["collection_name" := StatStr "financial_documents"]>
            (<["embedding_dimension" := StatInt 384]> ∅))),
   (me', db'')).
Proof.
  intros Hinit Hcount.
  destruct (initialize_keeps_dimension _ _ _ _ Hinit) as [Hcoll Hdim].
  run_service. rewrite Hcoll. simpl. rewrite Hcount. simpl.
  rewrite Hdim. reflexivity.
Qed.

End VectorStoreLifeCycle.

Lemma initialize_sets_handles_witness :
  let store : Backend R unit := Stub.store (Returned 3) (Returned Stub.no_hits) in
  @VectorStoreService.initialize R unit store
    (VectorStoreService.__init__ "./data/chroma", tt) = (Returned tt, (Stub.ready, tt)) /\
  VectorStoreService.client Stub.ready = true /\
  VectorStoreService.collection Stub.ready = Some "financial_documents" /\
  VectorStoreService.embedding_model Stub.ready = true.
Proof.
  intros store.
  assert (@VectorStoreService.initialize R unit store
            (VectorStoreService.__init__ "./data/chroma", tt)
          = (Returned tt, (Stub.ready, tt))) as Hinit by reflexivity.
  split; [exact Hinit|].
  destruct (@initialize_sets_handles R unit store _ _ _ _ Hinit)
    as [Hclient [Hcoll [Hmodel _]]].
  split; [exact Hclient|]. split; [exact Hcoll | exact Hmodel].
Defined.

Lemma stats_after_initialize_witness :
  let store : Backend R unit := Stub.store (Returned 3) (Returned Stub.no_hits) in
  exists stats : gmap string stats_value,
    @VectorStoreService.get_collection_stats R unit store (Stub.ready, tt)
      = (Returned stats, (Stub.ready, tt)) /\
    stats !! "total_documents" = Some (StatInt 3) /\
    stats !! "embedding_dimension" = Some (StatInt 384).
Proof.
  intros store. eexists. split.
  - exact (@stats_after_initialize R unit store "./data/chroma" Stub.ready
             tt tt tt 3 eq_refl eq_refl).
  - split; reflexivity.
Defined.

(** ** The shape of search results *)

Lemma traverse_seq {B : Type} (f : nat -> outcome B) (g : nat -> B) (k n : nat) :
  (forall i : nat, (k <= i < k + n)%nat -> f i = Returned (g i)) ->
  traverse f (seq k n) = Returned (map g (seq k n)).
Proof.
  revert k. induction n as [|n IH]; intros k Hf; simpl; [reflexivity|].
  rewrite Hf by lia. simpl. rewrite IH; [reflexivity|].
  intros i Hi. apply Hf. lia.
Qed.

Lemma map_lookup_seq {A B : Type} (h : A -> B) (l : list A) (pick : nat -> B) :
  (forall (i : nat) (a : A), l !! i = Some a -> pick i = h a) ->
  map pick (seq 0 (length l)) = map h l.
Proof.
  revert pick. induction l as [|a l IH]; intros pick Hpick; simpl; [reflexivity|].
  rewrite (Hpick 0%nat a eq_refl). f_equal.
  rewrite <- seq_shift, map_map. apply IH.
  intros i b Hi. apply (Hpick (S i) b). exact Hi.
Qed.

Section SearchShape.
Context {F DB : Type} `{Backend F DB}.

(** On an initialised service, when the store answers a query with lists
    of equal length, [search] returns one result per id, in the order of the
    store, and pairs the id, the document, the metadata and the distance
    found at the same position. *)
Theorem search_pairs_by_position (me : VectorStoreService.t) (name query : string)
    (n_results : Z) (filter_dict : option metadata) (db db1 db2 : DB)
    (query_embedding : list F) (others : list (list F)) (results : QueryResult F)
    (ids0 docs0 : list string) (metas0 : list metadata) (dists0 : list F)
    (ids' docs' : list (list string)) (metas' : list (list metadata))
    (dists' : list (list F)) :
  VectorStoreService.embedding_model me = true ->
  VectorStoreService.collection me = Some name ->
  encode [query] db = (Returned (query_embedding :: others), db1) ->
  collection_query name query_embedding n_results filter_dict db1
    = (Returned results, db2) ->
  ids results = ids0 :: ids' ->
  documents results = docs0 :: docs' ->
  metadatas results = metas0 :: metas' ->
  distances results = Some (dists0 :: dists') ->
  length docs0 = length ids0 ->
  length metas0 = length ids0 ->
  length dists0 = length ids0 ->
  exists found : list (SearchResult F),
    VectorStoreService.search query n_results filter_dict (me, db)
      = (Returned found, (me, db2)) /\
    map id found = ids0 /\
    map document found = docs0 /\
    map result_metadata found = metas0 /\
    map distance found = map Some dists0.
Proof.
  intros Hmodel Hcoll Hencode Hquery Hids Hdocs Hmetas Hdists Hld Hlm Hlx.
  set (pick := fun i : nat =>
    mk_search_result (nth i ids0 "") (nth i docs0 "") (nth i metas0 ∅) (dists0 !! i)).
  assert (traverse (VectorStoreService.format_result results) (seq 0 (length ids0))
          = Returned (map pick (seq 0 (length ids0)))) as Hall.
  { apply traverse_seq. intros i Hi. unfold VectorStoreService.format_result.
    rewrite Hids, Hdocs, Hmetas, Hdists. unfold py_index. simpl.
    destruct (lookup_lt_is_Some_2 ids0 i ltac:(lia)) as [a Ha].
    destruct (lookup_lt_is_Some_2 docs0 i ltac:(lia)) as [b Hb].
    destruct (lookup_lt_is_Some_2 metas0 i ltac:(lia)) as [c Hc].
    destruct (lookup_lt_is_Some_2 dists0 i ltac:(lia)) as [d Hd].
    rewrite Ha, Hb, Hc, Hd. simpl. unfold pick.
    rewrite (nth_lookup_Some _ _ _ _ Ha), (nth_lookup_Some _ _ _ _ Hb),
      (nth_lookup_Some _ _ _ _ Hc), Hd. reflexivity. }
  exists (map pick (seq 0 (length ids0))). split.
  - run_service. rewrite Hmodel. simpl. rewrite Hencode. simpl.
    rewrite Hcoll. simpl. rewrite Hquery. simpl. rewrite Hids.
    destruct ids0 as [|a ids0]; [reflexivity|].
    change (0 <? length (a :: ids0))%nat with true. cbv iota.
    rewrite Hall. reflexivity.
  - rewrite !map_map. split; [|split; [|split]].
    + rewrite (map_lookup_seq (fun a => a) ids0); [apply map_id|].
      intros i a Ha. simpl. apply (nth_lookup_Some _ _ _ _ Ha).
    + rewrite <- Hld. rewrite (map_lookup_seq (fun a => a) docs0); [apply map_id|].
      intros i a Ha. simpl. apply (nth_lookup_Some _ _ _ _ Ha).
    + rewrite <- Hlm. rewrite (map_lookup_seq (fun a => a) metas0); [apply map_id|].
      intros i a Ha. simpl. apply (nth_lookup_Some _ _ _ _ Ha).
    + rewrite <- Hlx. apply map_lookup_seq. intros i a Ha. simpl. exact Ha.
Qed.

End SearchShape.

Lemma search_pairs_by_position_witness :
  let store : Backend R unit :=
    Stub.store (Returned 2)
      (Returned (mk_query_result [["a_chunk_0"; "a_chunk_1"]] [["Rent"; "Gas"]]
                   [[∅; {[ "page" := "2" ]}]] (Some [[0%R; 1%R]]))) in
  exists found : list (SearchResult R),
    @VectorStoreService.search R unit store "rent" 5 None (Stub.ready, tt)
      = (Returned found, (Stub.ready, tt)) /\
    map id found = ["a_chunk_0"; "a_chunk_1"] /\
    map document found = ["Rent"; "Gas"] /\
    map distance found = [Some 0%R; Some 1%R].
Proof.
  intros store.
  destruct (@search_pairs_by_position R unit store Stub.ready "financial_documents"
              "rent" 5 None tt tt tt [0%R] []
              (mk_query_result [["a_chunk_0"; "a_chunk_1"]] [["Rent"; "Gas"]]
                 [[∅; {[ "page" := "2" ]}]] (Some [[0%R; 1%R]]))
              ["a_chunk_0"; "a_chunk_1"] ["Rent"; "Gas"] [∅; {[ "page" := "2" ]}]
              [0%R; 1%R] [] [] [] []
              eq_refl eq_refl eq_refl eq_refl eq_refl eq_refl eq_refl eq_refl
              eq_refl eq_refl eq_refl)
    as [found [Hrun [Hids [Hdocs [_ Hdists]]]]].
  exists found. split; [exact Hrun|]. split; [exact Hids|].
  split; [exact Hdocs | exact Hdists].
Defined.

(** ** The orchestrator: initialisation and failures *)

Section Orchestrator.
Context {F DB : Type} `{Float F} `{Backend F DB} `{Host F}.

Ltac run_rag :=
  unfold RAGService.query, RAGService.time, RAGService.initialize,
    RAGService.on_vector_store, get_state, modify, try_with, of_outcome, raise,
    mbind, prog_bind, mret, prog_ret; simpl.

(** [initialize] sets the flag [initialized] only when the vector store
    was initialised: after a call that returned the flag is set and a second
    call changes nothing (the store is not touched again); after a call that
    raised the flag is still unset, so the next call tries again. *)
Theorem rag_initialize_once (w w' : RAGService.world) :
  (RAGService.initialize w = (Returned tt, w') ->
     RAGService.initialized w' = true /\
     RAGService.initialize w' = (Returned tt, w')) /\
  (forall e : exn,
     RAGService.initialize w = (Raised e, w') ->
     RAGService.initialized w = false /\ RAGService.initialized w' = false /\
     fst (VectorStoreService.initialize (RAGService.vector_store w, RAGService.db w))
       = Raised e).
Proof.
  run_rag. destruct (RAGService.initialized w) eqn:Hflag.
  - split.
    + intros [= <-]. run_rag. rewrite Hflag. auto.
    + intros e. discriminate.
  - destruct (VectorStoreService.initialize _) as [[[]|e'|] [vs' db']]; simpl; split;
      try discriminate; try (intros e; discriminate).
    + intros [= <-]. run_rag. auto.
    + intros e [= <- <-]. simpl. auto.
Qed.

(** [query] passes failures on unchanged: when the search raises, or when
    the search finds something and the language model raises, [query] raises
    the same exception; it never answers with the no-information result in
    place of a failed search. *)
Theorem query_passes_failures_on (w : RAGService.world) (query model : string)
    (n_results : Z) (filter_dict : option metadata) (e : exn)
    (vs' : VectorStoreService.t) (db' : DB) :
  RAGService.initialized w = true ->
  (VectorStoreService.search query n_results filter_dict
     (RAGService.vector_store w, RAGService.db w) = (Raised e, (vs', db')) ->
   RAGService.query query n_results model filter_dict w =
   (Raised e, RAGService.mk_world vs' true db' (S (RAGService.ticks w)))) /\
  (forall (first : SearchResult F) (others : list (SearchResult F)),
     VectorStoreService.search query n_results filter_dict
       (RAGService.vector_store w, RAGService.db w)
       = (Returned (first :: others), (vs', db')) ->
     generate_response
       (RAGService._build_prompt query (RAGService._build_context (first :: others)))
       model RAGService._get_system_message 1000 (decimal 7 1) = Raised e ->
     RAGService.query query n_results model filter_dict w =
     (Raised e, RAGService.mk_world vs' true db' (S (RAGService.ticks w)))).
Proof.
  intros Hready. split.
  - intros Hsearch. run_rag. rewrite Hready. simpl. rewrite Hsearch. reflexivity.
  - intros first others Hsearch Hanswer. run_rag. rewrite Hready. simpl.
    rewrite Hsearch. simpl. simpl in Hanswer. rewrite Hanswer. reflexivity.
Qed.

End Orchestrator.

Lemma rag_initialize_once_witness :
  let store : Backend R unit := Stub.store (Returned 0) (Returned Stub.no_hits) in
  let ready := RAGService.mk_world Stub.ready true tt 0 in
  @RAGService.initialize R unit store (RAGService.__init__ tt) = (Returned tt, ready) /\
  RAGService.initialized ready = true /\
  @RAGService.initialize R unit store ready = (Returned tt, ready).
Proof.
  intros store ready.
  assert (@RAGService.initialize R unit store (RAGService.__init__ tt)
          = (Returned tt, ready)) as Hinit by reflexivity.
  split; [exact Hinit|].
  exact (proj1 (@rag_initialize_once R unit store (RAGService.__init__ tt) ready) Hinit).
Defined.

Lemma query_passes_failures_on_witness :
  let broken : Backend R unit :=
    Stub.store (Returned 0) (Raised (Exn "ConnectionError")) in
  let w := RAGService.mk_world Stub.ready true tt 0 in
  RAGService.initialized w = true /\
  @VectorStoreService.search R unit broken "balance" 5 None (Stub.ready, tt)
    = (Raised (Exn "ConnectionError"), (Stub.ready, tt)) /\
  @RAGService.query R unit ideal broken Stub.host "balance" 5 "gpt-4" None w
    = (Raised (Exn "ConnectionError"), RAGService.mk_world Stub.ready true tt 1).
Proof.
  intros broken w.
  assert (@VectorStoreService.search R unit broken "balance" 5 None (Stub.ready, tt)
          = (Raised (Exn "ConnectionError"), (Stub.ready, tt))) as Hsearch
    by reflexivity.
  split; [reflexivity|]. split; [exact Hsearch|].
  exact (proj1 (@query_passes_failures_on R unit ideal broken Stub.host w
                  "balance" "gpt-4" 5 None (Exn "ConnectionError") Stub.ready tt
                  eq_refl) Hsearch).
Defined.

(** ** The prompt sent to the language model *)

Lemma substring_of_refl (s : string) : substring_of s s.
Proof.
  exists "", "". rewrite append_empty.
  induction s as [|a s IH]; [reflexivity|]. rewrite append_cons. now rewrite <- IH.
Qed.

Lemma substring_of_prepend (a before s : string) :
  substring_of a s -> substring_of a (before ++ s).
Proof.
  intros [p [q ->]]. exists (before ++ p), q. now rewrite !append_assoc.
Qed.

Lemma substring_of_append (a s after : string) :
  substring_of a s -> substring_of a (s ++ after).
Proof.
  intros [p [q ->]]. exists p, (q ++ after). now rewrite !append_assoc.
Qed.

Lemma concat_equation (sep x y : string) (rest : list string) :
  String.concat sep (x :: y :: rest) = x ++ sep ++ String.concat sep (y :: rest).
Proof. reflexivity. Qed.

Lemma substring_of_concat (sep part : string) (parts : list string) :
  In part parts -> substring_of part (String.concat sep parts).
Proof.
  induction parts as [|x [|y rest] IH]; intros Hin.
  - destruct Hin.
  - destruct Hin as [->|[]]. apply substring_of_refl.
  - rewrite concat_equation. destruct Hin as [->|Hin].
    + apply substring_of_append, substring_of_refl.
    + apply substring_of_prepend, substring_of_prepend, IH, Hin.
Qed.

Section Grounding.
Context {F : Type}.

Lemma context_parts_mentions (i : nat) (results : list (SearchResult F))
    (r : SearchResult F) :
  In r results ->
  exists part : string,
    In part (RAGService.context_parts i results) /\ substring_of (document r) part.
Proof.
  revert i. induction results as [|x results IH]; intros i Hin; [destruct Hin|].
  destruct Hin as [->|Hin].
  - eexists. split; [left; reflexivity|].
    apply substring_of_prepend, substring_of_prepend, substring_of_prepend.
    apply substring_of_append, substring_of_refl.
  - destruct (IH (S i) Hin) as [part [Hpart Hsub]].
    exists part. split; [right; exact Hpart | exact Hsub].
Qed.

(** The prompt built for a query contains the query itself and the whole
    text of every retrieved document. *)
Theorem prompt_is_grounded (query : string) (results : list (SearchResult F)) :
  let prompt := RAGService._build_prompt query (RAGService._build_context results) in
  substring_of query prompt /\
  forall r : SearchResult F, In r results -> substring_of (document r) prompt.
Proof.
  unfold RAGService._build_prompt. split.
  - do 9 apply substring_of_prepend.
    apply substring_of_append, substring_of_refl.
  - intros r Hin. destruct (context_parts_mentions 1 results r Hin) as [part [Hpart Hsub]].
    do 5 apply substring_of_prepend. apply substring_of_append.
    apply (substring_of_trans _ part); [exact Hsub|].
    unfold RAGService._build_context. now apply substring_of_concat.
Qed.

End Grounding.

Lemma prompt_is_grounded_witness :
  let hit : SearchResult R :=
    mk_search_result "doc_1_chunk_0" "Balance: 100" ∅ (Some 0%R) in
  In hit [hit] /\
  substring_of "Balance: 100"
    (RAGService._build_prompt "What is the balance?"
       (RAGService._build_context [hit])).
Proof.
  intros hit. assert (In hit [hit]) as Hin by (left; reflexivity).
  split; [exact Hin|].
  exact (proj2 (prompt_is_grounded "What is the balance?" [hit]) hit Hin).
Defined.

(** ** Index entries *)

Import EntrySpec.

Lemma append_length (a b : string) :
  String.length (a ++ b) = (String.length a + String.length b)%nat.
Proof.
  induction a as [|x a IH]; [reflexivity|].
  rewrite append_cons. simpl. now rewrite IH.
Qed.

Lemma append_cancel_r (a b c : string) : a ++ c = b ++ c -> a = b.
Proof.
  revert b. induction a as [|x a IH]; intros [|y b] E.
  - reflexivity.
  - apply (f_equal String.length) in E. rewrite append_empty, append_length in E.
    simpl in E. lia.
  - apply (f_equal String.length) in E. rewrite append_empty, append_length in E.
    simpl in E. lia.
  - rewrite !append_cons in E. injection E as -> E. f_equal. now apply IH.
Qed.

Lemma has_underscore_append (p s : string) :
  has_underscore (p ++ String "_" s) = true.
Proof.
  induction p as [|a p IH]; [reflexivity|].
  rewrite append_cons. simpl. rewrite IH. apply orb_true_r.
Qed.

Lemma after_last_underscore_append (p s : string) :
  has_underscore s = false -> after_last_underscore (p ++ String "_" s) = s.
Proof.
  intros Hs. induction p as [|a p IH].
  - rewrite append_empty. simpl. now rewrite Hs.
  - rewrite append_cons. simpl. now rewrite has_underscore_append.
Qed.

Lemma digits_no_underscore (d : Decimal.uint) :
  has_underscore (NilEmpty.string_of_uint d) = false.
Proof. induction d; simpl; auto. Qed.

Lemma str_of_int_no_underscore (z : Z) :
  has_underscore (Indexing.str_of_int z) = false.
Proof.
  unfold Indexing.str_of_int, NilZero.string_of_int, NilZero.string_of_uint.
  destruct (Z.to_int z) as [d|d]; destruct d; simpl;
    auto using digits_no_underscore.
Qed.

Lemma str_of_int_inj (a b : Z) :
  Indexing.str_of_int a = Indexing.str_of_int b -> a = b.
Proof.
  unfold Indexing.str_of_int. intros E.
  assert (forall z : Z, NilZero.int_of_string (NilZero.string_of_int (Z.to_int z))
                        = Some (Z.to_int z)) as Hparse.
  { intros z. apply NilZero.isi; destruct z; simpl; try discriminate;
      intros [= Hnil]; now apply Unsigned.to_uint_nonnil in Hnil. }
  apply DecimalZ.to_int_inj.
  pose proof (Hparse a) as Ha. rewrite E, Hparse in Ha. now injection Ha.
Qed.

(** The id of an index entry tells the document and the chunk apart: two
    entries have the same id only if they belong to the same document and
    have the same ordinal.  Entries of different documents never collide,
    whatever the document ids are. *)
Theorem entry_id_injective (document1 document2 : string) (chunk1 chunk2 : Chunk.t) :
  Indexing.entry_id document1 chunk1 = Indexing.entry_id document2 chunk2 ->
  document1 = document2 /\ Chunk.chunk_id chunk1 = Chunk.chunk_id chunk2.
Proof.
  unfold Indexing.entry_id. intros E.
  assert (forall (d : string) (z : Z),
    d ++ "_chunk_" ++ Indexing.str_of_int z
    = (d ++ "_chunk") ++ String "_" (Indexing.str_of_int z)) as Hshape.
  { intros d z. now rewrite append_assoc. }
  assert (Indexing.str_of_int (Chunk.chunk_id chunk1)
          = Indexing.str_of_int (Chunk.chunk_id chunk2)) as Hordinal.
  { apply (f_equal after_last_underscore) in E. rewrite !Hshape in E.
    now rewrite !after_last_underscore_append in E
      by apply str_of_int_no_underscore. }
  split; [|now apply str_of_int_inj].
  rewrite Hordinal in E. rewrite <- !append_assoc in E.
  apply append_cancel_r in E. now apply append_cancel_r in E.
Qed.

Lemma entry_id_injective_witness :
  let first := Chunk.mk 0 "Rent" 0 4 4 in
  let other := Chunk.mk 0 "Gas" 0 3 3 in
  Indexing.entry_id "doc_a" first = "doc_a_chunk_0" /\
  Indexing.entry_id "doc_a" first = Indexing.entry_id "doc_a" other /\
  "doc_a" = "doc_a" /\ Chunk.chunk_id first = Chunk.chunk_id other.
Proof.
  intros first other.
  assert (Indexing.entry_id "doc_a" first = Indexing.entry_id "doc_a" other) as Hsame
    by reflexivity.
  split; [reflexivity|]. split; [exact Hsame|].
  exact (entry_id_injective "doc_a" "doc_a" first other Hsame).
Defined.

Lemma append_cancel_l (p a b : string) : p ++ a = p ++ b -> a = b.
Proof.
  induction p as [|x p IH]; [now rewrite !append_empty|].
  rewrite !append_cons. intros [= E]. now apply IH.
Qed.

Lemma NoDup_map_inj {A B : Type} (f : A -> B) (l : list A) :
  (forall a b : A, f a = f b -> a = b) -> NoDup l -> NoDup (map f l).
Proof.
  intros Hinj. induction 1 as [|a l Ha _ IH]; simpl; constructor; [|exact IH].
  rewrite list_elem_of_In, in_map_iff. intros [b [Hb Hin]].
  apply Hinj in Hb. subst b. apply Ha. now apply list_elem_of_In.
Qed.

Section IndexingChunks.
Context {F DB : Type} `{Backend F DB}.

(** Indexing the chunks that [_chunk_text] returned: on an initialised
    service [add_document_to_index] hands the vector store the chunk texts
    in order, with the ids ["<document_id>_chunk_0"],
    ["<document_id>_chunk_1"], ... which are pairwise distinct, and with
    metadata that hold the document id under ["document_id"] whatever the
    caller's metadata held under that key. *)
Theorem indexing_chunker_output (fuel : nat) (self : DocumentProcessor.t)
    (text : string) (chunk_size overlap : option Z) (l : list Chunk.t)
    (document_id : string) (metadata : gmap string string)
    (w : RAGService.world) :
  0 < or_default chunk_size (DocumentProcessor.chunk_size self) ->
  _chunk_text fuel self text chunk_size overlap = Returned l ->
  RAGService.initialized w = true ->
  let ids := map (fun k => document_id ++ "_chunk_" ++ Indexing.str_of_int k)
                 (seqZ 0 (Z.of_nat (length l))) in
  let metadatas := map (Indexing.entry_metadata metadata document_id) l in
  Indexing.add_document_to_index document_id l metadata w =
  RAGService.on_vector_store
    (VectorStoreService.add_documents (map Chunk.text l) metadatas ids) w /\
  NoDup ids /\
  length ids = length l /\ length metadatas = length l /\
  Forall (fun m => m !! "document_id" = Some document_id) metadatas.
Proof.
  intros Hcs Hrun Hready ids metadatas.
  destruct (chunk_text_returned_inv _ _ _ _ _ _ Hcs Hrun)
    as [final [<- [_ Hids _ _]]].
  assert (map (Indexing.entry_id document_id) (chunks final) = ids) as Hmap.
  { unfold ids. rewrite <- Hids. unfold ordinals. now rewrite map_map. }
  split; [|split; [|split; [|split]]].
  - unfold Indexing.add_document_to_index, get_state, mbind, prog_bind, mret,
      prog_ret. rewrite Hready. rewrite Hmap.
    apply (try_with_reraise
             (RAGService.on_vector_store
                (VectorStoreService.add_documents (map Chunk.text (chunks final))
                   metadatas ids)) w).
  - unfold ids. apply NoDup_map_inj; [|apply NoDup_seqZ].
    intros a b E. apply append_cancel_l, append_cancel_l in E.
    now apply str_of_int_inj.
  - rewrite <- Hmap. apply length_map.
  - apply length_map.
  - unfold metadatas. apply Forall_map, Forall_forall. intros c _.
    unfold Indexing.entry_metadata. simpl. apply lookup_insert_eq.
Qed.

End IndexingChunks.

Lemma indexing_chunker_output_witness :
  let store : Backend R unit := Stub.store (Returned 0) (Returned Stub.no_hits) in
  let w := RAGService.mk_world Stub.ready true tt 0 in
  exists l : list Chunk.t,
    _chunk_text 5 __init__ "Rent. Paid in full on Monday." (Some 10) (Some 2)
      = Returned l /\
    map (Indexing.entry_id "doc_7") l
      = ["doc_7_chunk_0"; "doc_7_chunk_1"; "doc_7_chunk_2"; "doc_7_chunk_3"] /\
    @Indexing.add_document_to_index R unit store "doc_7" l
      {[ "document_id" := "other" ]} w = (Returned tt, w) /\
    Forall (fun m => m !! "document_id" = Some "doc_7")
      (map (Indexing.entry_metadata {[ "document_id" := "other" ]} "doc_7") l).
Proof.
  intros store w.
  assert (exists l : list Chunk.t,
    _chunk_text 5 __init__ "Rent. Paid in full on Monday." (Some 10) (Some 2)
      = Returned l /\
    map (Indexing.entry_id "doc_7") l
      = ["doc_7_chunk_0"; "doc_7_chunk_1"; "doc_7_chunk_2"; "doc_7_chunk_3"])
    as [l [Hrun Hids]].
  { eexists. split; vm_compute; reflexivity. }
  exists l. split; [exact Hrun|]. split; [exact Hids|].
  destruct (@indexing_chunker_output R unit store 5 __init__ _ (Some 10) (Some 2) l
              "doc_7" {[ "document_id" := "other" ]} w
              ltac:(vm_compute; reflexivity) Hrun eq_refl)
    as [Hcall [_ [_ [_ Hmeta]]]].
  split; [|exact Hmeta]. rewrite Hcall. reflexivity.
Defined.

(** ** The language-model service *)

Section LanguageModels.
Context {F : Type} `{Providers F}.

(** [is_available] tells whether [generate_response] reaches a provider:
    for a model it reports unavailable (no client for its provider, or a
    name that starts neither with "gpt" nor with "claude")
    [generate_response] raises [ValueError] and calls no provider; for a
    model it reports available the call is the provider's, and its answer
    is the first choice of the response. *)
Theorem is_available_decides (self : LLMService.t) (prompt model : string)
    (max_tokens : Z) (temperature : F) (system_message : option string) :
  (LLMService.is_available self model = false ->
     LLMService.generate_response self prompt model max_tokens temperature
       system_message = Raised (Exn "ValueError")) /\
  (LLMService.is_available self model = true ->
     LLMService.generate_response self prompt model max_tokens temperature
       system_message =
     if LLMService.startswith model "gpt" then
       choices ← openai_create model
                   ((if LLMService.truthy system_message
                     then [("system", default "" system_message)] else [])
                    ++ [("user", prompt)])%list max_tokens temperature;
       py_index choices 0
     else
       content ← anthropic_create model max_tokens temperature
                   (if LLMService.truthy system_message
                    then default "" system_message else "")
                   [("user", prompt)];
       py_index content 0).
Proof.
  unfold LLMService.is_available, LLMService.generate_response,
    LLMService._openai_generate, LLMService._anthropic_generate.
  destruct (LLMService.startswith model "gpt").
  - destruct (LLMService.openai_client self); simpl; split;
      try discriminate; reflexivity.
  - destruct (LLMService.startswith model "claude").
    + destruct (LLMService.anthropic_client self); simpl; split;
        try discriminate; reflexivity.
    + split; [reflexivity | discriminate].
Qed.

End LanguageModels.

Lemma is_available_decides_witness :
  @LLMService.is_available Doubles.openai_only "claude-3" = false /\
  @LLMService.generate_response R Doubles.providers Doubles.openai_only
    "Hello" "claude-3" 1000 (decimal 7 1) None = Raised (Exn "ValueError") /\
  @LLMService.is_available Doubles.openai_only "gpt-4" = true /\
  @LLMService.generate_response R Doubles.providers Doubles.openai_only
    "Hello" "gpt-4" 1000 (decimal 7 1) None = Returned "The balance is 100.".
Proof.
  destruct (@is_available_decides R Doubles.providers Doubles.openai_only
              "Hello" "claude-3" 1000 (decimal 7 1) None) as [Hrefused _].
  destruct (@is_available_decides R Doubles.providers Doubles.openai_only
              "Hello" "gpt-4" 1000 (decimal 7 1) None) as [_ Hserved].
  split; [reflexivity|]. split; [exact (Hrefused eq_refl)|].
  split; [reflexivity|].
  rewrite (Hserved eq_refl). reflexivity.
Defined.

Section QueryWithLanguageModel.
Context {F DB : Type} `{Float F} `{Backend F DB} `{Providers F}.

Lemma unavailable_refused (self : LLMService.t) (prompt model : string)
    (max_tokens : Z) (temperature : F) (system_message : option string) :
  LLMService.is_available self model = false ->
  LLMService.generate_response self prompt model max_tokens temperature
    system_message = Raised (Exn "ValueError").
Proof.
  unfold LLMService.is_available, LLMService.generate_response,
    LLMService._openai_generate, LLMService._anthropic_generate.
  destruct (LLMService.startswith model "gpt");
    [|destruct (LLMService.startswith model "claude")];
    intros Hno; try rewrite Hno; reflexivity.
Qed.

(** The model name is looked at only when there is something to answer
    from: with a model that the language-model service cannot serve, a query
    whose search finds nothing still returns the no-information result
    (naming that model as [model_used]), and a query whose search finds
    something raises [ValueError]. *)
Theorem unavailable_model_surfaces_late (llm : LLMService.t) (now : nat -> F)
    (w : RAGService.world) (query model : string) (n_results : Z)
    (filter_dict : option metadata) (vs' : VectorStoreService.t) (db' : DB) :
  RAGService.initialized w = true ->
  LLMService.is_available llm model = false ->
  (VectorStoreService.search query n_results filter_dict
     (RAGService.vector_store w, RAGService.db w) = (Returned [], (vs', db')) ->
   exists (result : gmap string (query_value F)) (w' : RAGService.world),
     @RAGService.query F DB _ _ (LLMService.as_host llm now)
       query n_results model filter_dict w = (Returned result, w') /\
     result !! "answer" = Some (QStr RAGService.no_information) /\
     result !! "model_used" = Some (QStr model)) /\
  (forall (first : SearchResult F) (others : list (SearchResult F)),
     VectorStoreService.search query n_results filter_dict
       (RAGService.vector_store w, RAGService.db w)
       = (Returned (first :: others), (vs', db')) ->
     exists w' : RAGService.world,
       @RAGService.query F DB _ _ (LLMService.as_host llm now)
         query n_results model filter_dict w = (Raised (Exn "ValueError"), w')).
Proof.
  intros Hready Hno. split.
  - intros Hsearch. eexists. eexists. split.
    + apply (@query_no_results F DB _ _ (LLMService.as_host llm now)
               w query model n_results filter_dict vs' db' Hready Hsearch).
    + split; reflexivity.
  - intros first others Hsearch.
    unfold RAGService.query, RAGService.time, RAGService.initialize,
      RAGService.on_vector_store, get_state, modify, try_with, of_outcome, raise,
      mbind, prog_bind, mret, prog_ret. simpl.
    rewrite Hready. simpl. rewrite Hsearch. simpl.
    rewrite (unavailable_refused llm _ model 1000 _ _ Hno). eauto.
Qed.

End QueryWithLanguageModel.

Lemma unavailable_model_surfaces_late_witness :
  let empty_index : Backend R unit :=
    Stub.store (Returned 0) (Returned Stub.no_hits) in
  let indexed : Backend R unit :=
    Stub.store (Returned 1) (Returned Stub.one_hit) in
  let w := RAGService.mk_world Stub.ready true tt 0 in
  @LLMService.is_available Doubles.openai_only "llama-3" = false /\
  (exists (result : gmap string (query_value R)) (w' : RAGService.world),
     @RAGService.query R unit ideal empty_index
       (@LLMService.as_host R Doubles.providers Doubles.openai_only INR)
       "What is the balance?" 5 "llama-3" None w = (Returned result, w') /\
     result !! "model_used" = Some (QStr "llama-3")) /\
  (exists w' : RAGService.world,
     @RAGService.query R unit ideal indexed
       (@LLMService.as_host R Doubles.providers Doubles.openai_only INR)
       "What is the balance?" 5 "llama-3" None w
     = (Raised (Exn "ValueError"), w')).
Proof.
  intros empty_index indexed w.
  split; [reflexivity|]. split.
  - destruct (@unavailable_model_surfaces_late R unit ideal empty_index
                Doubles.providers Doubles.openai_only INR w
                "What is the balance?" "llama-3" 5 None Stub.ready tt
                eq_refl eq_refl) as [Hnone _].
    destruct (Hnone eq_refl) as [result [w' [Hrun [_ Hmodel]]]]. eauto.
  - destruct (@unavailable_model_surfaces_late R unit ideal indexed
                Doubles.providers Doubles.openai_only INR w
                "What is the balance?" "llama-3" 5 None Stub.ready tt
                eq_refl eq_refl) as [_ Hsome].
    exact (Hsome (mk_search_result "doc_1_chunk_0" "Balance: 100"
                    {[ "filename" := "statement.pdf" ]} (Some 0%R)) [] eq_refl).
Defined.

(** ** Extraction of documents *)

Section Extraction.
Context `{Extractors}.

Lemma process_pdf_assembled (fuel : nat) (self : DocumentProcessor.t)
    (file_path : Path.t) (file_content : option string)
    (blocks : list string) (metadata : gmap string meta_value) :
  try_with
    (DocumentProcessing.plumber_attempt
       (DocumentProcessing.source_of file_path file_content))
    (fun _ => DocumentProcessing.pypdf_attempt
                (DocumentProcessing.source_of file_path file_content))
    ([], {[ "file_type" := MStr "pdf" ]}) = (Returned tt, (blocks, metadata)) ->
  DocumentProcessing._process_pdf fuel self file_path file_content
  = ExtractionSpec.assembled fuel self blocks metadata.
Proof.
  intros Hrun. unfold DocumentProcessing._process_pdf. cbv zeta.
  rewrite Hrun. reflexivity.
Qed.

Lemma process_pdf_raised (fuel : nat) (self : DocumentProcessor.t)
    (file_path : Path.t) (file_content : option string)
    (e : exn) (st : DocumentProcessing.pdf_state) :
  try_with
    (DocumentProcessing.plumber_attempt
       (DocumentProcessing.source_of file_path file_content))
    (fun _ => DocumentProcessing.pypdf_attempt
                (DocumentProcessing.source_of file_path file_content))
    ([], {[ "file_type" := MStr "pdf" ]}) = (Raised e, st) ->
  DocumentProcessing._process_pdf fuel self file_path file_content = Raised e.
Proof.
  intros Hrun. unfold DocumentProcessing._process_pdf. cbv zeta.
  rewrite Hrun. destruct st. reflexivity.
Qed.

Lemma plumber_loop_run (pages : list plumber_page)
    (texts : list (option string)) (tables : list nat) (page_num : nat)
    (st : DocumentProcessing.pdf_state) :
  traverse plumber_text pages = Returned texts ->
  traverse plumber_tables pages = Returned tables ->
  DocumentProcessing.plumber_loop page_num pages st
  = (Returned tt,
     ((fst st ++ ExtractionSpec.page_blocks page_num texts)%list,
      ExtractionSpec.table_entries page_num tables (snd st))).
Proof.
  intros Htexts Htables.
  apply traverse_Forall2 in Htexts. apply traverse_Forall2 in Htables.
  revert tables page_num st Htables.
  induction Htexts as [|page text pages texts Htext _ IH];
    intros tables page_num [blocks metadata] Htables.
  - inversion Htables; subst. simpl. now rewrite app_nil_r.
  - inversion Htables as [|? n ? ns Hn Hrest]; subst.
    cbn [DocumentProcessing.plumber_loop].
    unfold mbind, prog_bind, of_outcome. rewrite Htext, Hn.
    cbn [ExtractionSpec.page_blocks ExtractionSpec.table_entries].
    destruct (LLMService.truthy text); destruct (0 <? n)%nat;
      unfold DocumentProcessing.append_text, DocumentProcessing.set_metadata,
        modify, mret, prog_ret; cbn [fst snd];
      rewrite (IH ns (S page_num) _ Hrest); cbn [fst snd];
      rewrite <- ?app_assoc; reflexivity.
Qed.

Lemma pypdf_loop_run (pages : list pypdf_page) (texts : list (option string))
    (page_num : nat) (st : DocumentProcessing.pdf_state) :
  traverse pypdf_text pages = Returned texts ->
  DocumentProcessing.pypdf_loop page_num pages st
  = (Returned tt,
     ((fst st ++ ExtractionSpec.page_blocks page_num texts)%list, snd st)).
Proof.
  intros Htexts. apply traverse_Forall2 in Htexts.
  revert page_num st.
  induction Htexts as [|page text pages texts Htext _ IH];
    intros page_num [blocks metadata].
  - simpl. now rewrite app_nil_r.
  - cbn [DocumentProcessing.pypdf_loop].
    unfold mbind, prog_bind, of_outcome. rewrite Htext.
    cbn [ExtractionSpec.page_blocks].
    destruct (LLMService.truthy text);
      unfold DocumentProcessing.append_text, modify, mret, prog_ret;
      cbn [fst snd]; rewrite IH; cbn [fst snd];
      rewrite <- ?app_assoc; reflexivity.
Qed.

Lemma pypdf_loop_raises (pages : list pypdf_page) (e : exn) (page_num : nat)
    (st : DocumentProcessing.pdf_state) :
  traverse pypdf_text pages = Raised e ->
  exists st' : DocumentProcessing.pdf_state,
    DocumentProcessing.pypdf_loop page_num pages st = (Raised e, st').
Proof.
  revert page_num st. induction pages as [|page pages IH];
    intros page_num st; simpl; [discriminate|].
  unfold mbind at 1, outcome_bind at 1.
  unfold mbind at 2, prog_bind at 1, of_outcome.
  destruct (pypdf_text page) as [text| |] eqn:Htext; try discriminate.
  - intros Hrest.
    assert (Hpages : traverse pypdf_text pages = Raised e).
    { destruct (traverse pypdf_text pages); simpl in Hrest;
        try discriminate; congruence. }
    destruct (LLMService.truthy text);
      unfold DocumentProcessing.append_text, modify, mret, prog_ret,
        mbind, prog_bind; cbn [fst snd];
      match goal with
      | |- context [DocumentProcessing.pypdf_loop ?n pages ?s] =>
          destruct (IH n s Hpages) as [st' ->]
      end; eauto.
  - intros [= ->]. eauto.
Qed.

Lemma plumber_loop_torn (before after : list plumber_page) (bad : plumber_page)
    (texts : list (option string)) (tables : list nat) (e : exn)
    (page_num : nat) (st : DocumentProcessing.pdf_state) :
  traverse plumber_text before = Returned texts ->
  traverse plumber_tables before = Returned tables ->
  plumber_text bad = Raised e ->
  DocumentProcessing.plumber_loop page_num (before ++ bad :: after)%list st
  = (Raised e,
     ((fst st ++ ExtractionSpec.page_blocks page_num texts)%list,
      ExtractionSpec.table_entries page_num tables (snd st))).
Proof.
  intros Htexts Htables Hbad.
  apply traverse_Forall2 in Htexts. apply traverse_Forall2 in Htables.
  revert tables page_num st Htables.
  induction Htexts as [|page text pages texts Htext _ IH];
    intros tables page_num [blocks metadata] Htables.
  - inversion Htables; subst. simpl.
    unfold mbind, prog_bind, of_outcome. rewrite Hbad.
    now rewrite app_nil_r.
  - inversion Htables as [|? n ? ns Hn Hrest]; subst.
    rewrite <- app_comm_cons.
    cbn [DocumentProcessing.plumber_loop].
    unfold mbind, prog_bind, of_outcome. rewrite Htext, Hn.
    cbn [ExtractionSpec.page_blocks ExtractionSpec.table_entries].
    destruct (LLMService.truthy text); destruct (0 <? n)%nat;
      unfold DocumentProcessing.append_text, DocumentProcessing.set_metadata,
        modify, mret, prog_ret; cbn [fst snd];
      rewrite (IH ns (S page_num) _ Hrest); cbn [fst snd];
      rewrite <- ?app_assoc; reflexivity.
Qed.

Lemma plumber_attempt_run (pdf_file : source) (pages : list plumber_page)
    (texts : list (option string)) (tables : list nat)
    (st : DocumentProcessing.pdf_state) :
  pdfplumber_open pdf_file = Returned pages ->
  traverse plumber_text pages = Returned texts ->
  traverse plumber_tables pages = Returned tables ->
  try_with (DocumentProcessing.plumber_attempt pdf_file)
    (fun _ => DocumentProcessing.pypdf_attempt pdf_file) st
  = (Returned tt,
     ((fst st ++ ExtractionSpec.page_blocks 1 texts)%list,
      ExtractionSpec.table_entries 1 tables
        (<["pages" := MInt (Z.of_nat (length pages))]> (snd st)))).
Proof.
  intros Hopen Htexts Htables.
  unfold try_with, DocumentProcessing.plumber_attempt,
    DocumentProcessing.set_metadata, modify, mbind, prog_bind, of_outcome.
  rewrite Hopen. cbn [fst snd].
  rewrite (plumber_loop_run pages texts tables 1 _ Htexts Htables).
  reflexivity.
Qed.

(** The first reader succeeds: when pdfplumber opens the file and every
    page gives its text and its tables, the result is assembled from the
    numbered blocks of the pages that have a text, and the metadata hold the
    file type, the number of pages and the table count of every page with
    tables. *)
Theorem pdf_first_reader (fuel : nat) (self : DocumentProcessor.t)
    (file_path : Path.t) (file_content : option string)
    (pages : list plumber_page) (texts : list (option string))
    (tables : list nat) :
  pdfplumber_open (DocumentProcessing.source_of file_path file_content)
    = Returned pages ->
  traverse plumber_text pages = Returned texts ->
  traverse plumber_tables pages = Returned tables ->
  DocumentProcessing._process_pdf fuel self file_path file_content
  = ExtractionSpec.assembled fuel self (ExtractionSpec.page_blocks 1 texts)
      (ExtractionSpec.table_entries 1 tables
         (<["pages" := MInt (Z.of_nat (length pages))]>
            {[ "file_type" := MStr "pdf" ]})).
Proof.
  intros Hopen Htexts Htables.
  apply process_pdf_assembled.
  now rewrite (plumber_attempt_run _ pages texts tables _ Hopen Htexts Htables).
Qed.

(** The fallback keeps what the first reader had collected: when a page
    of pdfplumber fails after some pages were read, and PyPDF2 then reads the
    file, the text holds the blocks of the pages read by pdfplumber followed
    by the blocks of all pages read by PyPDF2 (numbered from 1 again), and the
    metadata keep the table counts found before the failure. *)
Theorem pdf_fallback_keeps_partial_text (fuel : nat) (self : DocumentProcessor.t)
    (file_path : Path.t) (file_content : option string)
    (before after : list plumber_page) (bad : plumber_page) (e : exn)
    (texts : list (option string)) (tables : list nat)
    (pages' : list pypdf_page) (texts' : list (option string)) :
  pdfplumber_open (DocumentProcessing.source_of file_path file_content)
    = Returned (before ++ bad :: after)%list ->
  traverse plumber_text before = Returned texts ->
  traverse plumber_tables before = Returned tables ->
  plumber_text bad = Raised e ->
  pypdf_reader (DocumentProcessing.source_of file_path file_content)
    = Returned pages' ->
  traverse pypdf_text pages' = Returned texts' ->
  DocumentProcessing._process_pdf fuel self file_path file_content
  = ExtractionSpec.assembled fuel self
      (ExtractionSpec.page_blocks 1 texts ++ ExtractionSpec.page_blocks 1 texts')%list
      (<["pages" := MInt (Z.of_nat (length pages'))]>
         (ExtractionSpec.table_entries 1 tables
            (<["pages" := MInt (Z.of_nat (length (before ++ bad :: after)%list))]>
               {[ "file_type" := MStr "pdf" ]}))).
Proof.
  intros Hopen Htexts Htables Hbad Hopen' Htexts'.
  apply process_pdf_assembled.
  unfold try_with at 1, DocumentProcessing.plumber_attempt,
    DocumentProcessing.set_metadata, modify, mbind, prog_bind, of_outcome.
  rewrite Hopen. cbn [fst snd].
  rewrite (plumber_loop_torn before after bad texts tables e 1 _
             Htexts Htables Hbad).
  cbn [fst snd].
  unfold DocumentProcessing.pypdf_attempt, try_with,
    DocumentProcessing.set_metadata, modify, mbind, prog_bind, of_outcome.
  rewrite Hopen'. cbn [fst snd].
  rewrite (pypdf_loop_run pages' texts' 1 _ Htexts'). reflexivity.
Qed.

(** Both readers fail: the caller gets the exception of PyPDF2 (raised by
    the reader or by one of its pages), not the one of pdfplumber. *)
Theorem pdf_both_readers_fail (fuel : nat) (self : DocumentProcessor.t)
    (file_path : Path.t) (file_content : option string) (e e2 : exn) :
  pdfplumber_open (DocumentProcessing.source_of file_path file_content)
    = Raised e ->
  pypdf_reader (DocumentProcessing.source_of file_path file_content) = Raised e2
  \/ (exists pages' : list pypdf_page,
        pypdf_reader (DocumentProcessing.source_of file_path file_content)
          = Returned pages' /\
        traverse pypdf_text pages' = Raised e2) ->
  DocumentProcessing._process_pdf fuel self file_path file_content = Raised e2.
Proof.
  intros Hopen Hsecond.
  assert (Hrun : exists st : DocumentProcessing.pdf_state,
    try_with
      (DocumentProcessing.plumber_attempt
         (DocumentProcessing.source_of file_path file_content))
      (fun _ => DocumentProcessing.pypdf_attempt
                  (DocumentProcessing.source_of file_path file_content))
      ([], {[ "file_type" := MStr "pdf" ]}) = (Raised e2, st)).
  { unfold try_with at 1, DocumentProcessing.plumber_attempt,
      mbind, prog_bind, of_outcome.
    rewrite Hopen.
    unfold DocumentProcessing.pypdf_attempt, try_with,
      DocumentProcessing.set_metadata, modify, mbind, prog_bind, of_outcome,
      raise.
    destruct Hsecond as [Hopen' | [pages' [Hopen' Htexts']]]; rewrite Hopen'.
    - eauto.
    - cbn [fst snd].
      match goal with
      | |- context [DocumentProcessing.pypdf_loop ?n pages' ?s] =>
          destruct (pypdf_loop_raises pages' e2 n s Htexts') as [st' ->]
      end. eauto. }
  destruct Hrun as [st Hrun].
  exact (process_pdf_raised fuel self file_path file_content e2 st Hrun).
Qed.

End Extraction.

Lemma pdf_first_reader_witness :
  let statement := Path.mk "/uploads" "statement.pdf" in
  let rd := Readers.readers
    (Returned [Readers.good_page "Opening balance 100" 1;
               Readers.good_page "" 0;
               Readers.good_page "Closing balance 90" 2])
    (Raised (Exn "PdfReadError")) false in
  exists r : DocumentProcessing.processed,
    @DocumentProcessing._process_pdf rd 100 DocumentProcessor.__init__
      statement None = Returned r /\
    DocumentProcessing.text r
      = "[Page 1]" ++ RAGService.nl ++ "Opening balance 100"
        ++ RAGService.nl ++ RAGService.nl
        ++ "[Page 3]" ++ RAGService.nl ++ "Closing balance 90" /\
    DocumentProcessing.metadata r !! "pages" = Some (MInt 3) /\
    DocumentProcessing.metadata r !! "tables_page_1" = Some (MInt 1) /\
    DocumentProcessing.metadata r !! "tables_page_2" = None /\
    DocumentProcessing.metadata r !! "tables_page_3" = Some (MInt 2).
Proof.
  intros statement rd.
  rewrite (@pdf_first_reader rd 100 DocumentProcessor.__init__ statement None
             _ [Some "Opening balance 100"; Some ""; Some "Closing balance 90"]
             [1; 0; 2]%nat eq_refl eq_refl eq_refl).
  eexists. split; [vm_compute; reflexivity|].
  repeat split; vm_compute; reflexivity.
Defined.

Lemma pdf_fallback_keeps_partial_text_witness :
  let statement := Path.mk "/uploads" "statement.pdf" in
  let rd := Readers.readers
    (Returned [Readers.good_page "Opening balance 100" 1; Readers.torn_page])
    (Returned [mk_pypdf_page (Returned (Some "Opening balance 100"));
               mk_pypdf_page (Returned (Some "Closing balance 90"))]) false in
  exists r : DocumentProcessing.processed,
    @DocumentProcessing._process_pdf rd 100 DocumentProcessor.__init__
      statement None = Returned r /\
    DocumentProcessing.text r
      = "[Page 1]" ++ RAGService.nl ++ "Opening balance 100"
        ++ RAGService.nl ++ RAGService.nl
        ++ "[Page 1]" ++ RAGService.nl ++ "Opening balance 100"
        ++ RAGService.nl ++ RAGService.nl
        ++ "[Page 2]" ++ RAGService.nl ++ "Closing balance 90" /\
    DocumentProcessing.metadata r !! "pages" = Some (MInt 2) /\
    DocumentProcessing.metadata r !! "tables_page_1" = Some (MInt 1).
Proof.
  intros statement rd.
  rewrite (@pdf_fallback_keeps_partial_text rd 100 DocumentProcessor.__init__
             statement None [Readers.good_page "Opening balance 100" 1] []
             Readers.torn_page (Exn "PDFSyntaxError")
             [Some "Opening balance 100"] [1%nat] _
             [Some "Opening balance 100"; Some "Closing balance 90"]
             eq_refl eq_refl eq_refl eq_refl eq_refl eq_refl).
  eexists. split; [vm_compute; reflexivity|].
  repeat split; vm_compute; reflexivity.
Defined.

Lemma pdf_both_readers_fail_witness :
  let statement := Path.mk "/uploads" "statement.pdf" in
  let rd := Readers.readers (Raised (Exn "PDFSyntaxError"))
    (Returned [mk_pypdf_page (Returned (Some "Opening balance 100"));
               mk_pypdf_page (Raised (Exn "PdfReadError"))]) false in
  @DocumentProcessing._process_pdf rd 100 DocumentProcessor.__init__
    statement (Some "%PDF-1.7") = Raised (Exn "PdfReadError").
Proof.
  intros statement rd.
  apply (@pdf_both_readers_fail rd 100 DocumentProcessor.__init__ statement
           (Some "%PDF-1.7") (Exn "PDFSyntaxError") (Exn "PdfReadError") eq_refl).
  right. eexists. split; reflexivity.
Defined.

(** *** Word counts *)

Ltac settle_isspace :=
  repeat match goal with
  | |- context [PyStr.isspace (Ascii ?b0 ?b1 ?b2 ?b3 ?b4 ?b5 ?b6 ?b7)] =>
      let v := eval vm_compute in
        (PyStr.isspace (Ascii b0 b1 b2 b3 b4 b5 b6 b7)) in
      change (PyStr.isspace (Ascii b0 b1 b2 b3 b4 b5 b6 b7)) with v
  end; cbv iota.

Lemma count_words_space (inside : bool) (s1 s2 : string) (c : ascii) :
  PyStr.isspace c = true ->
  DocumentProcessing.count_words inside (s1 ++ String c s2)
  = (DocumentProcessing.count_words inside s1
     + DocumentProcessing.count_words false s2)%nat.
Proof.
  intros Hc. revert inside. induction s1 as [|a s1 IH]; intros inside.
  - rewrite append_empty. simpl. now rewrite Hc.
  - rewrite append_cons. cbn [DocumentProcessing.count_words].
    destruct (PyStr.isspace a); rewrite IH; lia.
Qed.

Lemma count_words_digits (d : Decimal.uint) (rest : string) :
  DocumentProcessing.count_words true (NilEmpty.string_of_uint d ++ rest)
  = DocumentProcessing.count_words true rest.
Proof.
  induction d; cbn [NilEmpty.string_of_uint];
    rewrite ?append_cons, ?append_empty; [reflexivity|..];
    cbn [DocumentProcessing.count_words]; settle_isspace; exact IHd.
Qed.

Lemma count_words_number (n : nat) (c : ascii) (rest : string) :
  PyStr.isspace c = false ->
  DocumentProcessing.count_words false
    (RAGService.str_of_nat n ++ String c rest)
  = S (DocumentProcessing.count_words true rest).
Proof.
  intros Hc. unfold RAGService.str_of_nat, NilZero.string_of_uint.
  destruct (Nat.to_uint n) as [|d|d|d|d|d|d|d|d|d|d];
    cbn [NilEmpty.string_of_uint];
    rewrite ?append_cons, ?append_empty;
    cbn [DocumentProcessing.count_words]; settle_isspace;
    rewrite ?count_words_digits;
    cbn [DocumentProcessing.count_words]; rewrite ?Hc; reflexivity.
Qed.

Lemma count_words_block (page_num : nat) (text : string) :
  DocumentProcessing.count_words false
    (DocumentProcessing.page_block page_num text)
  = (2 + DocumentProcessing.count_words false text)%nat.
Proof.
  unfold DocumentProcessing.page_block.
  change ("[Page " ++ RAGService.str_of_nat page_num ++ "]" ++ RAGService.nl ++ text)
    with ("[Page" ++ String " "
            (RAGService.str_of_nat page_num ++ String "]" (String "010" text))).
  rewrite count_words_space by reflexivity.
  rewrite count_words_number by reflexivity.
  reflexivity.
Qed.

Lemma count_words_joined (block : string) (blocks : list string) :
  DocumentProcessing.count_words false (ExtractionSpec.joined (block :: blocks))
  = (DocumentProcessing.count_words false block
     + DocumentProcessing.count_words false (ExtractionSpec.joined blocks))%nat.
Proof.
  destruct blocks as [|next blocks].
  - unfold ExtractionSpec.joined. cbn [String.concat DocumentProcessing.count_words].
    lia.
  - unfold ExtractionSpec.joined. rewrite concat_equation.
    change ((RAGService.nl ++ RAGService.nl)
              ++ String.concat (RAGService.nl ++ RAGService.nl) (next :: blocks))
      with (String "010" ("" ++ String "010"
              (String.concat (RAGService.nl ++ RAGService.nl) (next :: blocks)))).
    rewrite count_words_space by reflexivity.
    rewrite count_words_space by reflexivity.
    reflexivity.
Qed.

Lemma count_words_blocks (page_num : nat) (texts : list (option string)) :
  DocumentProcessing.count_words false
    (ExtractionSpec.joined (ExtractionSpec.page_blocks page_num texts))
  = (2 * ExtractionSpec.pages_with_text texts
     + ExtractionSpec.page_words texts)%nat.
Proof.
  revert page_num. induction texts as [|text texts IH]; intros page_num.
  - reflexivity.
  - cbn [ExtractionSpec.page_blocks ExtractionSpec.page_words].
    unfold ExtractionSpec.pages_with_text in *.
    destruct (LLMService.truthy text) eqn:Htext.
    + rewrite filter_cons_True by exact Htext.
      cbn [app length]. rewrite count_words_joined, count_words_block, IH. lia.
    + rewrite filter_cons_False by (rewrite Htext; discriminate).
      cbn [app]. rewrite IH. lia.
Qed.

Section ExtractionResults.
Context `{Extractors}.

(** With the settings of [__init__] a PDF that pdfplumber reads is always
    processed to a result, whatever the pages hold; its text is the joined
    blocks of the pages with a text, and [word_count] counts, beside the
    words of the pages, two words for the label of every such page. *)
Theorem pdf_word_count_includes_labels (file_path : Path.t)
    (file_content : option string) (pages : list plumber_page)
    (texts : list (option string)) (tables : list nat) :
  pdfplumber_open (DocumentProcessing.source_of file_path file_content)
    = Returned pages ->
  traverse plumber_text pages = Returned texts ->
  traverse plumber_tables pages = Returned tables ->
  exists r : DocumentProcessing.processed,
    (forall fuel : nat,
       (String.length
          (ExtractionSpec.joined (ExtractionSpec.page_blocks 1 texts)) <= fuel)%nat ->
       DocumentProcessing._process_pdf fuel DocumentProcessor.__init__
         file_path file_content = Returned r) /\
    DocumentProcessing.text r
      = ExtractionSpec.joined (ExtractionSpec.page_blocks 1 texts) /\
    DocumentProcessing.word_count r
      = (2 * ExtractionSpec.pages_with_text texts
         + ExtractionSpec.page_words texts)%nat.
Proof.
  intros Hopen Htexts Htables.
  destruct (chunk_text_terminates DocumentProcessor.__init__
              (ExtractionSpec.joined (ExtractionSpec.page_blocks 1 texts))
              None None) as [l [Hl _]]; [simpl; lia..|].
  eexists. split; [|split].
  - intros fuel Hfuel.
    rewrite (process_pdf_assembled fuel DocumentProcessor.__init__ file_path
               file_content _ _
               (plumber_attempt_run _ pages texts tables _
                  Hopen Htexts Htables)).
    unfold ExtractionSpec.assembled. cbn [fst app].
    rewrite (Hl fuel Hfuel). reflexivity.
  - reflexivity.
  - cbn [DocumentProcessing.word_count]. apply count_words_blocks.
Qed.

(** A path whose lower-cased suffix is none of [.pdf], [.png], [.jpg] and
    [.jpeg] is refused with [ValueError], whatever the content and the
    settings. *)
Theorem unsupported_format_rejected (fuel : nat) (self : DocumentProcessor.t)
    (file_path : Path.t) (file_content : option string) :
  ~ In (PyStr.lower (Path.suffix file_path)) [".pdf"; ".png"; ".jpg"; ".jpeg"] ->
  DocumentProcessing.process_document fuel self file_path file_content
  = Raised (Exn "ValueError").
Proof.
  intros Hnot. unfold DocumentProcessing.process_document. cbv zeta.
  cbn [existsb].
  repeat match goal with
  | |- context [String.eqb ?a ?b] =>
      destruct (String.eqb_spec a b) as [Heq|_];
        [exfalso; apply Hnot; rewrite Heq; simpl; tauto|]
  end.
  reflexivity.
Qed.

(** Without pytesseract an image is refused with [RuntimeError] before it
    is opened: the outcome does not depend on the image readers. *)
Theorem image_needs_tesseract (fuel : nat) (self : DocumentProcessor.t)
    (file_path : Path.t) (file_content : option string) :
  TESSERACT_AVAILABLE = false ->
  In (PyStr.lower (Path.suffix file_path)) [".png"; ".jpg"; ".jpeg"] ->
  DocumentProcessing.process_document fuel self file_path file_content
  = Raised (Exn "RuntimeError").
Proof.
  intros Hno Himage. unfold DocumentProcessing.process_document. cbv zeta.
  destruct Himage as [<-|[<-|[<-|[]]]]; cbn [String.eqb Ascii.eqb Bool.eqb existsb orb];
    unfold DocumentProcessing._process_image; rewrite Hno; reflexivity.
Qed.

(** With pytesseract and the settings of [__init__], an image that opens
    and is read is always processed to a result: the text is the OCR text
    unchanged, the metadata are the file type and the image's format, size
    and mode; a failure to open the image or to read it is passed on. *)
Theorem image_ocr_result (file_path : Path.t) (file_content : option string) :
  TESSERACT_AVAILABLE = true ->
  In (PyStr.lower (Path.suffix file_path)) [".png"; ".jpg"; ".jpeg"] ->
  (forall (fuel : nat) (e : exn),
     image_open (DocumentProcessing.source_of file_path file_content) = Raised e ->
     DocumentProcessing.process_document fuel DocumentProcessor.__init__
       file_path file_content = Raised e) /\
  (forall (fuel : nat) (img : image) (e : exn),
     image_open (DocumentProcessing.source_of file_path file_content)
       = Returned img ->
     image_to_string img = Raised e ->
     DocumentProcessing.process_document fuel DocumentProcessor.__init__
       file_path file_content = Raised e) /\
  (forall (img : image) (text : string),
     image_open (DocumentProcessing.source_of file_path file_content)
       = Returned img ->
     image_to_string img = Returned text ->
     exists r : DocumentProcessing.processed,
       (forall fuel : nat, (String.length text <= fuel)%nat ->
          DocumentProcessing.process_document fuel DocumentProcessor.__init__
            file_path file_content = Returned r) /\
       DocumentProcessing.text r = text /\
       DocumentProcessing.word_count r
         = DocumentProcessing.count_words false text /\
       DocumentProcessing.metadata r !! "file_type" = Some (MStr "image") /\
       DocumentProcessing.metadata r !! "size" = Some (MSize (size img)) /\
       DocumentProcessing.metadata r !! "mode" = Some (MStr (mode img))).
Proof.
  intros Hyes Himage.
  assert (Hdispatch : forall fuel : nat,
    DocumentProcessing.process_document fuel DocumentProcessor.__init__
      file_path file_content
    = DocumentProcessing._process_image fuel DocumentProcessor.__init__
        file_path file_content).
  { intros fuel. unfold DocumentProcessing.process_document. cbv zeta.
    destruct Himage as [<-|[<-|[<-|[]]]]; reflexivity. }
  split; [|split].
  - intros fuel e Hopen. rewrite Hdispatch.
    unfold DocumentProcessing._process_image. rewrite Hyes, Hopen. reflexivity.
  - intros fuel img e Hopen Hread. rewrite Hdispatch.
    unfold DocumentProcessing._process_image. rewrite Hyes, Hopen.
    cbn [negb mbind outcome_bind]. rewrite Hread. reflexivity.
  - intros img text Hopen Hread.
    destruct (chunk_text_terminates DocumentProcessor.__init__ text None None)
      as [l [Hl _]]; [simpl; lia..|].
    eexists. split; [|split; [|split; [|split; [|split]]]].
    + intros fuel Hfuel. rewrite Hdispatch.
      unfold DocumentProcessing._process_image. rewrite Hyes, Hopen.
      cbn [negb mbind outcome_bind]. rewrite Hread.
      cbn [mbind outcome_bind]. rewrite (Hl fuel Hfuel). reflexivity.
    + reflexivity.
    + reflexivity.
    + reflexivity.
    + cbn [DocumentProcessing.metadata].
      rewrite lookup_insert_ne by discriminate.
      rewrite lookup_insert_ne by discriminate.
      now rewrite lookup_insert_eq.
    + cbn [DocumentProcessing.metadata].
      do 3 (rewrite lookup_insert_ne by discriminate).
      now rewrite lookup_insert_eq.
Qed.

End ExtractionResults.

Lemma pdf_word_count_includes_labels_witness :
  let statement := Path.mk "/uploads" "statement.pdf" in
  let rd := Readers.readers
    (Returned [Readers.good_page "Opening balance 100" 1;
               Readers.good_page "" 0;
               Readers.good_page "Closing balance 90" 2])
    (Raised (Exn "PdfReadError")) false in
  exists r : DocumentProcessing.processed,
    @DocumentProcessing._process_pdf rd 100 DocumentProcessor.__init__
      statement None = Returned r /\
    DocumentProcessing.word_count r = 10%nat.
Proof.
  intros statement rd.
  destruct (@pdf_word_count_includes_labels rd statement None _
              [Some "Opening balance 100"; Some ""; Some "Closing balance 90"]
              [1; 0; 2]%nat eq_refl eq_refl eq_refl) as [r [Hrun [_ Hwords]]].
  exists r. split.
  - apply Hrun. apply Nat.leb_le. vm_compute. reflexivity.
  - rewrite Hwords. reflexivity.
Defined.

Lemma unsupported_format_rejected_witness :
  let report := Path.mk "/uploads" "report.DOCX" in
  let rd := Readers.readers (Returned []) (Returned []) true in
  In (PyStr.lower (Path.suffix report))
    (DocumentProcessor.supported_formats DocumentProcessor.__init__) /\
  @DocumentProcessing.process_document rd 100 DocumentProcessor.__init__
    report None = Raised (Exn "ValueError").
Proof.
  intros report rd. split.
  - vm_compute. tauto.
  - apply (@unsupported_format_rejected rd 100 DocumentProcessor.__init__
             report None).
    vm_compute. intros [Heq|[Heq|[Heq|[Heq|[]]]]]; discriminate Heq.
Defined.

Lemma image_needs_tesseract_witness :
  let receipt := Path.mk "/uploads" "receipt.JPG" in
  let rd := Readers.readers (Returned []) (Returned []) false in
  @DocumentProcessing.process_document rd 100 DocumentProcessor.__init__
    receipt None = Raised (Exn "RuntimeError").
Proof.
  intros receipt rd.
  apply (@image_needs_tesseract rd 100 DocumentProcessor.__init__ receipt None
           eq_refl).
  vm_compute. tauto.
Defined.

Lemma image_ocr_result_witness :
  let receipt := Path.mk "/uploads" "receipt.png" in
  let rd := Readers.readers (Returned []) (Returned []) true in
  exists r : DocumentProcessing.processed,
    @DocumentProcessing.process_document rd 100 DocumentProcessor.__init__
      receipt None = Returned r /\
    DocumentProcessing.text r = "Total due: 100" /\
    DocumentProcessing.word_count r = 3%nat.
Proof.
  intros receipt rd.
  assert (Himage : In (PyStr.lower (Path.suffix receipt))
                     [".png"; ".jpg"; ".jpeg"]) by (vm_compute; tauto).
  destruct (@image_ocr_result rd receipt None eq_refl Himage) as [_ [_ Hread]].
  destruct (Hread Readers.scan "Total due: 100" eq_refl eq_refl)
    as [r [Hrun [Htext [Hwords _]]]].
  exists r. split; [|split].
  - apply Hrun. apply Nat.leb_le. vm_compute. reflexivity.
  - exact Htext.
  - rewrite Hwords. reflexivity.
Defined.
